(** * Mai Shan Yun dashboard: the aggregation and forecasting engine of [api.py]

    A shallow embedding of the engine functions of [src/api.py] and the
    properties the specification states about them.

    Modelling conventions.
    - A pandas/Python scalar is a [value]: [None], or an [int], a finite
      [float], the float [nan] or a [str], either native or boxed in a numpy
      scalar ([np.generic]).  Finite floats are exact rationals: the rounding
      of binary64 arithmetic is not modelled, and on every concrete input used
      below binary64 arithmetic yields the same integers and strings.  [bool]
      cells and infinite floats are left out.
    - The one place where binary64 rounding decides an integer is the fit of
      [forecast]: [np.polyfit] and [np.poly1d] are routines of numpy, whose
      code is not part of the repository, and [forecast] is modelled over any
      implementation of the two.
    - A data frame is its list of column labels and its list of rows; a row
      maps a column label to the cell it holds.
    - A Python exception is a [Raise] in the [result] monad; [try]/[except
      Exception] is [catch]. *)

From Stdlib Require Import ZArith QArith Qabs Qround Qfield Lqa String Ascii List Bool Lia.
From Stdlib Require Import Numbers.DecimalString Numbers.DecimalPos.
From stdpp Require Import base option list sorting gmap strings.

Import ListNotations.
Local Open Scope string_scope.
Local Open Scope list_scope.
Local Open Scope Z_scope.

(** ** Exceptions *)

Inductive exn :=
| KeyError (key : string)
| TypeError
| ValueError.

Inductive result (A : Type) :=
| Ok (a : A)
| Raise (e : exn).
Arguments Ok {A} a.
Arguments Raise {A} e.

Definition bind {A B : Type} (m : result A) (f : A -> result B) : result B :=
  match m with
  | Ok a => f a
  | Raise e => Raise e
  end.

Notation "x <- m ;; k" := (bind m (fun x => k))
  (at level 100, m at next level, right associativity).

(** [try: m except Exception: h] *)
Definition catch {A} (m : result A) (h : A) : A :=
  match m with
  | Ok a => a
  | Raise _ => h
  end.

(** ** Strings *)

Module Str.

Definition lower_ascii (c : ascii) : ascii :=
  let n := nat_of_ascii c in
  if ((65 <=? n)%nat && (n <=? 90)%nat)%bool then ascii_of_nat (n + 32) else c.

(** [s.lower()] on ASCII text. *)
Fixpoint lower (s : string) : string :=
  match s with
  | EmptyString => EmptyString
  | String c s' => String (lower_ascii c) (lower s')
  end.

Fixpoint starts_with (p s : string) : bool :=
  match p, s with
  | EmptyString, _ => true
  | String a p', String b s' => if Ascii.eqb a b then starts_with p' s' else false
  | String _ _, EmptyString => false
  end.

(** [sub in s] *)
Fixpoint contains (sub s : string) : bool :=
  if starts_with sub s then true
  else match s with
       | EmptyString => false
       | String _ s' => contains sub s'
       end.

Fixpoint drop (n : nat) (s : string) : string :=
  match n, s with
  | O, _ => s
  | S n', String _ s' => drop n' s'
  | S _, EmptyString => EmptyString
  end.

(** [s.replace(old, new)] for a non-empty [old]: occurrences are replaced
    from the left and do not overlap. *)
Fixpoint replace_fuel (fuel : nat) (old new s : string) : string :=
  match fuel with
  | O => s
  | S fuel' =>
      match s with
      | EmptyString => EmptyString
      | String c s' =>
          if starts_with old s
          then new +:+ replace_fuel fuel' old new (drop (String.length old) s)
          else String c (replace_fuel fuel' old new s')
      end
  end.

Definition replace (old new s : string) : string :=
  match old with
  | EmptyString => s
  | _ => replace_fuel (String.length s) old new s
  end.

Definition is_space (c : ascii) : bool :=
  let n := nat_of_ascii c in
  ((n =? 32)%nat || ((9 <=? n)%nat && (n <=? 13)%nat))%bool.

Fixpoint lstrip (s : string) : string :=
  match s with
  | String c s' => if is_space c then lstrip s' else s
  | EmptyString => EmptyString
  end.

Fixpoint rstrip (s : string) : string :=
  match s with
  | EmptyString => EmptyString
  | String c s' =>
      match rstrip s' with
      | EmptyString => if is_space c then EmptyString else String c EmptyString
      | r => String c r
      end
  end.

(** [s.strip()] *)
Definition strip (s : string) : string := rstrip (lstrip s).

(** [sep.join(l)] *)
Fixpoint join (sep : string) (l : list string) : string :=
  match l with
  | [] => ""
  | [x] => x
  | x :: l' => x +:+ sep +:+ join sep l'
  end.

(** [s * n] *)
Fixpoint repeat (s : string) (n : nat) : string :=
  match n with
  | O => ""
  | S n' => s +:+ repeat s n'
  end.

(** [str(n)] for an [int]. *)
Definition of_Z (z : Z) : string := NilZero.string_of_int (Z.to_int z).

Definition digit_of (c : ascii) : option Z :=
  let n := nat_of_ascii c in
  if ((48 <=? n)%nat && (n <=? 57)%nat)%bool then Some (Z.of_nat n - 48) else None.

Definition is_digit (c : ascii) : bool :=
  match digit_of c with Some _ => true | None => false end.

(** A character that [strip], [replace] of "$" or "/wk", and the sign test of
    [int] all leave alone. *)
Definition is_plain (c : ascii) : bool :=
  negb (is_space c) && negb (Ascii.eqb "$" c) && negb (Ascii.eqb "/" c)
  && negb (Ascii.eqb "-" c) && negb (Ascii.eqb "+" c).

(** The digits of an [int] literal; a single underscore may separate two
    digits.  [acc] is the value read so far, [seen] tells whether the
    previous character was a digit. *)
Fixpoint digits (acc : Z) (seen : bool) (s : string) : option Z :=
  match s with
  | EmptyString => if seen then Some acc else None
  | String c s' =>
      match digit_of c with
      | Some d => digits (10 * acc + d) true s'
      | None =>
          if (Ascii.eqb c "_" && seen)%bool
          then match s' with
               | String c' _ =>
                   match digit_of c' with
                   | Some _ => digits acc false s'
                   | None => None
                   end
               | EmptyString => None
               end
          else None
      end
  end.

(** Every character of [s] passes the test [p]. *)
Fixpoint all (p : ascii → bool) (s : string) : bool :=
  match s with
  | EmptyString => true
  | String c s' => p c && all p s'
  end.

(** The number a decimal numeral denotes, after the digits read as [acc]. *)
Fixpoint uint_val (d : Decimal.uint) (acc : Z) : Z :=
  match d with
  | Decimal.Nil => acc
  | Decimal.D0 d' => uint_val d' (10 * acc)
  | Decimal.D1 d' => uint_val d' (10 * acc + 1)
  | Decimal.D2 d' => uint_val d' (10 * acc + 2)
  | Decimal.D3 d' => uint_val d' (10 * acc + 3)
  | Decimal.D4 d' => uint_val d' (10 * acc + 4)
  | Decimal.D5 d' => uint_val d' (10 * acc + 5)
  | Decimal.D6 d' => uint_val d' (10 * acc + 6)
  | Decimal.D7 d' => uint_val d' (10 * acc + 7)
  | Decimal.D8 d' => uint_val d' (10 * acc + 8)
  | Decimal.D9 d' => uint_val d' (10 * acc + 9)
  end.

(** [int(s)] for a [str]: surrounding white space, an optional sign, decimal
    digits; [None] stands for [ValueError]. *)
Definition to_Z (s : string) : option Z :=
  match strip s with
  | String "-" s' => Z.opp <$> digits 0 false s'
  | String "+" s' => digits 0 false s'
  | s' => digits 0 false s'
  end.

End Str.


(** ** Python scalars *)

Inductive scalar :=
| SInt (z : Z)        (* an [int] *)
| SFloat (q : Q)      (* a finite [float] *)
| SNaN                (* [float('nan')], the missing-data sentinel *)
| SStr (s : string).  (* a [str] *)

Inductive value :=
| VNone                 (* [None] *)
| VNative (s : scalar)  (* a native Python scalar *)
| VNumpy (s : scalar).  (* the same scalar boxed as an [np.generic] *)

Definition VInt (z : Z) : value := VNative (SInt z).
Definition VFloat (q : Q) : value := VNative (SFloat (Qred q)).
Definition VNaN : value := VNative SNaN.
Definition VStr (s : string) : value := VNative (SStr s).

(** The scalar a value carries; the numpy box is transparent to arithmetic,
    comparison and formatting. *)
Definition unbox (v : value) : option scalar :=
  match v with
  | VNone => None
  | VNative s | VNumpy s => Some s
  end.

Module Py.

(** [int(x)] of a finite float truncates toward zero. *)
Definition trunc (q : Q) : Z := Z.quot (Qnum q) (Z.pos (Qden q)).

(** The digits after the decimal point of [r / d], for [0 <= r < d]. *)
Fixpoint frac_digits (fuel : nat) (r d : Z) : string :=
  match fuel with
  | O => ""
  | S fuel' =>
      if r =? 0 then ""
      else Str.of_Z (10 * r / d) +:+ frac_digits fuel' (10 * r mod d) d
  end.

(** [str(x)] of a finite float in positional notation: the decimal
    expansion, with at least one and at most 17 digits after the point.
    This is what Python prints for a float read from a decimal literal of at
    most 15 significant digits and of magnitude in [1e-4, 1e16). *)
Definition float_str (q : Q) : string :=
  let n := Qnum q in
  let d := Z.pos (Qden q) in
  let i := Z.quot (Z.abs n) d in
  let f := frac_digits 17 (Z.rem (Z.abs n) d) d in
  (if n <? 0 then "-" else "") +:+ Str.of_Z i +:+ "." +:+
  (match f with EmptyString => "0" | _ => f end).

Definition scalar_str (s : scalar) : string :=
  match s with
  | SInt z => Str.of_Z z
  | SFloat q => float_str q
  | SNaN => "nan"
  | SStr s => s
  end.

(** [str(v)], also what an f-string field prints. *)
Definition str (v : value) : string :=
  match unbox v with
  | None => "None"
  | Some s => scalar_str s
  end.

(** [int(v)] *)
Definition int (v : value) : result Z :=
  match unbox v with
  | None => Raise TypeError
  | Some (SInt z) => Ok z
  | Some (SFloat q) => Ok (trunc q)
  | Some SNaN => Raise ValueError
  | Some (SStr s) =>
      match Str.to_Z s with
      | Some z => Ok z
      | None => Raise ValueError
      end
  end.

(** [a * b] *)
Definition mul (a b : value) : result value :=
  match unbox a, unbox b with
  | Some (SInt x), Some (SInt y) => Ok (VInt (x * y))
  | Some (SInt x), Some (SFloat y) => Ok (VFloat (inject_Z x * y))
  | Some (SFloat x), Some (SInt y) => Ok (VFloat (x * inject_Z y))
  | Some (SFloat x), Some (SFloat y) => Ok (VFloat (x * y))
  | Some SNaN, Some (SInt _ | SFloat _ | SNaN)
  | Some (SInt _ | SFloat _), Some SNaN => Ok VNaN
  | Some (SStr s), Some (SInt n)
  | Some (SInt n), Some (SStr s) => Ok (VStr (Str.repeat s (Z.to_nat n)))
  | _, _ => Raise TypeError
  end.

(** [a / k] for a non-zero [int] literal [k]: true division. *)
Definition div (a : value) (k : Z) : result value :=
  match unbox a with
  | Some (SInt x) => Ok (VFloat (inject_Z x / inject_Z k))
  | Some (SFloat x) => Ok (VFloat (x / inject_Z k))
  | Some SNaN => Ok VNaN
  | _ => Raise TypeError
  end.

(** [a >= k] and [a > k] for an [int] literal [k], as a truth value. *)
Definition ge (a : value) (k : Z) : result bool :=
  match unbox a with
  | Some (SInt x) => Ok (k <=? x)
  | Some (SFloat x) => Ok (Qle_bool (inject_Z k) x)
  | Some SNaN => Ok false
  | _ => Raise TypeError
  end.

Definition gt (a : value) (k : Z) : result bool :=
  match unbox a with
  | Some (SInt x) => Ok (k <? x)
  | Some (SFloat x) => Ok (negb (Qle_bool x (inject_Z k)))
  | Some SNaN => Ok false
  | _ => Raise TypeError
  end.

(** [v != 0 and v != ''], which never raises. *)
Definition nonzero_nonempty (v : value) : bool :=
  match unbox v with
  | Some (SInt x) => negb (x =? 0)
  | Some (SFloat x) => negb (Qeq_bool x 0)
  | Some (SStr s) => negb (String.eqb s "")
  | _ => true
  end.

(** [pd.isna(v)] on a scalar; on the scalars modelled here it always answers. *)
Definition isna (v : value) : result bool :=
  match unbox v with
  | None | Some SNaN => Ok true
  | _ => Ok false
  end.

Definition notna (v : value) : bool :=
  match unbox v with
  | None | Some SNaN => false
  | _ => true
  end.

End Py.

(** ** Record coercion

    [safe_val(v, default=0)], lines 36-46. *)

Definition safe_val_try (v dflt : value) : result value :=
  match v with
  | VNone => Ok dflt                 (* [if v is None: return default] *)
  | VNumpy s => Ok (VNative s)       (* [isinstance(v, np.generic)]: [v.item()] *)
  | VNative _ =>
      na <- Py.isna v;;               (* [if pd.isna(v): return default] *)
      Ok (if na : bool then dflt else v)
  end.

Definition safe_val (v dflt : value) : value := catch (safe_val_try v dflt) dflt.

(** ** Tables *)

Record DataFrame := {
  columns : list string;
  rows : list (gmap string value)
}.

(** The module globals, as loaded by [load_data]. *)
Record snapshot := {
  monthly_sales : gmap string DataFrame;
  ingredient_df : option DataFrame;
  shipment_df : option DataFrame
}.

(** [row[col]] *)
Definition getitem (row : gmap string value) (col : string) : result value :=
  match row !! col with
  | Some v => Ok v
  | None => Raise (KeyError col)
  end.

(** [row.get(col, default)] *)
Definition get (row : gmap string value) (col : string) (dflt : value) : value :=
  match row !! col with
  | Some v => v
  | None => dflt
  end.

(** A [for] loop whose body updates an accumulator and may raise. *)
Fixpoint for_each {A S : Type} (body : S → A → result S) (l : list A) (acc : S)
  : result S :=
  match l with
  | [] => Ok acc
  | x :: l' => acc' <- body acc x;; for_each body l' acc'
  end.

(** The first entry of an ordered keyword table whose key occurs in [s]. *)
Fixpoint first_match {A : Type} (table : list (string * A)) (s : string) (dflt : A) : A :=
  match table with
  | [] => dflt
  | (key, v) :: table' => if Str.contains key s then v else first_match table' s dflt
  end.

(** ** Weekly usage

    [weekly_calc(row)] of [ingredient_usage], lines 129-138. *)

Definition weekly_calc (row : gmap string value) : result value :=
  qty <- Py.mul (safe_val (get row "Quantity per shipment" (VInt 0)) (VInt 0))
                (safe_val (get row "Number of shipments" (VInt 0)) (VInt 0));;
  let freq := Str.lower (Py.str (safe_val (get row "frequency" (VStr "")) (VInt 0))) in
  if Str.contains "weekly" freq then Ok qty
  else if Str.contains "biweekly" freq then Py.div qty 2
  else if Str.contains "monthly" freq then Py.div qty 4
  else Ok qty.

(** ** Alerts

    [alerts()], lines 207-230. *)

Module Alert.
Record t := { type : string; title : string; message : string }.
End Alert.

Definition alerts_row (row : gmap string value) : result (list Alert.t) :=
  i <- getitem row "Ingredient";;
  let ingredient := Py.str i in
  n <- getitem row "Number of shipments";;
  high <- Py.ge n 5;;
  warning <-
    (if high : bool then
       n <- getitem row "Number of shipments";;
       c <- Py.int n;;
       f <- getitem row "frequency";;
       Ok [ {| Alert.type := "warning";
               Alert.title := ingredient +:+ " - High Frequency";
               Alert.message := Str.of_Z c +:+ " shipments " +:+ Py.str f |} ]
     else Ok []);;
  critical <-
    (if Str.contains "egg" (Str.lower ingredient) then
       q <- getitem row "Quantity per shipment";;
       n <- getitem row "Number of shipments";;
       p <- Py.mul q n;;
       total <- Py.int p;;
       u <- getitem row "Unit of shipment";;
       f <- getitem row "frequency";;
       Ok [ {| Alert.type := "critical";
               Alert.title := ingredient +:+ " - Critical Item";
               Alert.message := "Requires " +:+ Str.of_Z total +:+ " " +:+ Py.str u
                                +:+ " per " +:+ Py.str f |} ]
     else Ok []);;
  Ok (warning ++ critical).

Definition alerts (s : snapshot) : result (list Alert.t) :=
  result <-
    match shipment_df s with
    | Some df => for_each (λ acc row, e <- alerts_row row;; Ok (acc ++ e)) (rows df) []
    | None => Ok []
    end;;
  Ok (take 3 result).

(** ** Cost analysis

    [cost_analysis()], lines 263-303. *)

Module Cost.
Record t := {
  ingredient : value;
  details : string;
  cost : string;
  percentage : Z
}.
End Cost.

Definition costs : list (string * value) :=
  [ ("beef", VInt 8); ("chicken", VInt 4); ("egg", VFloat (3 # 10)); ("rice", VInt 2);
    ("ramen", VFloat (3 # 2)); ("flour", VFloat (1 # 2)); ("onion", VFloat (1 # 10));
    ("carrot", VInt 3) ].

(** The numbers the loop body computes for one row (lines 273-293). *)
Record costing := {
  cost_per_unit : value;
  weekly_qty : value;
  weekly_cost : value
}.

Definition cost_row (row : gmap string value) : result costing :=
  i <- getitem row "Ingredient";;
  let ingredient := Str.lower (Py.str i) in
  let cost_per_unit := first_match costs ingredient (VInt 3) in
  q <- getitem row "Quantity per shipment";;
  n <- getitem row "Number of shipments";;
  qty <- Py.mul q n;;
  f <- getitem row "frequency";;
  let freq := Str.lower (Py.str f) in
  weekly_qty <-
    (if Str.contains "weekly" freq then Ok qty
     else if Str.contains "biweekly" freq then Py.div qty 2
     else if Str.contains "monthly" freq then Py.div qty 4
     else Ok qty);;
  weekly_cost <- Py.mul weekly_qty cost_per_unit;;
  Ok {| cost_per_unit := cost_per_unit; weekly_qty := weekly_qty; weekly_cost := weekly_cost |}.

(** The entry appended for one row (lines 295-300). *)
Definition cost_entry (row : gmap string value) : result Cost.t :=
  c <- cost_row row;;
  i <- getitem row "Ingredient";;
  wq <- Py.int (weekly_qty c);;
  u <- getitem row "Unit of shipment";;
  wc <- Py.int (weekly_cost c);;
  r <- Py.div (weekly_cost c) 1500;;
  r100 <- Py.mul r (VInt 100);;
  pct <- Py.int r100;;
  Ok {| Cost.ingredient := i;
        Cost.details := Str.of_Z wq +:+ " " +:+ Py.str u +:+ "/week @ $"
                        +:+ Py.str (cost_per_unit c) +:+ "/" +:+ Py.str u;
        Cost.cost := "$" +:+ Str.of_Z wc +:+ "/wk";
        Cost.percentage := Z.min 100 pct |}.

(** The sort key of line 302: the integer read back from the formatted cost. *)
Definition sort_key (x : Cost.t) : result Z :=
  Py.int (VStr (Str.replace "/wk" "" (Str.replace "$" "" (Cost.cost x)))).

Fixpoint map_result {A B : Type} (f : A → result B) (l : list A) : result (list B) :=
  match l with
  | [] => Ok []
  | x :: l' => y <- f x;; ys <- map_result f l';; Ok (y :: ys)
  end.

(** [list.sort(key=..., reverse=True)] on the decorated list: a stable sort,
    keys descending, entries of equal key in their original order. *)
Fixpoint insert_desc {A : Type} (k : Z) (x : A) (l : list (Z * A)) : list (Z * A) :=
  match l with
  | [] => [(k, x)]
  | (k', y) :: l' => if k <? k' then (k', y) :: insert_desc k x l' else (k, x) :: l
  end.

Fixpoint sort_desc {A : Type} (l : list (Z * A)) : list (Z * A) :=
  match l with
  | [] => []
  | (k, x) :: l' => insert_desc k x (sort_desc l')
  end.

Definition cost_analysis (s : snapshot) : result (list Cost.t) :=
  match shipment_df s with
  | None => Ok []
  | Some df =>
      analysis <- for_each (λ acc row, e <- cost_entry row;; Ok (acc ++ [e])) (rows df) [];;
      keys <- map_result sort_key analysis;;
      Ok (take 5 (snd <$> sort_desc (zip keys analysis)))
  end.

(** ** Shipment schedule

    [shipment_schedule()], lines 232-261.  The state of numpy's global random
    generator is the stream of raw numbers it is going to produce. *)

Definition rng := nat → Z.

(** [np.random.randint(lo, hi)]: a number in [lo, hi), and the next state. *)
Definition randint (lo hi : Z) (g : rng) : Z * rng :=
  (lo + g O mod (hi - lo), λ n, g (S n)).

Module Schedule.
Record t := {
  ingredient : string;
  frequency : string;
  nextDelivery : string;
  overdue : bool
}.
End Schedule.

Definition emojis : list (string * string) :=
  [ ("beef", "🥩"); ("chicken", "🍗"); ("ramen", "🍜"); ("egg", "🥚");
    ("rice", "🌾"); ("onion", "🧅"); ("carrot", "🥕"); ("flour", "🌾") ].

(** What the loop body computes before it draws the random number: the
    [ingredient] and [frequency] fields. *)
Definition schedule_fields (row : gmap string value) : result (string * string) :=
  let ingredient := Py.str (safe_val (get row "Ingredient" (VStr "Unknown")) (VInt 0)) in
  let emoji := first_match emojis (Str.lower ingredient) "📦" in
  let frequency := safe_val (get row "frequency" (VStr "unknown")) (VInt 0) in
  num_ship <- Py.int (safe_val (get row "Number of shipments" (VInt 0)) (VInt 0));;
  Ok (emoji +:+ " " +:+ ingredient,
      Py.str frequency +:+ " (" +:+ Str.of_Z num_ship +:+ "x)").

Fixpoint schedule_loop (l : list (gmap string value)) (schedule : list Schedule.t) (g : rng)
  : result (list Schedule.t) * rng :=
  match l with
  | [] => (Ok schedule, g)
  | row :: l' =>
      match schedule_fields row with
      | Raise e => (Raise e, g)
      | Ok (ingredient, frequency) =>
          let (d, g') := randint 1 7 g in
          schedule_loop l'
            (schedule ++ [ {| Schedule.ingredient := ingredient;
                              Schedule.frequency := frequency;
                              Schedule.nextDelivery := Str.of_Z d +:+ " days";
                              Schedule.overdue := false |} ]) g'
      end
  end.

Definition shipment_schedule (s : snapshot) (g : rng) : list Schedule.t * rng :=
  match shipment_df s with
  | None => ([], g)
  | Some df =>
      let (r, g') := schedule_loop (rows df) [] g in
      (catch r [], g')
  end.

(** ** Protein forecast

    [protein_forecast()], lines 336-364. *)

Module Protein.
Record t := { amount : string; shipments : string }.
End Protein.

Definition protein_entry (row : gmap string value) (qty : value) : result Protein.t :=
  q <- Py.int qty;;
  u <- getitem row "Unit of shipment";;
  n <- getitem row "Number of shipments";;
  c <- Py.int n;;
  Ok {| Protein.amount := Str.of_Z q +:+ " " +:+ Py.str u;
        Protein.shipments := Str.of_Z c +:+ " shipments" |}.

Definition protein_row (proteins : gmap string Protein.t) (row : gmap string value)
  : result (gmap string Protein.t) :=
  i <- getitem row "Ingredient";;
  let ingredient := Str.lower (Py.str i) in
  q <- getitem row "Quantity per shipment";;
  n <- getitem row "Number of shipments";;
  qty <- Py.mul q n;;
  f <- getitem row "frequency";;
  let freq := Str.lower (Py.str f) in
  qty <-
    (if negb (Str.contains "weekly" freq)
     then (if Str.contains "biweekly" freq then Py.div qty 2 else Py.div qty 4)
     else Ok qty);;
  if Str.contains "beef" ingredient then
    e <- protein_entry row qty;; Ok (<["beef" := e]> proteins)
  else if (Str.contains "chicken" ingredient && negb (Str.contains "wing" ingredient))%bool then
    e <- protein_entry row qty;; Ok (<["chicken" := e]> proteins)
  else Ok proteins.

Definition pork_placeholder : Protein.t :=
  {| Protein.amount := "40 lbs"; Protein.shipments := "estimated" |}.

Definition protein_forecast (s : snapshot) : result (gmap string Protein.t) :=
  match shipment_df s with
  | None => Ok ∅
  | Some df =>
      proteins <- for_each protein_row (rows df) ∅;;
      Ok (match proteins !! "pork" with
          | None => <["pork" := pork_placeholder]> proteins
          | Some _ => proteins
          end)
  end.

(** ** Ingredient matrix

    [ingredient_matrix()], lines 366-395. *)

Module Matrix.
Record t := {
  menuItem : value;
  keyIngredients : string;
  protein : string;
  complexity : string
}.
End Matrix.

(** The inner loop of lines 374-378: the cleaned labels of the columns the
    row uses. *)
Fixpoint used_ingredients (row : gmap string value) (cols : list string)
  : result (list string) :=
  match cols with
  | [] => Ok []
  | col :: cols' =>
      val <- getitem row col;;
      rest <- used_ingredients row cols';;
      if (Py.notna val && Py.nonzero_nonempty val)%bool
      then Ok (Str.strip (Str.replace "(pcs)" "" (Str.replace "(count)" ""
                 (Str.replace "(g)" "" col))) :: rest)
      else Ok rest
  end.

(** The loop of lines 380-384 over the protein columns. *)
Fixpoint protein_of (row : gmap string value) (col_names : list string) : result string :=
  match col_names with
  | [] => Ok "0"
  | col_name :: col_names' =>
      match row !! col_name with
      | Some v =>
          if Py.notna v then
            positive <- Py.gt v 0;;
            if positive : bool then n <- Py.int v;; Ok (Str.of_Z n)
            else protein_of row col_names'
          else protein_of row col_names'
      | None => protein_of row col_names'
      end
  end.

Definition complexity_of (n : nat) : string :=
  if (n <=? 3)%nat then "Low" else if (n <=? 6)%nat then "Medium" else "High".

Definition matrix_row (cols : list string) (row : gmap string value) : result Matrix.t :=
  ingredients <- used_ingredients row (tail cols);;
  protein <- protein_of row ["braised beef used (g)"; "Braised Chicken(g)"; "Braised Pork(g)"];;
  let complexity := complexity_of (length ingredients) in
  item <- getitem row "Item name";;
  Ok {| Matrix.menuItem := item;
        Matrix.keyIngredients := Str.join ", " (take 4 ingredients);
        Matrix.protein := protein;
        Matrix.complexity := complexity |}.

Definition ingredient_matrix (s : snapshot) : result (list Matrix.t) :=
  match ingredient_df s with
  | None => Ok []
  | Some df =>
      for_each (λ matrix row, e <- matrix_row (columns df) row;; Ok (matrix ++ [e]))
               (rows df) []
  end.

(** ** Forecast

    [forecast()], lines 181-205. *)

Definition months : list string :=
  ["May"; "June"; "July"; "August"; "September"; "October"].

Module Forecast.
Record t := {
  labels : list string;
  actual : list (option Z);
  predicted : list (option Z)
}.
End Forecast.

Definition sumZ (l : list Z) : Z := foldr Z.add 0 l.

(** [np.arange(k)] *)
Definition arange (k : nat) : list Z := Z.of_nat <$> seq 0 k.

(** [np.polyfit] and [np.poly1d], lines 193-194, compute in binary64 inside
    numpy, whose code is not part of the repository: they are taken as they
    are, and [forecast] is modelled over any implementation of the two.  A
    binary64 value is the rational it denotes; on the abscissas 0, ..., k - 1
    and the row counts that [forecast] passes, the values numpy returns are
    finite. *)
Module Np.
Record t := {
  polyfit : list Z → list Z → Q * Q;   (* [np.polyfit(x, y, 1)], the slope first *)
  poly1d : Q * Q → Z → Q               (* [np.poly1d(z)(x)] *)
}.
End Np.

(** [available] and [actual], lines 187-188: the canonical months that are
    loaded, and the number of rows of each. *)
Definition available (s : snapshot) : list string :=
  filter (λ m, is_Some (monthly_sales s !! m)) months.

Definition actual (s : snapshot) : list Z :=
  omap (λ m, (λ df, Z.of_nat (length (rows df))) <$> monthly_sales s !! m) (available s).

Definition forecast (np : Np.t) (s : snapshot) : Forecast.t :=
  if decide (size (monthly_sales s) = 0%nat) then
    {| Forecast.labels := []; Forecast.actual := []; Forecast.predicted := [] |}
  else
    let actual := actual s in
    let k := length actual in
    let f :=
      if (2 <=? k)%nat then
        let z := Np.polyfit np (arange k) actual in
        let p := Np.poly1d np z in
        (Py.trunc (p (Z.of_nat k)), Py.trunc (p (Z.of_nat k + 1)))
      else
        let f1 := match last actual with
                  | Some y => Py.trunc (inject_Z y * (21 # 20))
                  | None => 500
                  end in
        (f1, Py.trunc (inject_Z f1 * (21 # 20))) in
    {| Forecast.labels := available s ++ ["Forecast 1"; "Forecast 2"];
       Forecast.actual := (Some <$> actual) ++ [None; None];
       Forecast.predicted :=
         replicate (k - 1) None
         ++ [Some (match last actual with Some y => y | None => 500 end);
             Some f.1; Some f.2] |}.

(** The fields of a schedule entry that the generator has no part in. *)
Definition drawn_apart (e : Schedule.t) : string * string * bool :=
  (Schedule.ingredient e, Schedule.frequency e, Schedule.overdue e).

(** ** Well-formed shipment rows *)

(** An [int] or a finite [float]. *)
Definition is_number (v : value) : bool :=
  match unbox v with
  | Some (SInt _ | SFloat _) => true
  | _ => false
  end.

(** A row that holds the five shipment fields, with numbers for the quantity
    and for the number of shipments. *)
Definition complete_row (row : gmap string value) : bool :=
  match row !! "Ingredient", row !! "Quantity per shipment", row !! "Unit of shipment",
        row !! "Number of shipments", row !! "frequency" with
  | Some _, Some q, Some _, Some n, Some _ => is_number q && is_number n
  | _, _, _, _, _ => false
  end.

(** A number that is not negative. *)
Definition nonneg (v : value) : bool :=
  match unbox v with
  | Some (SInt z) => 0 <=? z
  | Some (SFloat q) => Qle_bool 0 q
  | _ => false
  end.

(** A row whose quantity and number of shipments are not negative. *)
Definition nonneg_row (row : gmap string value) : bool :=
  match row !! "Quantity per shipment", row !! "Number of shipments" with
  | Some q, Some n => nonneg q && nonneg n
  | _, _ => false
  end.

(** A complete row that calls for no alert: fewer than 5 shipments, and no
    "egg" in the name of the ingredient. *)
Definition quiet_row (row : gmap string value) : bool :=
  match row !! "Ingredient", row !! "Number of shipments" with
  | Some i, Some n =>
      negb (Str.contains "egg" (Str.lower (Py.str i)))
      && match Py.ge n 5 with Ok high => negb high | Raise _ => false end
  | _, _ => false
  end.

(** Whether [alerts] emits the high-frequency warning for a row. *)
Definition emits_warning (row : gmap string value) : bool :=
  match alerts_row row with
  | Ok e => existsb (λ a, String.eqb (Alert.type a) "warning") e
  | Raise _ => false
  end.

(** Whether the ingredient of a row has "beef" in its name. *)
Definition names_beef (row : gmap string value) : bool :=
  match row !! "Ingredient" with
  | Some i => Str.contains "beef" (Str.lower (Py.str i))
  | None => false
  end.

(** ** Well-formed ingredient rows *)

(** The claim's count: the columns, among [cols], whose cell is present and
    neither zero nor empty. *)
Definition is_used (row : gmap string value) (col : string) : bool :=
  match row !! col with
  | Some v => Py.notna v && Py.nonzero_nonempty v
  | None => false
  end.

Definition count_used (row : gmap string value) (cols : list string) : nat :=
  length (filter (λ col, is_used row col = true) cols).

(** A row that holds a cell for each column and an item name, and whose
    protein cells, where present, are numbers or missing values. *)
Definition matrix_row_ok (cols : list string) (row : gmap string value) : bool :=
  forallb (λ col, bool_decide (is_Some (row !! col))) ("Item name" :: tail cols)
  && forallb (λ col, match row !! col with
                     | Some v => is_number v || negb (Py.notna v)
                     | None => true
                     end)
       ["braised beef used (g)"; "Braised Chicken(g)"; "Braised Pork(g)"].

(** ** The specification's own words

    Section 4.2 of the specification: "biweekly" is looked for first, then
    "monthly", then "weekly"; anything else counts as weekly.  Section 4.6:
    the forecasts are the values, rounded, of the degree-1 least-squares line
    through the row counts. *)

Module Spec.

Definition weekly_factor (frequencyText : string) : Q :=
  let t := Str.lower frequencyText in
  if Str.contains "biweekly" t then 1 # 2
  else if Str.contains "monthly" t then 1 # 4
  else if Str.contains "weekly" t then 1
  else 1.

(** [round(x)]: to the nearest integer, a tie to the even one. *)
Definition round (q : Q) : Z :=
  let f := Qfloor q in
  let r := (q - inject_Z f)%Q in
  match (r ?= 1 # 2)%Q with
  | Lt => f
  | Gt => f + 1
  | Eq => if Z.even f then f else f + 1
  end.

Definition sumQ (l : list Q) : Q := foldr Qplus 0%Q l.

(** The sum of the squared residuals of the line [a * x + b] on the points
    [(x, y)]. *)
Definition squared_error (x y : list Z) (a b : Q) : Q :=
  sumQ (zip_with (λ xi yi, let r := (a * inject_Z xi + b - inject_Z yi)%Q in (r * r)%Q) x y).

(** The coefficients [(a, b)] of the least-squares line [a * x + b], in exact
    arithmetic, by the closed-form solution of the normal equations. *)
Definition least_squares (x y : list Z) : Q * Q :=
  let n := Z.of_nat (length x) in
  let sx := sumZ x in
  let sy := sumZ y in
  let sxx := sumZ (zip_with Z.mul x x) in
  let sxy := sumZ (zip_with Z.mul x y) in
  let a := Qred (inject_Z (n * sxy - sx * sy) / inject_Z (n * sxx - sx * sx)) in
  let b := Qred ((inject_Z sy - a * inject_Z sx) / inject_Z n) in
  (a, b).

(** The value at [x] of the line of coefficients [z = (a, b)]. *)
Definition line (z : Q * Q) (x : Z) : Q := (fst z * inject_Z x + snd z)%Q.

End Spec.

(** How far the value that numpy computes at [t], for the fit of the points
    [(x, y)], lies from the least-squares line of the specification. *)
Definition off_the_line (np : Np.t) (x y : list Z) (t : Z) : Q :=
  Qabs (Np.poly1d np (Np.polyfit np x y) t - Spec.line (Spec.least_squares x y) t).

(** ** Columns *)

(** [col in df.columns] *)
Definition has_column (df : DataFrame) (col : string) : bool :=
  bool_decide (col ∈ columns df).

(** The cells of a column, in row order.  In a data frame every row holds a
    cell for every column; a cell that a row of the model does not hold reads
    as the missing value, as pandas fills it. *)
Definition cells (df : DataFrame) (col : string) : list value :=
  (λ row, get row col VNaN) <$> rows df.

(** [df[col]] *)
Definition column (df : DataFrame) (col : string) : result (list value) :=
  if has_column df col then Ok (cells df col) else Raise (KeyError col).

(** ** Metrics

    [metrics()], lines 95-120.  [float(s)] for a [str] is Python's own
    parser: it is a parameter, [None] standing for [nan]. *)

Module Metrics.
Record t := {
  totalItems : Z;
  totalIngredients : Z;
  weeklyShipments : Z;
  alertCount : Z
}.
End Metrics.

(** One cell of [Series.astype(float)]; [None] is [nan]. *)
Definition astype_float (float_of_str : string → result (option Q)) (v : value)
  : result (option Q) :=
  match unbox v with
  | None | Some SNaN => Ok None
  | Some (SInt z) => Ok (Some (inject_Z z))
  | Some (SFloat q) => Ok (Some q)
  | Some (SStr s) => float_of_str s
  end.

(** [Series.sum()], which skips [nan]. *)
Definition nansum (l : list (option Q)) : Q :=
  foldr (λ x acc, match x with Some q => Qred (q + acc) | None => acc end) 0%Q l.

(** The body of the [try] of lines 103-109: [weekly] and [alerts]. *)
Definition metrics_try (float_of_str : string → result (option Q)) (df : DataFrame)
  : result (Z * Z) :=
  weekly <-
    (if has_column df "frequency" && has_column df "Number of shipments" then
       f <- column df "frequency";;
       let freq := (λ v, Str.lower (Py.str v)) <$> f in
       n <- column df "Number of shipments";;
       num <- map_result (λ v, astype_float float_of_str (safe_val v (VInt 0))) n;;
       Ok (Py.trunc (nansum (snd <$> filter (λ p, p.1 = "weekly") (zip freq num))))
     else Ok 0);;
  alerts <-
    (if has_column df "Number of shipments" then
       n <- column df "Number of shipments";;
       high <- map_result (λ v, Py.ge (safe_val v (VInt 0)) 5) n;;
       Ok (Z.of_nat (length (filter (λ b, b = true) high)))
     else Ok 0);;
  Ok (weekly, alerts).

Definition metrics (float_of_str : string → result (option Q)) (s : snapshot) : Metrics.t :=
  let items := match ingredient_df s with
               | Some df => Z.of_nat (length (rows df))
               | None => 0
               end in
  let ingredients := match shipment_df s with
                     | Some df => Z.of_nat (length (rows df))
                     | None => 0
                     end in
  let wa := match shipment_df s with
            | Some df => catch (metrics_try float_of_str df) (0, 0)
            | None => (0, 0)
            end in
  {| Metrics.totalItems := items;
     Metrics.totalIngredients := ingredients;
     Metrics.weeklyShipments := wa.1;
     Metrics.alertCount := wa.2 |}.

(** ** Ingredient usage

    [ingredient_usage()], lines 122-149.  [DataFrame.nlargest] is pandas'
    own selection: it is a parameter, from the rows paired with their weekly
    usage to the rows it keeps. *)

Module Usage.
Record t := { labels : list string; data : list Z }.
End Usage.

Definition is_str (v : value) : bool :=
  match unbox v with
  | Some (SStr _) => true
  | _ => false
  end.

Definition ingredient_usage_try
  (nlargest : nat → list (gmap string value * value) → list (gmap string value * value))
  (df : DataFrame) : result Usage.t :=
  weekly_usage <- map_result weekly_calc (rows df);;
  if forallb (λ v, negb (Py.notna v)) weekly_usage then
    Ok {| Usage.labels := []; Usage.data := [] |}
  else if existsb is_str weekly_usage then
    Raise TypeError  (* [nlargest] refuses a column of dtype object *)
  else
    let top6 := nlargest 6%nat (zip (rows df) weekly_usage) in
    let labels :=
      if has_column df "Ingredient"
      then (λ p, Py.str (get p.1 "Ingredient" VNaN)) <$> top6
      else [] in
    data <- map_result (λ p, Py.int (safe_val p.2 (VInt 0))) top6;;
    Ok {| Usage.labels := labels; Usage.data := data |}.

Definition ingredient_usage
  (nlargest : nat → list (gmap string value * value) → list (gmap string value * value))
  (s : snapshot) : Usage.t :=
  match shipment_df s with
  | None => {| Usage.labels := []; Usage.data := [] |}
  | Some df =>
      catch (ingredient_usage_try nlargest df) {| Usage.labels := []; Usage.data := [] |}
  end.

(** ** Sales trends

    [sales_trends()], lines 151-179. *)

Module Trends.
Record dataset := { label : string; data : list Z }.
Record t := { labels : list string; datasets : list dataset }.
End Trends.

Definition categories : list (string * list string) :=
  [ ("Ramen Dishes", ["Ramen"]); ("Fried Rice", ["Fried Rice"]);
    ("Wings & Cutlets", ["Wing"; "Cutlet"]); ("Rice Noodles", ["Rice Noodle"]) ].

(** [df['Group'].astype(str).str.contains(keyword, case=False, na=False).sum()]
    for a keyword of letters and spaces, on ASCII text. *)
Definition count_group (df : DataFrame) (keyword : string) : Z :=
  Z.of_nat (length (filter (λ v, Str.contains (Str.lower keyword) (Str.lower (Py.str v)) = true)
                           (cells df "Group"))).

(** The inner loops of lines 171-174. *)
Definition category_count (df : DataFrame) (keywords : list string) : Z :=
  if has_column df "Group" then sumZ (count_group df <$> keywords) else 0.

Definition sales_trends (s : snapshot) : Trends.t :=
  if decide (size (monthly_sales s) = 0%nat) then
    {| Trends.labels := []; Trends.datasets := [] |}
  else
    let available := available s in
    {| Trends.labels := available;
       Trends.datasets :=
         (λ c, {| Trends.label := c.1;
                  Trends.data :=
                    omap (λ month, (λ df, category_count df c.2) <$> monthly_sales s !! month)
                         available |}) <$> categories |}.

(** ** Recommendations

    [recommendations()], lines 305-334. *)

Module Rec.
Record t := { type : string; title : string; message : string }.
End Rec.

Definition fresh : list string := ["Green Onion"; "Cilantro"; "Bokchoy"].

(** [', '.join(l)], which refuses what is not a [str]. *)
Definition join_items (l : list value) : result string :=
  items <- map_result (λ v, match unbox v with
                            | Some (SStr s) => Ok s
                            | _ => Raise TypeError
                            end) l;;
  Ok (Str.join ", " items).

(** [item in series.values] for a [str] item. *)
Definition is_in (item : string) (l : list value) : bool :=
  existsb (λ v, match unbox v with
                | Some (SStr s) => String.eqb s item
                | _ => false
                end) l.

Definition bulk_buying (items : string) : Rec.t :=
  {| Rec.type := "success";
     Rec.title := "Bulk Buying Opportunity";
     Rec.message := "Consider monthly contracts for " +:+ items +:+ " to save 10-15%" |}.

Definition reduce_waste : Rec.t :=
  {| Rec.type := "success";
     Rec.title := "Reduce Waste";
     Rec.message := "Fresh vegetables have high spoilage. Optimize for 5-day freshness." |}.

Definition menu_engineering (n : nat) : Rec.t :=
  {| Rec.type := "success";
     Rec.title := "Menu Engineering";
     Rec.message := "Promote dishes with overlapping ingredients ("
                    +:+ Str.of_Z (Z.of_nat n) +:+ " items)." |}.

(** Lines 309-325: what the shipment table contributes. *)
Definition shipment_recs (df : DataFrame) : result (list Rec.t) :=
  n <- column df "Number of shipments";;
  mask <- map_result (λ v, Py.ge v 4) n;;
  let high_freq :=
    {| columns := columns df;
       rows := fst <$> filter (λ p, p.2 = true) (zip (rows df) mask) |} in
  bulk <-
    (if (0 <? length (rows high_freq))%nat then
       i <- column high_freq "Ingredient";;
       items <- join_items (take 2 i);;
       Ok [bulk_buying items]
     else Ok []);;
  i <- column df "Ingredient";;
  Ok (bulk ++ (if existsb (λ item, is_in item i) fresh then [reduce_waste] else [])).

Definition recommendations (s : snapshot) : result (list Rec.t) :=
  recs <-
    match shipment_df s with
    | Some df => shipment_recs df
    | None => Ok []
    end;;
  Ok (recs ++ match ingredient_df s with
              | Some df => [menu_engineering (length (rows df))]
              | None => []
              end).

(** ** Tables used as examples *)

Definition mkrow (l : list (string * value)) : gmap string value := list_to_map l.

(** A row of the shipment table. *)
Definition shipment (ingredient : string) (qty : value) (unit : string) (n : value)
  (frequency : string) : gmap string value :=
  mkrow [ ("Ingredient", VStr ingredient); ("Quantity per shipment", qty);
          ("Unit of shipment", VStr unit); ("Number of shipments", n);
          ("frequency", VStr frequency) ].

Definition shipment_columns : list string :=
  ["Ingredient"; "Quantity per shipment"; "Unit of shipment"; "Number of shipments";
   "frequency"].

(** A snapshot with only a shipment table. *)
Definition shipments_only (l : list (gmap string value)) : snapshot :=
  {| monthly_sales := ∅;
     ingredient_df := None;
     shipment_df := Some {| columns := shipment_columns; rows := l |} |}.

(** A snapshot with only sales tables, each of a given number of rows. *)
Definition sales_only (l : list (string * nat)) : snapshot :=
  {| monthly_sales :=
       list_to_map ((λ p, (p.1, {| columns := ["Group"]; rows := replicate p.2 ∅ |})) <$> l);
     ingredient_df := None;
     shipment_df := None |}.

(** "Egg,30,dozen,5,Biweekly" *)
Definition egg_biweekly : gmap string value :=
  shipment "Egg" (VInt 30) "dozen" (VInt 5) "Biweekly".

(** "Egg,,dozen,2,weekly": the quantity is missing, so pandas reads [nan]. *)
Definition egg_no_quantity : gmap string value :=
  shipment "Egg" VNaN "dozen" (VInt 2) "weekly".

(** A shipment table without its "Number of shipments" column. *)
Definition no_count_column : snapshot :=
  {| monthly_sales := ∅;
     ingredient_df := None;
     shipment_df :=
       Some {| columns := ["Ingredient"]; rows := [mkrow [("Ingredient", VStr "Rice")]] |} |}.

(** "Egg,30,dozen,5,weekly" and "Rice,20,lbs,4,weekly" *)
Definition egg_weekly : gmap string value :=
  shipment "Egg" (VInt 30) "dozen" (VInt 5) "weekly".

Definition rice_weekly : gmap string value :=
  shipment "Rice" (VInt 20) "lbs" (VInt 4) "weekly".

(** "Braised Beef,40,lbs,2,weekly" *)
Definition beef_weekly : gmap string value :=
  shipment "Braised Beef" (VInt 40) "lbs" (VInt 2) "weekly".

(** An ingredient table of one menu item that uses four ingredients. *)
Definition matrix_columns : list string :=
  ["Item name"; "braised beef used (g)"; "Egg(count)"; "Ramen (count)"; "Rice(g)";
   "Peas(g)"; "Green Onion"].

Definition beef_ramen : gmap string value :=
  mkrow [ ("Item name", VStr "Beef Ramen"); ("braised beef used (g)", VInt 140);
          ("Egg(count)", VInt 1); ("Ramen (count)", VInt 1); ("Rice(g)", VNaN);
          ("Peas(g)", VInt 0); ("Green Onion", VInt 20) ].

Definition ingredients_only (cols : list string) (l : list (gmap string value)) : snapshot :=
  {| monthly_sales := ∅;
     ingredient_df := Some {| columns := cols; rows := l |};
     shipment_df := None |}.

(** A generator whose raw outputs are 0, 1, 2, ... *)
Definition counting : rng := Z.of_nat.


Definition uneven_sales : snapshot :=
  sales_only [("May", 10%nat); ("June", 20%nat); ("July", 32%nat)].

Definition two_months : snapshot :=
  sales_only [("May", 10%nat); ("June", 20%nat)].

(** Two stand-ins for numpy: one that computes in exact arithmetic, and one
    whose values land 2^-47 below the line, as those of binary64 can. *)
Definition exact_fit : Np.t :=
  {| Np.polyfit := Spec.least_squares; Np.poly1d := Spec.line |}.

Definition fit_below : Np.t :=
  {| Np.polyfit := Spec.least_squares;
     Np.poly1d := λ z x, (Spec.line z x - (1 # 140737488355328))%Q |}.

(** "Rice,5,lbs,1,weekly" costs 5 * 2 = 10 a week, and "Ramen,7,rolls,1,weekly"
    costs 7 * 1.5 = 10.5 a week. *)
Definition rice_5 : gmap string value :=
  shipment "Rice" (VInt 5) "lbs" (VInt 1) "weekly".

Definition ramen_7 : gmap string value :=
  shipment "Ramen" (VInt 7) "rolls" (VInt 1) "weekly".

(** "Beef,40,lbs,2,Monthly" and "Beef,40,lbs,2,daily" *)
Definition beef_monthly : gmap string value :=
  shipment "Beef" (VInt 40) "lbs" (VInt 2) "Monthly".

Definition beef_daily : gmap string value :=
  shipment "Beef" (VInt 40) "lbs" (VInt 2) "daily".

(** "Onion,10,lbs,2,weekly" *)
Definition onion_weekly : gmap string value :=
  shipment "Onion" (VInt 10) "lbs" (VInt 2) "weekly".

(** "Rice,20,lbs,many,weekly": the number of shipments is text. *)
Definition rice_many : gmap string value :=
  shipment "Rice" (VInt 20) "lbs" (VStr "many") "weekly".



(** Sales tables of May and July, with their dish groups. *)
Definition sale (group : string) : gmap string value := mkrow [("Group", VStr group)].

Definition may_july_sales : snapshot :=
  {| monthly_sales :=
       list_to_map
         [ ("July", {| columns := ["Group"];
                       rows := [sale "Tonkotsu Ramen"; sale "Fried Rice"] |});
           ("May", {| columns := ["Group"];
                      rows := [sale "Chicken Wing and Cutlet Combo"; sale "Spicy RAMEN";
                               sale "Rice Noodle Soup"] |}) ];
     ingredient_df := None;
     shipment_df := None |}.

(** A stand-in for Python's [float(s)] that refuses every text. *)
Definition no_float (s : string) : result (option Q) := Raise ValueError.

(** A stand-in for [DataFrame.nlargest] that keeps the first rows. *)
Definition first_rows (n : nat) (l : list (gmap string value * value))
  : list (gmap string value * value) := take n l.

(** Shipments and a menu table of one item. *)
Definition shipments_and_menu (l : list (gmap string value)) : snapshot :=
  {| monthly_sales := ∅;
     ingredient_df := Some {| columns := matrix_columns; rows := [beef_ramen] |};
     shipment_df := Some {| columns := shipment_columns; rows := l |} |}.

(** A menu table beside a shipment table that has lost its count column. *)
Definition menu_and_no_count_column : snapshot :=
  {| monthly_sales := ∅;
     ingredient_df := Some {| columns := matrix_columns; rows := [beef_ramen] |};
     shipment_df :=
       Some {| columns := ["Ingredient"]; rows := [mkrow [("Ingredient", VStr "Rice")]] |} |}.

(** The forecast of a table whose only protein is 80 lbs of beef in 2
    shipments. *)
Definition beef_80 : gmap string Protein.t :=
  <["beef" := {| Protein.amount := "80 lbs"; Protein.shipments := "2 shipments" |}]> ∅.

Definition beef_forecast : gmap string Protein.t :=
  <["pork" := pork_placeholder]> beef_80.

Definition no_tables : snapshot :=
  {| monthly_sales := ∅; ingredient_df := None; shipment_df := None |}.

(** * Properties *)

(** ** The error monad *)

Lemma bind_Ok {A B : Type} (m : result A) (f : A → result B) (b : B) :
  bind m f = Ok b → ∃ a, m = Ok a ∧ f a = Ok b.
Proof. destruct m as [a|e]; simpl; [eauto | discriminate]. Qed.

Ltac inv_bind H :=
  let a := fresh "v" in
  let Ha := fresh "E" in
  apply bind_Ok in H as (a & Ha & H).

(** ** Substrings *)

Lemma starts_with_contains (p s : string) :
  Str.starts_with p s = true → Str.contains p s = true.
Proof. destruct s; simpl; intros ->; reflexivity. Qed.

Lemma contains_cons (p : string) (c : ascii) (s : string) :
  Str.contains p s = true → Str.contains p (String c s) = true.
Proof.
  intros H. cbn [Str.contains]. rewrite H. by destruct (Str.starts_with p (String c s)).
Qed.

(** Every text that contains "biweekly" contains "weekly". *)
Lemma contains_biweekly_weekly (s : string) :
  Str.contains "biweekly" s = true → Str.contains "weekly" s = true.
Proof.
  induction s as [|c s IH]; [discriminate|].
  cbn [Str.contains].
  destruct (Str.starts_with "biweekly" (String c s)) eqn:Hp.
  - intros _. clear IH.
    cbn [Str.starts_with] in Hp.
    destruct (Ascii.eqb "b" c); [|discriminate].
    destruct s as [|c' s]; [discriminate|].
    destruct (Ascii.eqb "i" c'); [|discriminate].
    do 2 apply contains_cons. by apply starts_with_contains.
  - intros H. apply contains_cons. auto.
Qed.

(** ** Frequency scaling *)

(** C1.  The specification gives a frequency text that contains "biweekly"
    the factor 0.5.  In [weekly_calc] and in [cost_analysis] the test for
    "weekly" comes first and every such text passes it, so the quantity is
    left unscaled (factor 1.0): the "biweekly" branch is never taken. *)
Theorem biweekly_is_never_halved (row : gmap string value) (s : string) :
  row !! "frequency" = Some (VStr s) →
  Str.contains "biweekly" (Str.lower s) = true →
  Spec.weekly_factor s = 1 # 2
  ∧ weekly_calc row
    = Py.mul (safe_val (get row "Quantity per shipment" (VInt 0)) (VInt 0))
             (safe_val (get row "Number of shipments" (VInt 0)) (VInt 0))
  ∧ ∀ c, cost_row row = Ok c →
      ∃ q n, row !! "Quantity per shipment" = Some q
             ∧ row !! "Number of shipments" = Some n
             ∧ Py.mul q n = Ok (weekly_qty c).
Proof.
  intros Hf Hb. pose proof (contains_biweekly_weekly _ Hb) as Hw.
  split; [|split].
  - unfold Spec.weekly_factor. by rewrite Hb.
  - unfold weekly_calc, get. rewrite Hf.
    change (Py.str (safe_val (VStr s) (VInt 0))) with s. rewrite Hw.
    by destruct (Py.mul _ _).
  - intros c Hc. unfold cost_row, getitem in Hc. rewrite Hf in Hc.
    destruct (row !! "Ingredient"); [|discriminate].
    destruct (row !! "Quantity per shipment") as [q|]; [|discriminate].
    destruct (row !! "Number of shipments") as [n|]; [|discriminate].
    cbn [bind] in Hc.
    destruct (Py.mul q n) as [qty|] eqn:Hq; [|discriminate].
    cbn [bind] in Hc. change (Py.str (VStr s)) with s in Hc.
    rewrite Hw in Hc. cbn [bind] in Hc.
    destruct (Py.mul qty _); [|discriminate].
    injection Hc as <-. exists q, n. auto.
Qed.

Lemma biweekly_is_never_halved_witness :
  Spec.weekly_factor "Biweekly" = 1 # 2
  ∧ weekly_calc egg_biweekly = Ok (VInt 150)
  ∧ weekly_qty <$> (match cost_row egg_biweekly with Ok c => Some c | Raise _ => None end)
    = Some (VInt 150).
Proof.
  destruct (biweekly_is_never_halved egg_biweekly "Biweekly" eq_refl eq_refl)
    as (Hs & Hw & _).
  split; [exact Hs|]. split; [rewrite Hw; reflexivity | reflexivity].
Defined.

(** ** Record coercion *)

Lemma safe_val_None (d : value) : safe_val VNone d = d.
Proof. reflexivity. Qed.

Lemma safe_val_native_nan (d : value) : safe_val VNaN d = d.
Proof. reflexivity. Qed.

(** Whatever the body raises, the handler returns the default. *)
Lemma safe_val_failure (v d : value) (e : exn) :
  safe_val_try v d = Raise e → safe_val v d = d.
Proof. unfold safe_val. by intros ->. Qed.

(** The result is a native scalar or the default. *)
Lemma safe_val_native_or_default (v d : value) :
  safe_val v d = d ∨ ∃ s, safe_val v d = VNative s.
Proof.
  destruct v as [|s|s]; [by left| |right; by exists s].
  destruct s; (by left) || (right; eauto).
Qed.

(** Away from a boxed [nan], and for a default that is not boxed, a second
    application changes nothing. *)
Lemma safe_val_idempotent (v d : value) :
  v ≠ VNumpy SNaN → (∀ s, d ≠ VNumpy s) →
  safe_val (safe_val v d) d = safe_val v d.
Proof.
  intros Hv Hd. destruct v as [|s|s].
  - cbn. destruct d as [|s|s]; [done| |by destruct (Hd s)]. by destruct s.
  - destruct s; try reflexivity.
    cbn. destruct d as [|s|s]; [done| |by destruct (Hd s)]. by destruct s.
  - destruct s; try reflexivity. by destruct Hv.
Qed.

(** C8.  [safe_val] returns for every input, but a [nan] boxed in a numpy
    scalar is unwrapped before the not-a-number test is reached: the result is
    the native [nan], not the default, and a second application turns it into
    the default, so the function is not idempotent there. *)
Theorem safe_val_boxed_nan :
  safe_val (VNumpy SNaN) (VInt 0) = VNaN
  ∧ safe_val (safe_val (VNumpy SNaN) (VInt 0)) (VInt 0) = VInt 0
  ∧ safe_val (safe_val (VNumpy SNaN) (VInt 0)) (VInt 0) ≠ safe_val (VNumpy SNaN) (VInt 0).
Proof.
  repeat split; try (vm_compute; reflexivity).
  all: vm_compute; discriminate.
Qed.

(** ** Failures that reach the caller *)

(** With every table absent, each operation returns its empty structure. *)
Lemma absent_tables_defaults (np : Np.t) (s : snapshot) (g : rng) :
  monthly_sales s = ∅ → ingredient_df s = None → shipment_df s = None →
  alerts s = Ok [] ∧ cost_analysis s = Ok [] ∧ protein_forecast s = Ok ∅
  ∧ ingredient_matrix s = Ok [] ∧ shipment_schedule s g = ([], g)
  ∧ forecast np s = {| Forecast.labels := []; Forecast.actual := [];
                    Forecast.predicted := [] |}.
Proof.
  intros Hm Hi Hs.
  unfold alerts, cost_analysis, protein_forecast, ingredient_matrix, shipment_schedule,
    forecast.
  rewrite Hm, Hi, Hs. repeat split.
Qed.

(** C2.  With every table absent, [alerts] and [cost_analysis] return their
    empty lists; but a missing field value or a missing column makes them
    raise, where [shipment_schedule], on the same table, returns. *)
Theorem alerts_and_cost_analysis_raise :
  alerts no_tables = Ok [] ∧ cost_analysis no_tables = Ok []
  ∧ alerts (shipments_only [egg_no_quantity]) = Raise ValueError
  ∧ cost_analysis (shipments_only [egg_no_quantity]) = Raise ValueError
  ∧ alerts no_count_column = Raise (KeyError "Number of shipments")
  ∧ cost_analysis no_count_column = Raise (KeyError "Quantity per shipment")
  ∧ length (shipment_schedule (shipments_only [egg_no_quantity]) (λ _, 0)).1 = 1%nat.
Proof. repeat split; vm_compute; reflexivity. Qed.

(** ** Arithmetic on numbers never raises *)

Lemma is_number_inv (v : value) :
  is_number v = true → (∃ z, unbox v = Some (SInt z)) ∨ (∃ q, unbox v = Some (SFloat q)).
Proof.
  unfold is_number. destruct (unbox v) as [[z|q| |s]|]; try discriminate; eauto.
Qed.

Lemma int_number (v : value) : is_number v = true → ∃ z, Py.int v = Ok z.
Proof.
  intros [[z H]|[q H]]%is_number_inv; unfold Py.int; rewrite H; eauto.
Qed.

Lemma mul_number (a b : value) :
  is_number a = true → is_number b = true →
  ∃ p, Py.mul a b = Ok p ∧ is_number p = true.
Proof.
  intros [[x Ha]|[x Ha]]%is_number_inv [[y Hb]|[y Hb]]%is_number_inv;
    unfold Py.mul; rewrite Ha, Hb; eauto.
Qed.

Lemma div_number (a : value) (k : Z) :
  is_number a = true → ∃ p, Py.div a k = Ok p ∧ is_number p = true.
Proof.
  intros [[x Ha]|[x Ha]]%is_number_inv; unfold Py.div; rewrite Ha; eauto.
Qed.

Lemma ge_number (a : value) (k : Z) : is_number a = true → ∃ b, Py.ge a k = Ok b.
Proof.
  intros [[x Ha]|[x Ha]]%is_number_inv; unfold Py.ge; rewrite Ha; eauto.
Qed.

Lemma complete_row_fields (row : gmap string value) :
  complete_row row = true →
  ∃ i q u n f,
    row !! "Ingredient" = Some i ∧ row !! "Quantity per shipment" = Some q
    ∧ row !! "Unit of shipment" = Some u ∧ row !! "Number of shipments" = Some n
    ∧ row !! "frequency" = Some f ∧ is_number q = true ∧ is_number n = true.
Proof.
  unfold complete_row.
  destruct (row !! "Ingredient") as [i|]; [|discriminate].
  destruct (row !! "Quantity per shipment") as [q|]; [|discriminate].
  destruct (row !! "Unit of shipment") as [u|]; [|discriminate].
  destruct (row !! "Number of shipments") as [n|]; [|discriminate].
  destruct (row !! "frequency") as [f|]; [|discriminate].
  intros [Hq Hn]%andb_prop. exists i, q, u, n, f. auto 10.
Qed.

(** ** Loops that append *)

Section for_each_append.
Context {A B C : Type} (f : A → result B) (g : B → list C).

Lemma for_each_append_Ok (l : list A) (acc out : list C) :
  for_each (λ acc x, e <- f x;; Ok (acc ++ g e)) l acc = Ok out →
  ∃ es, Forall2 (λ x e, f x = Ok e) l es ∧ out = acc ++ concat (g <$> es).
Proof.
  revert acc. induction l as [|x l IH]; intros acc H; cbn in H.
  - injection H as <-. exists []. split; [constructor|]. by rewrite app_nil_r.
  - destruct (f x) as [e|] eqn:Hx; [|discriminate].
    cbn in H. apply IH in H as (es & Hes & ->).
    exists (e :: es). split; [by constructor|]. cbn. by rewrite <- app_assoc.
Qed.

Lemma for_each_append_total (l : list A) (acc : list C) :
  Forall (λ x, ∃ e, f x = Ok e) l →
  ∃ out, for_each (λ acc x, e <- f x;; Ok (acc ++ g e)) l acc = Ok out.
Proof.
  intros H. revert acc. induction H as [|x l [e Hx] _ IH]; intros acc; cbn.
  - eauto.
  - rewrite Hx. cbn. apply IH.
Qed.

End for_each_append.

(** ** Alerts *)

(** What [alerts_row] emits for a complete row. *)
Lemma alerts_row_complete (row : gmap string value) (i q u n f : value) :
  row !! "Ingredient" = Some i → row !! "Quantity per shipment" = Some q →
  row !! "Unit of shipment" = Some u → row !! "Number of shipments" = Some n →
  row !! "frequency" = Some f → is_number q = true → is_number n = true →
  ∃ (high : bool) (c total : Z) (p : value),
    Py.ge n 5 = Ok high ∧ Py.int n = Ok c ∧ Py.mul q n = Ok p ∧ Py.int p = Ok total
    ∧ alerts_row row
      = Ok ((if high
             then [ {| Alert.type := "warning";
                       Alert.title := Py.str i +:+ " - High Frequency";
                       Alert.message := Str.of_Z c +:+ " shipments " +:+ Py.str f |} ]
             else [])
            ++ (if Str.contains "egg" (Str.lower (Py.str i))
                then [ {| Alert.type := "critical";
                          Alert.title := Py.str i +:+ " - Critical Item";
                          Alert.message := "Requires " +:+ Str.of_Z total +:+ " "
                                           +:+ Py.str u +:+ " per " +:+ Py.str f |} ]
                else [])).
Proof.
  intros Hi Hq Hu Hn Hf Nq Nn.
  destruct (ge_number n 5 Nn) as [high Hhigh].
  destruct (int_number n Nn) as [c Hc].
  destruct (mul_number q n Nq Nn) as (p & Hp & Np).
  destruct (int_number p Np) as [total Ht].
  exists high, c, total, p. repeat (split; [assumption|]).
  unfold alerts_row, getitem. rewrite Hi, Hq, Hu, Hn, Hf. cbn [bind].
  rewrite Hhigh. cbn [bind].
  destruct high, (Str.contains "egg" (Str.lower (Py.str i)));
    cbn [bind]; rewrite ?Hc, ?Hp; cbn [bind]; rewrite ?Ht; reflexivity.
Qed.

(** C7.  [alerts] never returns more than 3 alerts, and they are the first 3
    of what the rows emit, in row order; it returns on every table of complete
    rows.  A complete row with 5 shipments emits the high-frequency warning,
    one with 4 does not, and one whose ingredient contains "egg", whatever the
    case, emits the critical alert. *)
Theorem alerts_at_most_three_in_order (s : snapshot) (df : DataFrame) :
  shipment_df s = Some df →
  (∀ l, alerts s = Ok l →
        (length l ≤ 3)%nat
        ∧ ∃ es, Forall2 (λ row e, alerts_row row = Ok e) (rows df) es
                ∧ l = take 3 (concat es))
  ∧ (Forall (λ row, complete_row row = true) (rows df) → ∃ l, alerts s = Ok l)
  ∧ ∀ row i f, complete_row row = true →
      row !! "Ingredient" = Some i → row !! "frequency" = Some f →
      ∃ e, alerts_row row = Ok e
        ∧ (row !! "Number of shipments" = Some (VInt 5) →
             {| Alert.type := "warning";
                Alert.title := Py.str i +:+ " - High Frequency";
                Alert.message := "5 shipments " +:+ Py.str f |} ∈ e)
        ∧ (row !! "Number of shipments" = Some (VInt 4) →
             ∀ a, a ∈ e → Alert.type a ≠ "warning")
        ∧ (Str.contains "egg" (Str.lower (Py.str i)) = true →
             ∃ a, a ∈ e ∧ Alert.type a = "critical"
                  ∧ Alert.title a = Py.str i +:+ " - Critical Item").
Proof.
  intros Hdf. split; [|split].
  - intros l H. unfold alerts in H. rewrite Hdf in H.
    inv_bind H. injection H as <-. split.
    + rewrite length_take. lia.
    + apply (for_each_append_Ok alerts_row id) in E as (es & Hes & ->).
      exists es. split; [assumption|]. by rewrite list_fmap_id.
  - intros Hall. unfold alerts. rewrite Hdf.
    destruct (for_each_append_total alerts_row id (rows df) []) as [out Hout].
    + eapply Forall_impl; [exact Hall|]. intros row Hrow. cbn in Hrow.
      apply complete_row_fields in Hrow as (i & q & u & n & f & Hi & Hq & Hu & Hn & Hf & Nq & Nn).
      destruct (alerts_row_complete row i q u n f) as (? & ? & ? & ? & _ & _ & _ & _ & ->);
        eauto.
    + cbn in Hout. rewrite Hout. cbn. eauto.
  - intros row i f Hrow Hi Hf.
    apply complete_row_fields in Hrow
      as (i' & q & u & n & f' & Hi' & Hq & Hu & Hn & Hf' & Nq & Nn).
    assert (i' = i) as -> by congruence. assert (f' = f) as -> by congruence.
    destruct (alerts_row_complete row i q u n f)
      as (high & c & total & p & Hhigh & Hc & _ & _ & Hrow); try assumption.
    eexists. split; [exact Hrow|]. split; [|split].
    + intros H5. rewrite H5 in Hn. injection Hn as <-.
      cbn in Hhigh, Hc. injection Hhigh as <-. injection Hc as <-.
      apply elem_of_app. left. apply list_elem_of_singleton. reflexivity.
    + intros H4 a. rewrite H4 in Hn. injection Hn as <-.
      cbn in Hhigh. injection Hhigh as <-. cbn [app].
      destruct (Str.contains "egg" _).
      * intros ->%list_elem_of_singleton. discriminate.
      * intros []%elem_of_nil.
    + intros ->. eexists. split.
      * apply elem_of_app. right. apply list_elem_of_singleton. reflexivity.
      * split; reflexivity.
Qed.

Lemma alerts_at_most_three_in_order_witness :
  (∃ l, alerts (shipments_only [egg_weekly; rice_weekly; egg_biweekly]) = Ok l
        ∧ (length l ≤ 3)%nat)
  ∧ ∃ e, alerts_row egg_weekly = Ok e ∧ ∃ a, a ∈ e ∧ Alert.type a = "critical".
Proof.
  pose proof (alerts_at_most_three_in_order
                (shipments_only [egg_weekly; rice_weekly; egg_biweekly]) _ eq_refl)
    as (Hcap & Htotal & Hrow).
  split.
  - destruct Htotal as [l Hl]; [repeat constructor|].
    exists l. split; [exact Hl|]. exact (proj1 (Hcap l Hl)).
  - destruct (Hrow egg_weekly (VStr "Egg") (VStr "weekly") eq_refl eq_refl eq_refl)
      as (e & He & _ & _ & Hegg).
    exists e. split; [exact He|].
    destruct (Hegg eq_refl) as (a & Ha & Ht & _). exists a. auto.
Defined.


(** ** Protein forecast *)

Lemma for_each_invariant {A S : Type} (P : S → Prop) (body : S → A → result S)
  (l : list A) (acc out : S) :
  (∀ acc x acc', body acc x = Ok acc' → P acc → P acc') →
  for_each body l acc = Ok out → P acc → P out.
Proof.
  intros Hstep. revert acc. induction l as [|x l IH]; intros acc H Hacc; cbn in H.
  - by injection H as <-.
  - inv_bind H. eauto.
Qed.

Lemma for_each_total {A S : Type} (body : S → A → result S) (l : list A) (acc : S) :
  Forall (λ x, ∀ acc, ∃ acc', body acc x = Ok acc') l →
  ∃ out, for_each body l acc = Ok out.
Proof.
  intros H. revert acc. induction H as [|x l Hx _ IH]; intros acc; cbn; [eauto|].
  destruct (Hx acc) as [acc' ->]. cbn. apply IH.
Qed.

(** A row never writes the "pork" key. *)
Lemma protein_row_pork (proteins proteins' : gmap string Protein.t)
  (row : gmap string value) :
  protein_row proteins row = Ok proteins' →
  proteins !! "pork" = None → proteins' !! "pork" = None.
Proof.
  intros H Hp. unfold protein_row in H.
  do 6 inv_bind H.
  destruct (Str.contains "beef" _).
  - inv_bind H. injection H as <-. by rewrite lookup_insert_ne.
  - destruct (_ && _)%bool.
    + inv_bind H. injection H as <-. by rewrite lookup_insert_ne.
    + by injection H as <-.
Qed.

Lemma protein_row_complete (proteins : gmap string Protein.t) (row : gmap string value) :
  complete_row row = true → ∃ proteins', protein_row proteins row = Ok proteins'.
Proof.
  intros (i & q & u & n & f & Hi & Hq & Hu & Hn & Hf & Nq & Nn)%complete_row_fields.
  destruct (mul_number q n Nq Nn) as (qty & Hqty & Nqty).
  destruct (div_number qty 2 Nqty) as (q2 & Hq2 & Nq2).
  destruct (div_number qty 4 Nqty) as (q4 & Hq4 & Nq4).
  destruct (int_number n Nn) as [c Hc].
  assert (∀ x, is_number x = true → ∃ e, protein_entry row x = Ok e) as Hentry.
  { intros x [z Hz]%int_number. unfold protein_entry, getitem.
    rewrite Hz, Hu, Hn. cbn [bind]. rewrite Hc. cbn [bind]. eauto. }
  unfold protein_row, getitem. rewrite Hi, Hq, Hn, Hf. cbn [bind]. rewrite Hqty. cbn [bind].
  assert (∃ x, (if negb (Str.contains "weekly" (Str.lower (Py.str f)))
                then if Str.contains "biweekly" (Str.lower (Py.str f))
                     then Py.div qty 2 else Py.div qty 4
                else Ok qty) = Ok x ∧ is_number x = true) as (x & -> & Nx).
  { destruct (negb _); [destruct (Str.contains "biweekly" _)|]; eauto. }
  cbn [bind]. destruct (Hentry x Nx) as [e ->]. cbn [bind].
  destruct (Str.contains "beef" _); [eauto|]. destruct (_ && _)%bool; eauto.
Qed.

(** C10.  When the shipment table is present, the loop of [protein_forecast]
    leaves the "pork" key unset whatever the rows hold, so every result has
    the placeholder under "pork"; and there is a result for every table of
    complete rows. *)
Theorem protein_forecast_pork_placeholder (s : snapshot) (df : DataFrame) :
  shipment_df s = Some df →
  (∀ proteins, for_each protein_row (rows df) ∅ = Ok proteins → proteins !! "pork" = None)
  ∧ (∀ r, protein_forecast s = Ok r → r !! "pork" = Some pork_placeholder)
  ∧ (Forall (λ row, complete_row row = true) (rows df) → ∃ r, protein_forecast s = Ok r).
Proof.
  intros Hdf.
  assert (∀ proteins, for_each protein_row (rows df) ∅ = Ok proteins →
                      proteins !! "pork" = None) as Hloop.
  { intros proteins H.
    eapply (for_each_invariant (λ m : gmap string Protein.t, m !! "pork" = None));
      [|exact H|done].
    intros acc x acc' Hx. by apply (protein_row_pork acc acc' x). }
  split; [exact Hloop|]. split.
  - intros r H. unfold protein_forecast in H. rewrite Hdf in H.
    inv_bind H. rewrite (Hloop _ E) in H. injection H as <-.
    apply lookup_insert_eq.
  - intros Hall. unfold protein_forecast. rewrite Hdf.
    destruct (for_each_total protein_row (rows df) ∅) as [out ->]; [|cbn; eauto].
    eapply Forall_impl; [exact Hall|]. intros row Hrow acc.
    by apply protein_row_complete.
Qed.

Lemma protein_forecast_pork_placeholder_witness :
  ∃ r, protein_forecast (shipments_only [beef_weekly; egg_weekly]) = Ok r
       ∧ r !! "pork" = Some pork_placeholder.
Proof.
  pose proof (protein_forecast_pork_placeholder
                (shipments_only [beef_weekly; egg_weekly]) _ eq_refl)
    as (_ & Hpork & Htotal).
  destruct Htotal as [r Hr]; [repeat constructor|].
  exists r. split; [exact Hr | exact (Hpork r Hr)].
Defined.

(** ** Ingredient matrix *)

Lemma concat_singletons {A : Type} (l : list A) : concat ((λ x, [x]) <$> l) = l.
Proof. induction l as [|x l IH]; cbn; [done | by rewrite IH]. Qed.

(** The list of used ingredients is as long as the claim's count. *)
Lemma used_ingredients_length (row : gmap string value) (cols l : list string) :
  used_ingredients row cols = Ok l → length l = count_used row cols.
Proof.
  unfold count_used. revert l. induction cols as [|col cols IH]; intros l H; cbn in H.
  - by injection H as <-.
  - unfold getitem in H.
    destruct (row !! col) as [v|] eqn:Hv; [|discriminate]. cbn [bind] in H.
    inv_bind H. specialize (IH _ E). rewrite filter_cons.
    assert (is_used row col = Py.notna v && Py.nonzero_nonempty v) as Hu
      by (unfold is_used; by rewrite Hv).
    destruct (Py.notna v && Py.nonzero_nonempty v)%bool; injection H as <-.
    + rewrite decide_True by done. cbn. by rewrite IH.
    + rewrite decide_False by (by rewrite Hu). done.
Qed.

Lemma used_ingredients_total (row : gmap string value) (cols : list string) :
  forallb (λ col, bool_decide (is_Some (row !! col))) cols = true →
  ∃ l, used_ingredients row cols = Ok l.
Proof.
  induction cols as [|col cols IH]; cbn; [eauto|].
  intros [[v Hv]%bool_decide_eq_true_1 [l Hl]%IH]%andb_prop.
  unfold getitem. rewrite Hv. cbn [bind]. rewrite Hl. cbn [bind].
  destruct (_ && _)%bool; eauto.
Qed.

Lemma protein_of_total (row : gmap string value) (col_names : list string) :
  forallb (λ col, match row !! col with
                  | Some v => is_number v || negb (Py.notna v)
                  | None => true
                  end) col_names = true →
  ∃ p, protein_of row col_names = Ok p.
Proof.
  induction col_names as [|col cols IH]; cbn; [eauto|].
  intros [Hcol Hcols%IH]%andb_prop.
  destruct (row !! col) as [v|]; [|assumption].
  destruct (Py.notna v); [|assumption].
  rewrite orb_false_r in Hcol.
  assert (∃ b, Py.gt v 0 = Ok b) as [b ->].
  { apply is_number_inv in Hcol as [[z H]|[q H]]; unfold Py.gt; rewrite H; eauto. }
  cbn [bind]. destruct b; [|assumption].
  destruct (int_number v Hcol) as [z ->]. cbn [bind]. eauto.
Qed.

Lemma matrix_row_complexity (cols : list string) (row : gmap string value) (e : Matrix.t) :
  matrix_row cols row = Ok e →
  Matrix.complexity e = complexity_of (count_used row (tail cols)).
Proof.
  intros H. unfold matrix_row in H. do 3 inv_bind H. injection H as <-. cbn.
  by rewrite (used_ingredients_length _ _ _ E).
Qed.

(** C9.  Every entry of the matrix comes from its row, in order, and its
    complexity is "Low" when the row uses at most 3 of the columns after the
    first, "Medium" when it uses 4 to 6, "High" when it uses 7 or more; the
    matrix is returned for every table of well-formed rows. *)
Theorem complexity_tiers (s : snapshot) (df : DataFrame) :
  ingredient_df s = Some df →
  (∀ m, ingredient_matrix s = Ok m →
        Forall2 (λ row e, matrix_row (columns df) row = Ok e) (rows df) m)
  ∧ (Forall (λ row, matrix_row_ok (columns df) row = true) (rows df) →
     ∃ m, ingredient_matrix s = Ok m)
  ∧ ∀ row e, matrix_row (columns df) row = Ok e →
      let n := count_used row (tail (columns df)) in
      ((n ≤ 3)%nat → Matrix.complexity e = "Low")
      ∧ ((4 ≤ n ≤ 6)%nat → Matrix.complexity e = "Medium")
      ∧ ((7 ≤ n)%nat → Matrix.complexity e = "High").
Proof.
  intros Hdf. split; [|split].
  - intros m H. unfold ingredient_matrix in H. rewrite Hdf in H.
    apply (for_each_append_Ok (matrix_row (columns df)) (λ e, [e])) in H
      as (es & Hes & ->).
    cbn. by rewrite concat_singletons.
  - intros Hall. unfold ingredient_matrix. rewrite Hdf.
    apply (for_each_append_total (matrix_row (columns df)) (λ e, [e])).
    eapply Forall_impl; [exact Hall|]. intros row Hrow. cbn in Hrow.
    unfold matrix_row_ok in Hrow. apply andb_prop in Hrow as [Hcols Hprot].
    cbn [forallb] in Hcols. apply andb_prop in Hcols as [Hname Hcols].
    apply bool_decide_eq_true_1 in Hname as [item Hitem].
    destruct (used_ingredients_total _ _ Hcols) as [l Hl].
    destruct (protein_of_total _ _ Hprot) as [p Hp].
    unfold matrix_row, getitem. rewrite Hl. cbn [bind]. rewrite Hp. cbn [bind].
    rewrite Hitem. cbn [bind]. eauto.
  - intros row e He n. rewrite (matrix_row_complexity _ _ _ He). fold n.
    unfold complexity_of. repeat split; intros Hn.
    + by rewrite (proj2 (Nat.leb_le n 3)) by lia.
    + rewrite (proj2 (Nat.leb_gt n 3)) by lia.
      by rewrite (proj2 (Nat.leb_le n 6)) by lia.
    + rewrite (proj2 (Nat.leb_gt n 3)) by lia.
      by rewrite (proj2 (Nat.leb_gt n 6)) by lia.
Qed.

Lemma complexity_tiers_witness :
  count_used beef_ramen (tail matrix_columns) = 4%nat
  ∧ ∃ m e, ingredient_matrix (ingredients_only matrix_columns [beef_ramen]) = Ok m
           ∧ m = [e] ∧ Matrix.complexity e = "Medium".
Proof.
  split; [reflexivity|].
  pose proof (complexity_tiers (ingredients_only matrix_columns [beef_ramen]) _ eq_refl)
    as (Hrows & Htotal & Htier).
  destruct Htotal as [m Hm]; [repeat constructor|].
  pose proof (Hrows m Hm) as H2. cbn in H2.
  apply Forall2_cons_inv_l in H2 as (e & m' & He & ->%Forall2_nil_inv_l & ->).
  exists [e], e. split; [exact Hm|]. split; [reflexivity|].
  apply (Htier beef_ramen e He).
  vm_compute. lia.
Defined.


(** ** Shipment schedule and the random generator *)

Lemma randint_range (lo hi : Z) (g : rng) : lo < hi → lo ≤ (randint lo hi g).1 < hi.
Proof.
  intros H. cbn. pose proof (Z.mod_pos_bound (g O) (hi - lo)). lia.
Qed.

Lemma schedule_loop_drawn_apart (l : list (gmap string value))
  (acc1 acc2 : list Schedule.t) (g1 g2 : rng) :
  drawn_apart <$> acc1 = drawn_apart <$> acc2 →
  drawn_apart <$> catch (schedule_loop l acc1 g1).1 []
  = drawn_apart <$> catch (schedule_loop l acc2 g2).1 [].
Proof.
  revert acc1 acc2 g1 g2. induction l as [|row l IH]; intros acc1 acc2 g1 g2 Hacc; cbn.
  - assumption.
  - destruct (schedule_fields row) as [[ingredient frequency]|]; [|reflexivity].
    apply IH. rewrite !fmap_app. by rewrite Hacc.
Qed.

Lemma schedule_loop_days (l : list (gmap string value)) (acc : list Schedule.t) (g : rng) :
  let days e := ∃ d, 1 ≤ d ≤ 6 ∧ Schedule.nextDelivery e = Str.of_Z d +:+ " days" in
  Forall days acc → Forall days (catch (schedule_loop l acc g).1 []).
Proof.
  intros days. revert acc g. induction l as [|row l IH]; intros acc g Hacc; cbn.
  - assumption.
  - destruct (schedule_fields row) as [[ingredient frequency]|]; [|constructor].
    apply IH. apply Forall_app. split; [assumption|].
    constructor; [|constructor]. eexists. split; [|reflexivity].
    pose proof (randint_range 1 7 g). cbn in *. lia.
Qed.

(** C3, as the code has it.  The shipment schedule is a function of the
    snapshot and of the state of the random generator: two runs on one
    snapshot list the same entries with the same ingredient, frequency and
    overdue fields, whatever the generator states, and each nextDelivery is a
    number of days from 1 to 6 drawn from the generator. *)
Theorem shipment_schedule_up_to_next_delivery (s : snapshot) (g1 g2 : rng) :
  drawn_apart <$> (shipment_schedule s g1).1 = drawn_apart <$> (shipment_schedule s g2).1
  ∧ length (shipment_schedule s g1).1 = length (shipment_schedule s g2).1
  ∧ Forall (λ e, ∃ d, 1 ≤ d ≤ 6 ∧ Schedule.nextDelivery e = Str.of_Z d +:+ " days")
           (shipment_schedule s g1).1.
Proof.
  assert (drawn_apart <$> (shipment_schedule s g1).1
          = drawn_apart <$> (shipment_schedule s g2).1) as Heq.
  { unfold shipment_schedule. destruct (shipment_df s) as [df|]; [|reflexivity].
    pose proof (schedule_loop_drawn_apart (rows df) [] [] g1 g2 eq_refl) as H.
    destruct (schedule_loop (rows df) [] g1), (schedule_loop (rows df) [] g2).
    exact H. }
  split; [exact Heq|]. split.
  - apply (f_equal length) in Heq. by rewrite !length_fmap in Heq.
  - unfold shipment_schedule. destruct (shipment_df s) as [df|]; [|constructor].
    pose proof (schedule_loop_days (rows df) [] g1 (Forall_nil_2 _)) as H.
    destruct (schedule_loop (rows df) [] g1). exact H.
Qed.

(** C3, as the claim has it, fails: a second call on the same snapshot finds
    the generator where the first call left it, and lists another delivery. *)
Lemma shipment_schedule_second_call_differs :
  Schedule.nextDelivery <$> (shipment_schedule (shipments_only [egg_weekly]) counting).1
  = ["1 days"]
  ∧ Schedule.nextDelivery
      <$> (shipment_schedule (shipments_only [egg_weekly])
             (shipment_schedule (shipments_only [egg_weekly]) counting).2).1
    = ["2 days"]
  ∧ (shipment_schedule (shipments_only [egg_weekly]) counting).1
    ≠ (shipment_schedule (shipments_only [egg_weekly])
         (shipment_schedule (shipments_only [egg_weekly]) counting).2).1.
Proof.
  repeat split; try (vm_compute; reflexivity).
  all: vm_compute; discriminate.
Qed.


(** ** Forecast: fewer than two periods *)

Lemma trunc_times_105 (y : Z) : Py.trunc (inject_Z y * (21 # 20)) = (y * 21) ÷ 20.
Proof. reflexivity. Qed.


(** C5, as the code has it.  With no sales table at all the three lists are
    empty.  With exactly one of the six months loaded, of [n] rows, the
    forecasts are [n * 1.05] and that forecast times 1.05, each cut to its
    integer part.  The value 500 is only reached when tables are loaded but
    none under one of the six months.  numpy has no part in any of this. *)
Theorem forecast_fallback (np : Np.t) (s : snapshot) :
  (size (monthly_sales s) = 0%nat →
   forecast np s = {| Forecast.labels := []; Forecast.actual := [];
                      Forecast.predicted := [] |})
  ∧ (∀ m df, available s = [m] → monthly_sales s !! m = Some df →
       let n := Z.of_nat (length (rows df)) in
       let f1 := (n * 21) ÷ 20 in
       let f2 := (f1 * 21) ÷ 20 in
       forecast np s = {| Forecast.labels := [m; "Forecast 1"; "Forecast 2"];
                          Forecast.actual := [Some n; None; None];
                          Forecast.predicted := [Some n; Some f1; Some f2] |})
  ∧ (size (monthly_sales s) ≠ 0%nat → available s = [] →
       Forecast.predicted (forecast np s) = [Some 500; Some 500; Some 525]).
Proof.
  split; [|split].
  - intros H. unfold forecast. by rewrite decide_True.
  - intros m df Hav Hdf n f1 f2.
    assert (size (monthly_sales s) ≠ 0%nat) as Hne.
    { intros H0%map_size_empty_inv. rewrite H0, lookup_empty in Hdf. discriminate. }
    assert (actual s = [n]) as Hact.
    { unfold actual. rewrite Hav. cbn. by rewrite Hdf. }
    unfold forecast. rewrite decide_False by assumption.
    rewrite Hact, Hav. reflexivity.
  - intros Hne Hav.
    assert (actual s = []) as Hact by (unfold actual; by rewrite Hav).
    unfold forecast. rewrite decide_False by assumption.
    rewrite Hact. reflexivity.
Qed.

Lemma forecast_fallback_witness :
  Forecast.predicted (forecast exact_fit (sales_only [("May", 200%nat)]))
  = [Some 200; Some 210; Some 220].
Proof.
  pose proof (forecast_fallback exact_fit (sales_only [("May", 200%nat)])) as (_ & H & _).
  specialize (H "May" {| columns := ["Group"]; rows := replicate 200 ∅ |}).
  cbv zeta in H. rewrite H; vm_compute; reflexivity.
Defined.

(** C5, as the claim has it, fails twice: one period of 200 rows gives second
    forecast 220, not 221, and no period at all gives no forecast, not 500. *)
Lemma forecast_one_period_of_200 :
  (∀ np, Forecast.predicted (forecast np (sales_only [("May", 200%nat)]))
         = [Some 200; Some 210; Some 220])
  ∧ (∀ np, Forecast.predicted (forecast np (sales_only [("May", 200%nat)]))
           ≠ [Some 200; Some 210; Some 221])
  ∧ (∀ np, Forecast.predicted (forecast np no_tables) = []).
Proof.
  assert (∀ np, Forecast.predicted (forecast np (sales_only [("May", 200%nat)]))
                = [Some 200; Some 210; Some 220]) as H
    by (intros np; vm_compute; reflexivity).
  split; [exact H|].
  split; [intros np; rewrite H; discriminate | intros np; vm_compute; reflexivity].
Qed.


(** ** Forecast: the least-squares line *)

Section least_squares.
Local Open Scope Q_scope.

(** The squared error as a quadratic form in [a] and [b]. *)
Lemma squared_error_expand (x y : list Z) (a b : Q) :
  length x = length y →
  Spec.squared_error x y a b
  == a * a * inject_Z (sumZ (zip_with Z.mul x x)) + 2 * a * b * inject_Z (sumZ x)
     + b * b * inject_Z (Z.of_nat (length x))
     - 2 * a * inject_Z (sumZ (zip_with Z.mul x y)) - 2 * b * inject_Z (sumZ y)
     + inject_Z (sumZ (zip_with Z.mul y y)).
Proof.
  revert y. induction x as [|xi x IH]; intros [|yi y] Hlen; try discriminate.
  - cbn. ring.
  - injection Hlen as Hlen. specialize (IH y Hlen).
    unfold Spec.squared_error in *. cbn [zip_with Spec.sumQ sumZ foldr length] in *.
    rewrite IH. rewrite Nat2Z.inj_succ. unfold Z.succ.
    rewrite !inject_Z_plus, !inject_Z_mult.
    change (foldr Z.add 0%Z) with sumZ. change (inject_Z 1) with 1. ring.
Qed.

(** The solution of the normal equations minimises the quadratic form. *)
Lemma normal_equations_minimise (n sx sy sxx sxy syy a b a' b' : Q) :
  0 < n → 0 < n * sxx - sx * sx →
  a == (n * sxy - sx * sy) / (n * sxx - sx * sx) →
  b == (sy - a * sx) / n →
  a * a * sxx + 2 * a * b * sx + b * b * n - 2 * a * sxy - 2 * b * sy + syy
  <= a' * a' * sxx + 2 * a' * b' * sx + b' * b' * n - 2 * a' * sxy - 2 * b' * sy + syy.
Proof.
  intros Hn HD Ha Hb.
  set (E := λ a b : Q,
         a * a * sxx + 2 * a * b * sx + b * b * n - 2 * a * sxy - 2 * b * sy + syy).
  change (E a b <= E a' b').
  assert (n * (E a' b' - E a b)
          == (n * (b' - b) + sx * (a' - a)) * (n * (b' - b) + sx * (a' - a))
             + (n * sxx - sx * sx) * ((a' - a) * (a' - a))) as H.
  { unfold E. rewrite Hb, Ha. field. split; lra. }
  assert (0 <= n * (E a' b' - E a b)) as Hge.
  { rewrite H.
    set (X := n * (b' - b) + sx * (a' - a)). set (Y := a' - a).
    assert (0 <= X * X) by nra. assert (0 <= Y * Y) by nra.
    assert (0 <= (n * sxx - sx * sx) * (Y * Y)) by (apply Qmult_le_0_compat; lra).
    lra. }
  assert (0 <= E a' b' - E a b); [|lra].
  destruct (Qlt_le_dec (E a' b' - E a b) 0) as [Hlt|]; [|assumption].
  exfalso. apply (Qmult_lt_l _ _ n Hn) in Hlt. lra.
Qed.

(** The closed form is a least-squares line whenever the abscissas are not
    all equal. *)
Lemma least_squares_minimises (x y : list Z) (a b : Q) :
  length x = length y →
  (0 < Z.of_nat (length x) * sumZ (zip_with Z.mul x x) - sumZ x * sumZ x)%Z →
  Spec.squared_error x y (Spec.least_squares x y).1 (Spec.least_squares x y).2 <= Spec.squared_error x y a b.
Proof.
  intros Hlen HD.
  assert (0 < Z.of_nat (length x))%Z as Hn.
  { destruct x; [cbn in HD|cbn]; lia. }
  rewrite !squared_error_expand by assumption.
  apply normal_equations_minimise.
  - change 0 with (inject_Z 0). by rewrite <- Zlt_Qlt.
  - rewrite Zlt_Qlt in HD. unfold Z.sub in HD.
    rewrite inject_Z_plus, inject_Z_opp, !inject_Z_mult in HD.
    change (inject_Z 0) with 0 in HD. lra.
  - cbn [Spec.least_squares fst]. rewrite Qred_correct. unfold Z.sub.
    rewrite !inject_Z_plus, !inject_Z_opp, !inject_Z_mult. reflexivity.
  - cbn [Spec.least_squares fst snd]. rewrite Qred_correct. reflexivity.
Qed.

End least_squares.

Lemma sumZ_app (l1 l2 : list Z) : sumZ (l1 ++ l2) = sumZ l1 + sumZ l2.
Proof. unfold sumZ. induction l1 as [|x l1 IH]; cbn; [done|]. rewrite IH. lia. Qed.

Lemma arange_S (k : nat) : arange (S k) = arange k ++ [Z.of_nat k].
Proof. unfold arange. by rewrite seq_S, fmap_app. Qed.

Lemma length_arange (k : nat) : length (arange k) = k.
Proof. unfold arange. by rewrite length_fmap, length_seq. Qed.

Lemma zip_with_diag {A B : Type} (f : A → A → B) (l : list A) :
  zip_with f l l = (λ x, f x x) <$> l.
Proof. induction l as [|x l IH]; cbn; [done | by rewrite IH]. Qed.

Lemma sum_arange (k : nat) : 2 * sumZ (arange k) = Z.of_nat k * (Z.of_nat k - 1).
Proof.
  induction k as [|k IH]; [reflexivity|].
  rewrite arange_S, sumZ_app. cbn [sumZ foldr]. lia.
Qed.

Lemma sum_arange_squares (k : nat) :
  6 * sumZ (zip_with Z.mul (arange k) (arange k))
  = (Z.of_nat k - 1) * Z.of_nat k * (2 * Z.of_nat k - 1).
Proof.
  rewrite zip_with_diag. induction k as [|k IH]; [reflexivity|].
  rewrite arange_S, fmap_app, sumZ_app. cbn [fmap list_fmap sumZ foldr]. lia.
Qed.

(** The abscissas 0, ..., k - 1 of two or more periods are not all equal. *)
Lemma arange_spread (k : nat) :
  (2 ≤ k)%nat →
  0 < Z.of_nat (length (arange k)) * sumZ (zip_with Z.mul (arange k) (arange k))
      - sumZ (arange k) * sumZ (arange k).
Proof.
  intros Hk. rewrite length_arange.
  pose proof (sum_arange k) as H1. pose proof (sum_arange_squares k) as H2.
  set (n := Z.of_nat k) in *. assert (2 ≤ n) as Hn by lia.
  set (s1 := sumZ (arange k)) in *.
  set (s2 := sumZ (zip_with Z.mul (arange k) (arange k))) in *.
  assert (12 * (n * s2 - s1 * s1) = n * n * (n - 1) * (n + 1)) as H.
  { transitivity (2 * n * (6 * s2) - 3 * ((2 * s1) * (2 * s1))); [ring|].
    rewrite H1, H2. ring. }
  assert (0 < n * n * (n - 1) * (n + 1)) by (repeat apply Z.mul_pos_pos; lia).
  lia.
Qed.

Lemma actual_of_no_tables (s : snapshot) :
  size (monthly_sales s) = 0%nat → actual s = [].
Proof.
  intros H%map_size_empty_inv. unfold actual, available. rewrite H. reflexivity.
Qed.

(** *** Cutting a value to its integer part *)

(** [int()] on a float that is not negative is the floor. *)
Lemma trunc_floor (q : Q) (n : Z) :
  0 ≤ n → (inject_Z n <= q)%Q → (q < inject_Z n + 1)%Q → Py.trunc q = n.
Proof.
  destruct q as [a d]. unfold Py.trunc, Qle, Qlt. cbn.
  rewrite !Z.mul_1_r. intros Hn H1 H2.
  symmetry. apply Z.quot_unique with (r := a - Z.pos d * n); lia.
Qed.

Lemma trunc_opp (q : Q) : Py.trunc (- q) = - Py.trunc q.
Proof. destruct q as [a d]. unfold Py.trunc. cbn. by apply Z.quot_opp_l. Qed.

(** [int()] moves a value toward zero by less than 1: next to an integer [n]
    it gives [n], or the neighbour of [n] on the side of zero. *)
Lemma trunc_near_integer (q : Q) (n : Z) :
  (Qabs (q - inject_Z n) < 1)%Q →
  Py.trunc q = n ∨ (0 < n ∧ Py.trunc q = n - 1) ∨ (n < 0 ∧ Py.trunc q = n + 1).
Proof.
  intros [Hlo Hhi]%Qabs_Qlt_condition.
  destruct (Qlt_le_dec q (inject_Z n)) as [Hlt|Hge].
  - destruct (Z_lt_le_dec 0 n) as [Hn|Hn].
    + right. left. split; [assumption|]. apply trunc_floor; [lia| |].
      * unfold Z.sub. rewrite inject_Z_plus, inject_Z_opp. change (inject_Z 1) with 1%Q. lra.
      * unfold Z.sub. rewrite inject_Z_plus, inject_Z_opp. change (inject_Z 1) with 1%Q. lra.
    + left. apply Z.opp_inj. rewrite <- trunc_opp. apply trunc_floor; [lia| |].
      * rewrite inject_Z_opp. lra.
      * rewrite inject_Z_opp. lra.
  - destruct (Z_lt_le_dec n 0) as [Hn|Hn].
    + destruct (Qeq_dec q (inject_Z n)) as [Heq|Hne].
      * left. apply Z.opp_inj. rewrite <- trunc_opp. apply trunc_floor; [lia| |].
        -- rewrite inject_Z_opp. lra.
        -- rewrite inject_Z_opp. lra.
      * right. right. split; [assumption|].
        apply Z.opp_inj. rewrite <- trunc_opp. apply trunc_floor; [lia| |].
        -- rewrite inject_Z_opp, inject_Z_plus. change (inject_Z 1) with 1%Q. lra.
        -- rewrite inject_Z_opp, inject_Z_plus. change (inject_Z 1) with 1%Q.
           assert (inject_Z n < q)%Q; [|lra].
           apply Qle_lteq in Hge as [Hlt|Heq]; [assumption|]. by destruct Hne.
    + left. apply trunc_floor; [lia|assumption|lra].
Qed.

(** The integer part lies less than 1 from the value. *)
Lemma trunc_near (q : Q) : (Qabs (inject_Z (Py.trunc q) - q) < 1)%Q.
Proof.
  destruct q as [a d]. apply Qabs_Qlt_condition.
  pose proof (Z.quot_rem' a (Z.pos d)) as H.
  pose proof (Z.rem_bound_abs a (Z.pos d) ltac:(lia)) as Hr.
  unfold Py.trunc, Qlt, Qminus, Qplus, Qopp. cbn. split; nia.
Qed.

(** A forecast lies less than [1 + ε] from a line that the value of numpy
    lies within [ε] of. *)
Lemma trunc_off_by (v l ε : Q) :
  (Qabs (v - l) <= ε)%Q → (Qabs (inject_Z (Py.trunc v) - l) < 1 + ε)%Q.
Proof.
  intros H. pose proof (trunc_near v) as Hv.
  apply Qabs_Qle_condition in H as [H1 H2].
  apply Qabs_Qlt_condition in Hv as [H3 H4].
  apply Qabs_Qlt_condition. split; lra.
Qed.

(** With two or more periods loaded the forecasts come from the fit. *)
Lemma forecast_fitted (np : Np.t) (s : snapshot) :
  let y := actual s in
  let k := length y in
  let z := Np.polyfit np (arange k) y in
  (2 ≤ k)%nat →
  Forecast.predicted (forecast np s)
  = replicate (k - 1) None
    ++ [Some (default 500 (last y));
        Some (Py.trunc (Np.poly1d np z (Z.of_nat k)));
        Some (Py.trunc (Np.poly1d np z (Z.of_nat k + 1)))].
Proof.
  intros y k z Hk. unfold forecast. destruct (decide _) as [H0|_].
  - apply actual_of_no_tables in H0. subst k y. rewrite H0 in Hk. cbn in Hk. lia.
  - cbn [Forecast.predicted]. fold y k.
    rewrite (proj2 (Nat.leb_le 2 k) Hk). fold z. cbn [fst snd]. by destruct (last y).
Qed.

(** C6, as the code has it.  With two or more periods loaded, [forecast]
    hands the row counts, at 0, ..., k - 1, to the degree-1 fit of numpy and
    returns the values of the fitted polynomial at k and at k + 1, each cut
    to its integer part.  The values are those of the least-squares line up
    to the rounding of binary64: a forecast lies less than 1 + ε from the
    line wherever the value of numpy lies within ε of it.  For the row
    counts 10, 20, 30 the line has slope 10 and intercept 10, and with values
    of numpy less than 1 from the line the forecasts are 40 or 39, and 50 or
    49. *)
Theorem forecast_linear_fit (np : Np.t) (s : snapshot) :
  let y := actual s in
  let k := length y in
  let z := Np.polyfit np (arange k) y in
  let f1 := Py.trunc (Np.poly1d np z (Z.of_nat k)) in
  let f2 := Py.trunc (Np.poly1d np z (Z.of_nat k + 1)) in
  let l := Spec.least_squares (arange k) y in
  (2 ≤ k)%nat →
  Forecast.predicted (forecast np s)
  = replicate (k - 1) None ++ [Some (default 500 (last y)); Some f1; Some f2]
  ∧ (∀ a b, Spec.squared_error (arange k) y l.1 l.2
            <= Spec.squared_error (arange k) y a b)%Q
  ∧ (∀ ε, (off_the_line np (arange k) y (Z.of_nat k) <= ε)%Q →
          (Qabs (inject_Z f1 - Spec.line l (Z.of_nat k)) < 1 + ε)%Q)
  ∧ (∀ ε, (off_the_line np (arange k) y (Z.of_nat k + 1) <= ε)%Q →
          (Qabs (inject_Z f2 - Spec.line l (Z.of_nat k + 1)) < 1 + ε)%Q)
  ∧ (y = [10; 20; 30] →
     l = (10 # 1, 10 # 1)
     ∧ ((off_the_line np (arange k) y 3 < 1)%Q → f1 = 40 ∨ f1 = 39)
     ∧ ((off_the_line np (arange k) y 4 < 1)%Q → f2 = 50 ∨ f2 = 49)).
Proof.
  intros y k z f1 f2 l Hk.
  split; [by apply forecast_fitted|]. split; [|split; [|split]].
  - intros a b. apply least_squares_minimises.
    + by rewrite length_arange.
    + by apply arange_spread.
  - intros ε H. by apply trunc_off_by.
  - intros ε H. by apply trunc_off_by.
  - intros Hy. subst f1 f2 z l. unfold off_the_line. subst k. rewrite Hy.
    split; [reflexivity|]. cbn [length].
    split; intros H.
    + destruct (trunc_near_integer _ 40 H) as [H1|[[_ H1]|[H0 _]]]; [by left|by right|lia].
    + destruct (trunc_near_integer _ 50 H) as [H1|[[_ H1]|[H0 _]]]; [by left|by right|lia].
Qed.

Lemma forecast_linear_fit_witness :
  Forecast.predicted (forecast fit_below two_months) = [None; Some 20; Some 29; Some 39]
  ∧ Qlt (Qabs (inject_Z 29 - Spec.line (Spec.least_squares (arange 2) [10; 20]) 2))
        (1 + (1 # 1000)).
Proof.
  pose proof (forecast_linear_fit fit_below two_months) as H. cbv zeta in H.
  destruct H as (H1 & _ & H2 & _); [vm_compute; lia|].
  split.
  - rewrite H1. vm_compute. reflexivity.
  - specialize (H2 (1 # 1000)%Q). vm_compute in H2. vm_compute. exact (H2 ltac:(discriminate)).
Defined.

(** C6, as the claim has it, fails: for the row counts 10, 20, 32 the line
    takes the values 128/3 and 161/3, which round to 43 and 54, and the
    forecasts are 42 and 53, whatever values within a quarter of the line
    numpy computes. *)
Lemma forecast_cuts_not_rounds :
  actual uneven_sales = [10; 20; 32]
  ∧ Spec.least_squares (arange 3) [10; 20; 32] = (11 # 1, 29 # 3)
  ∧ Spec.round (Spec.line (Spec.least_squares (arange 3) [10; 20; 32]) 3) = 43
  ∧ Spec.round (Spec.line (Spec.least_squares (arange 3) [10; 20; 32]) 4) = 54
  ∧ (∀ np, Qle (off_the_line np (arange 3) [10; 20; 32] 3) (1 # 4) →
           Qle (off_the_line np (arange 3) [10; 20; 32] 4) (1 # 4) →
           Forecast.predicted (forecast np uneven_sales)
           = [None; None; Some 32; Some 42; Some 53]
           ∧ Forecast.predicted (forecast np uneven_sales)
             ≠ [None; None; Some 32;
                Some (Spec.round (Spec.line (Spec.least_squares (arange 3) [10; 20; 32]) 3));
                Some (Spec.round (Spec.line (Spec.least_squares (arange 3) [10; 20; 32]) 4))])
  ∧ Qle (off_the_line exact_fit (arange 3) [10; 20; 32] 3) (1 # 4)
  ∧ Qle (off_the_line fit_below (arange 3) [10; 20; 32] 4) (1 # 4).
Proof.
  assert (actual uneven_sales = [10; 20; 32]) as Hact by (vm_compute; reflexivity).
  split; [exact Hact|]. do 3 (split; [vm_compute; reflexivity|]).
  split; [|split; vm_compute; discriminate].
  intros np H3 H4.
  assert (Forecast.predicted (forecast np uneven_sales)
          = [None; None; Some 32; Some 42; Some 53]) as H.
  { rewrite forecast_fitted by (rewrite Hact; cbn; lia). rewrite Hact.
    cbn [length replicate Nat.sub app last default].
    unfold off_the_line in H3, H4.
    apply Qabs_Qle_condition in H3 as [H3 H3'], H4 as [H4 H4'].
    assert (Qeq (Spec.line (Spec.least_squares (arange 3) [10; 20; 32]) 3) (128 # 3)) as E3
      by (vm_compute; reflexivity).
    assert (Qeq (Spec.line (Spec.least_squares (arange 3) [10; 20; 32]) 4) (161 # 3)) as E4
      by (vm_compute; reflexivity).
    rewrite E3 in H3, H3'. rewrite E4 in H4, H4'.
    change (Z.of_nat 3) with 3. change (3 + 1) with 4.
    rewrite (trunc_floor _ 42), (trunc_floor _ 53);
      [reflexivity| lia | | | lia | | ];
      change (inject_Z 42) with 42%Q || change (inject_Z 53) with 53%Q; lra. }
  split; [exact H|]. rewrite H. vm_compute. discriminate.
Qed.


(** ** Formatting an integer and reading it back *)

Lemma all_impl (p q : ascii → bool) (s : string) :
  (∀ c, p c = true → q c = true) → Str.all p s = true → Str.all q s = true.
Proof.
  intros Hpq. induction s as [|c s IH]; [done|]. cbn.
  intros [Hc Hs]%andb_prop. by rewrite (Hpq c Hc), IH.
Qed.

Lemma string_of_uint_digits (d : Decimal.uint) :
  Str.all Str.is_digit (NilZero.string_of_uint d) = true.
Proof.
  assert (∀ d, Str.all Str.is_digit (NilEmpty.string_of_uint d) = true) as H
    by (intros d'; induction d'; cbn; auto).
  destruct d; (apply H || reflexivity).
Qed.

Lemma digits_of_uint (d : Decimal.uint) (acc : Z) (seen : bool) :
  d ≠ Decimal.Nil ∨ seen = true →
  Str.digits acc seen (NilEmpty.string_of_uint d) = Some (Str.uint_val d acc).
Proof.
  revert acc seen.
  induction d; intros acc seen Hd;
    cbn [Str.digits NilEmpty.string_of_uint Str.uint_val];
    [destruct Hd as [Hd|Hd]; [done | by rewrite Hd] | ..].
  all: match goal with
       | |- context [Str.digit_of ?c] =>
           let v := eval vm_compute in (Str.digit_of c) in
           change (Str.digit_of c) with v
       end.
  all: cbv beta iota; rewrite IHd by (by right); do 2 f_equal; lia.
Qed.

Lemma uint_val_acc (d : Decimal.uint) (acc : positive) :
  Str.uint_val d (Z.pos acc) = Z.pos (Pos.of_uint_acc d acc).
Proof.
  revert acc.
  induction d; intros acc; cbn [Str.uint_val Pos.of_uint_acc]; [done|..];
    rewrite <- IHd; f_equal; lia.
Qed.

Lemma uint_val_of_uint (d : Decimal.uint) :
  Str.uint_val d 0 = Z.of_N (Pos.of_uint d).
Proof. induction d; cbn; [done|done|..]; apply (uint_val_acc d). Qed.

Lemma digits_to_uint (p : positive) :
  Str.digits 0 false (NilZero.string_of_uint (Pos.to_uint p)) = Some (Z.pos p).
Proof.
  pose proof (Unsigned.to_uint_nonnil p) as Hnil.
  replace (NilZero.string_of_uint (Pos.to_uint p))
    with (NilEmpty.string_of_uint (Pos.to_uint p))
    by (by destruct (Pos.to_uint p)).
  rewrite digits_of_uint by (by left).
  by rewrite uint_val_of_uint, Unsigned.of_to.
Qed.

Lemma digit_plain (c : ascii) : Str.is_digit c = true → Str.is_plain c = true.
Proof. destruct c as [[] [] [] [] [] [] [] []]; cbn; done. Qed.

Lemma replace_fuel_absent (a : ascii) (new t : string) (n : nat) :
  Str.all (λ c, negb (Ascii.eqb a c)) t = true →
  Str.replace_fuel n (String a "") new t = t.
Proof.
  revert t. induction n as [|n IH]; intros [|c t]; cbn; try done.
  intros [Hc Ht]%andb_prop. apply negb_true_iff in Hc. rewrite Hc.
  by rewrite IH.
Qed.

Lemma replace_fuel_wk (t : string) (n : nat) :
  Str.all (λ c, negb (Ascii.eqb "/" c)) t = true →
  (String.length t < n)%nat →
  Str.replace_fuel n "/wk" "" (t +:+ "/wk") = t.
Proof.
  revert n. induction t as [|c t IH]; intros n Ht Hn.
  - destruct n as [|[|n]]; [cbn in Hn; lia|reflexivity..].
  - destruct n as [|n]; [cbn in Hn; lia|].
    change (Str.all ?p (String c t)) with (p c && Str.all p t) in Ht.
    apply andb_prop in Ht as [Hc Ht]. apply negb_true_iff in Hc.
    change (String c t +:+ "/wk") with (String c (t +:+ "/wk")).
    cbn [Str.replace_fuel Str.starts_with]. rewrite Hc.
    rewrite IH; [done|done|cbn in Hn; lia].
Qed.

Lemma length_append (a b : string) :
  String.length (a +:+ b) = (String.length a + String.length b)%nat.
Proof.
  induction a as [|c a IH]; [done|].
  change (S (String.length (a +:+ b)) = S (String.length a + String.length b)).
  by rewrite IH.
Qed.

Lemma all_append (p : ascii → bool) (a b : string) :
  Str.all p (a +:+ b) = Str.all p a && Str.all p b.
Proof.
  induction a as [|c a IH]; [done|].
  change (p c && Str.all p (a +:+ b) = p c && Str.all p a && Str.all p b).
  by rewrite IH, andb_assoc.
Qed.

(** Taking "$" and "/wk" off a formatted cost leaves the numeral. *)
Lemma unformat_cost (t : string) :
  Str.all (λ c, negb (Ascii.eqb "$" c) && negb (Ascii.eqb "/" c)) t = true →
  Str.replace "/wk" "" (Str.replace "$" "" ("$" +:+ t +:+ "/wk")) = t.
Proof.
  intros Ht.
  assert (Str.replace "$" "" ("$" +:+ t +:+ "/wk") = t +:+ "/wk") as ->.
  { change (Str.replace "$" "" ("$" +:+ t +:+ "/wk"))
      with (Str.replace_fuel (String.length (t +:+ "/wk")) "$" "" (t +:+ "/wk")).
    apply replace_fuel_absent. rewrite all_append, andb_true_iff. split; [|done].
    eapply all_impl; [|exact Ht]. by intros c [H _]%andb_prop. }
  unfold Str.replace. apply replace_fuel_wk.
  - eapply all_impl; [|exact Ht]. by intros c [_ H]%andb_prop.
  - rewrite length_append. cbn. lia.
Qed.

Lemma rstrip_plain (t : string) :
  Str.all (λ c, negb (Str.is_space c)) t = true → Str.rstrip t = t.
Proof.
  induction t as [|c t IH]; [done|]. intros [Hc Ht]%andb_prop.
  cbn [Str.rstrip]. rewrite (IH Ht). apply negb_true_iff in Hc. rewrite Hc.
  by destruct t.
Qed.

Lemma strip_plain (t : string) :
  Str.all (λ c, negb (Str.is_space c)) t = true → Str.strip t = t.
Proof.
  intros Ht. unfold Str.strip.
  assert (Str.lstrip t = t) as ->; [|by apply rstrip_plain].
  destruct t as [|c t]; [done|]. cbn in Ht. apply andb_prop in Ht as [Hc _].
  apply negb_true_iff in Hc. cbn. by rewrite Hc.
Qed.

(** An unsigned numeral is read as its digits. *)
Lemma to_Z_unsigned (t : string) :
  Str.all Str.is_plain t = true → Str.to_Z t = Str.digits 0 false t.
Proof.
  intros Ht. unfold Str.to_Z. rewrite strip_plain.
  - destruct t as [|c t]; [done|]. cbn in Ht. apply andb_prop in Ht as [Hc _].
    destruct c as [[] [] [] [] [] [] [] []]; try done.
  - eapply all_impl; [|exact Ht]. intros c Hc. unfold Str.is_plain in Hc.
    by destruct (Str.is_space c).
Qed.

Lemma uint_plain (d : Decimal.uint) :
  Str.all Str.is_plain (NilZero.string_of_uint d) = true.
Proof. eapply all_impl; [apply digit_plain|apply string_of_uint_digits]. Qed.

(** [int(str(n)) = n] *)
Lemma to_Z_of_Z (n : Z) : Str.to_Z (Str.of_Z n) = Some n.
Proof.
  destruct n as [|p|p]; [reflexivity| |].
  - unfold Str.of_Z. cbn [Z.to_int NilZero.string_of_int].
    rewrite to_Z_unsigned by apply uint_plain. apply digits_to_uint.
  - unfold Str.of_Z. cbn [Z.to_int NilZero.string_of_int].
    unfold Str.to_Z. rewrite strip_plain.
    + cbn. by rewrite digits_to_uint.
    + cbn. eapply all_impl; [|apply uint_plain]. intros c Hc. unfold Str.is_plain in Hc.
      by destruct (Str.is_space c).
Qed.

Lemma of_Z_no_markers (n : Z) :
  Str.all (λ c, negb (Ascii.eqb "$" c) && negb (Ascii.eqb "/" c)) (Str.of_Z n) = true.
Proof.
  assert (∀ d, Str.all (λ c, negb (Ascii.eqb "$" c) && negb (Ascii.eqb "/" c))
                 (NilZero.string_of_uint d) = true) as H.
  { intros d. eapply all_impl; [|apply uint_plain]. intros c Hc. unfold Str.is_plain in Hc.
    by destruct (Ascii.eqb "$" c), (Ascii.eqb "/" c), (Str.is_space c). }
  destruct n as [|p|p]; [reflexivity|apply H|]. cbn. apply H.
Qed.

(** The sort key of a formatted integer cost is that integer. *)
Lemma sort_key_formatted (x : Cost.t) (n : Z) :
  Cost.cost x = "$" +:+ Str.of_Z n +:+ "/wk" → sort_key x = Ok n.
Proof.
  intros H. unfold sort_key. rewrite H, unformat_cost by apply of_Z_no_markers.
  unfold Py.int. cbn [unbox VStr]. by rewrite to_Z_of_Z.
Qed.


(** ** The stable descending sort *)

Section sort_desc.
Context {A : Type}.
Implicit Types (l : list (Z * A)) (k : Z) (x : A).

Lemma insert_desc_perm k x l : insert_desc k x l ≡ₚ (k, x) :: l.
Proof.
  induction l as [|[k' y] l IH]; cbn; [done|].
  destruct (k <? k'); [|done]. rewrite IH. apply Permutation_swap.
Qed.

Lemma sort_desc_perm l : sort_desc l ≡ₚ l.
Proof.
  induction l as [|[k x] l IH]; cbn; [done|]. by rewrite insert_desc_perm, IH.
Qed.

Lemma insert_desc_sorted k x l :
  StronglySorted (λ a b, b.1 ≤ a.1) l →
  StronglySorted (λ a b, b.1 ≤ a.1) (insert_desc k x l).
Proof.
  induction 1 as [|[k' y] l Hl IH Hall]; cbn.
  - repeat constructor.
  - destruct (k <? k') eqn:Hk.
    + apply Z.ltb_lt in Hk. constructor; [assumption|].
      rewrite insert_desc_perm. constructor; [cbn; lia | assumption].
    + apply Z.ltb_ge in Hk. constructor; [by constructor|].
      constructor; [cbn; lia|].
      eapply Forall_impl; [exact Hall|]. cbn. intros [k'' z] ?. cbn in *. lia.
Qed.

Lemma sort_desc_sorted l : StronglySorted (λ a b, b.1 ≤ a.1) (sort_desc l).
Proof.
  induction l as [|[k x] l IH]; cbn; [constructor | by apply insert_desc_sorted].
Qed.

(** Entries of equal key keep their order. *)
Lemma insert_desc_stable k x l j :
  filter (λ p, p.1 = j) (insert_desc k x l) = filter (λ p, p.1 = j) ((k, x) :: l).
Proof.
  induction l as [|[k' y] l IH]; cbn; [done|].
  destruct (k <? k') eqn:Hk; [|done]. apply Z.ltb_lt in Hk.
  rewrite !filter_cons in *. cbn in *. rewrite IH.
  repeat case_decide; done || lia.
Qed.

Lemma sort_desc_stable l j :
  filter (λ p, p.1 = j) (sort_desc l) = filter (λ p, p.1 = j) l.
Proof.
  induction l as [|[k x] l IH]; cbn; [done|].
  rewrite insert_desc_stable, !filter_cons. by rewrite IH.
Qed.

End sort_desc.

Lemma map_result_Ok {A B : Type} (f : A → result B) (l : list A) (ys : list B) :
  map_result f l = Ok ys → Forall2 (λ x y, f x = Ok y) l ys.
Proof.
  revert ys. induction l as [|x l IH]; intros ys H; cbn in H.
  - injection H as <-. constructor.
  - do 2 inv_bind H. injection H as <-. constructor; auto.
Qed.

Lemma map_result_total {A B : Type} (f : A → result B) (l : list A) :
  Forall (λ x, ∃ y, f x = Ok y) l → ∃ ys, map_result f l = Ok ys.
Proof.
  induction 1 as [|x l [y Hy] _ [ys IH]]; cbn; [eauto|]. rewrite Hy, IH. cbn. eauto.
Qed.

(** ** Cost analysis *)

(** The formatted cost of an entry is the weekly cost cut to its integer
    part, and the sort key reads that integer back. *)
Lemma cost_entry_key (row : gmap string value) (e : Cost.t) :
  cost_entry row = Ok e →
  ∃ c n, cost_row row = Ok c ∧ Py.int (weekly_cost c) = Ok n
         ∧ Cost.cost e = "$" +:+ Str.of_Z n +:+ "/wk" ∧ sort_key e = Ok n.
Proof.
  intros H. unfold cost_entry in H.
  apply bind_Ok in H as (c & Hc & H). do 7 inv_bind H. injection H as <-.
  exists c, v2. repeat split; [assumption..|]. by apply sort_key_formatted.
Qed.

Lemma first_match_number (table : list (string * value)) (s : string) (d : value) :
  Forall (λ p, is_number p.2 = true) table → is_number d = true →
  is_number (first_match table s d) = true.
Proof.
  induction 1 as [|[key v] table Hv _ IH]; cbn; [done|]. intros Hd.
  destruct (Str.contains key s); auto.
Qed.

Lemma cost_entry_complete (row : gmap string value) :
  complete_row row = true → ∃ e, cost_entry row = Ok e.
Proof.
  intros (i & q & u & n & f & Hi & Hq & Hu & Hn & Hf & Nq & Nn)%complete_row_fields.
  destruct (mul_number q n Nq Nn) as (qty & Hqty & Nqty).
  destruct (div_number qty 2 Nqty) as (q2 & Hq2 & Nq2).
  destruct (div_number qty 4 Nqty) as (q4 & Hq4 & Nq4).
  set (cpu := first_match costs (Str.lower (Py.str i)) (VInt 3)).
  assert (is_number cpu = true) as Ncpu
    by (apply first_match_number; [repeat constructor|done]).
  assert (∃ wq, (if Str.contains "weekly" (Str.lower (Py.str f)) then Ok qty
                 else if Str.contains "biweekly" (Str.lower (Py.str f)) then Py.div qty 2
                 else if Str.contains "monthly" (Str.lower (Py.str f)) then Py.div qty 4
                 else Ok qty) = Ok wq ∧ is_number wq = true) as (wq & Hwq & Nwq).
  { repeat destruct (Str.contains _ _); eauto. }
  destruct (mul_number wq cpu Nwq Ncpu) as (wc & Hwc & Nwc).
  destruct (int_number wq Nwq) as [wqi Hwqi].
  destruct (int_number wc Nwc) as [wci Hwci].
  destruct (div_number wc 1500 Nwc) as (r & Hr & Nr).
  destruct (mul_number r (VInt 100) Nr eq_refl) as (r100 & Hr100 & Nr100).
  destruct (int_number r100 Nr100) as [pct Hpct].
  unfold cost_entry, cost_row, getitem. rewrite Hi, Hq, Hn, Hf, Hu. cbn [bind].
  rewrite Hqty. cbn [bind]. fold cpu. rewrite Hwq. cbn [bind].
  rewrite Hwc. cbn [bind weekly_qty weekly_cost].
  rewrite Hwqi. cbn [bind]. rewrite Hwci. cbn [bind]. rewrite Hr. cbn [bind].
  rewrite Hr100. cbn [bind]. rewrite Hpct. cbn [bind]. eauto.
Qed.

(** C4, as the code has it.  [cost_analysis] returns at most 5 entries: the
    first 5 of the entries of the rows, in the order of a stable sort whose
    key, read back from the formatted cost, is the weekly cost cut to its
    integer part.  The keys never increase along the list, and entries of
    equal key stay in row order.  There is a result for every table of
    complete rows. *)
Theorem top_cost_drivers_by_integer_cost (s : snapshot) (df : DataFrame) :
  shipment_df s = Some df →
  (∀ out, cost_analysis s = Ok out →
     (length out ≤ 5)%nat
     ∧ ∃ es ks ranked,
         Forall2 (λ row e, cost_entry row = Ok e) (rows df) es
         ∧ Forall2 (λ e k, sort_key e = Ok k) es ks
         ∧ ranked ≡ₚ zip ks es
         ∧ StronglySorted (λ a b, b.1 ≤ a.1) ranked
         ∧ (∀ k, filter (λ p, p.1 = k) ranked = filter (λ p, p.1 = k) (zip ks es))
         ∧ out = take 5 ranked.*2)
  ∧ (∀ row e, cost_entry row = Ok e →
       ∃ c n, cost_row row = Ok c ∧ Py.int (weekly_cost c) = Ok n ∧ sort_key e = Ok n)
  ∧ (Forall (λ row, complete_row row = true) (rows df) → ∃ out, cost_analysis s = Ok out).
Proof.
  intros Hdf. split; [|split].
  - intros out H. unfold cost_analysis in H. rewrite Hdf in H.
    apply bind_Ok in H as (es & Hes & H). apply bind_Ok in H as (ks & Hks & H).
    injection H as <-. split; [rewrite length_take; lia|].
    apply (for_each_append_Ok cost_entry (λ e, [e])) in Hes as (es' & Hes' & ->).
    cbn [app] in *. rewrite concat_singletons in *.
    exists es', ks, (sort_desc (zip ks es')).
    split; [assumption|]. split; [by apply map_result_Ok|].
    split; [apply sort_desc_perm|]. split; [apply sort_desc_sorted|].
    split; [intros k; apply sort_desc_stable | reflexivity].
  - intros row e (c & n & Hc & Hn & _ & Hk)%cost_entry_key. eauto.
  - intros Hall. unfold cost_analysis. rewrite Hdf.
    destruct (for_each_append_total cost_entry (λ e, [e]) (rows df) []) as [es Hes].
    { eapply Forall_impl; [exact Hall|]. intros row. apply cost_entry_complete. }
    cbn beta in Hes. rewrite Hes. cbn [bind].
    assert (∃ ks, map_result sort_key es = Ok ks) as [ks ->]; [|cbn; eauto].
    apply map_result_total.
    apply (for_each_append_Ok cost_entry (λ e, [e])) in Hes as (es' & Hes' & ->).
    cbn [app]. rewrite concat_singletons.
    clear Hall. induction Hes' as [|row e rows' es'' He _ IH]; [constructor|].
    constructor; [|assumption].
    apply cost_entry_key in He as (_ & n & _ & _ & _ & Hk). eauto.
Qed.

Lemma top_cost_drivers_by_integer_cost_witness :
  ∃ out, cost_analysis (shipments_only [rice_5; ramen_7; egg_weekly]) = Ok out
         ∧ (length out ≤ 5)%nat.
Proof.
  pose proof (top_cost_drivers_by_integer_cost
                (shipments_only [rice_5; ramen_7; egg_weekly]) _ eq_refl)
    as (Hout & _ & Htotal).
  destruct Htotal as [out Hout']; [repeat constructor|].
  exists out. split; [exact Hout' | exact (proj1 (Hout out Hout'))].
Defined.

(** C4, as the claim has it, fails: the rice of weekly cost 10 is listed
    before the ramen of weekly cost 10.5, both being formatted "$10/wk". *)
Lemma cost_analysis_orders_by_formatted_cost :
  cost_analysis (shipments_only [rice_5; ramen_7])
  = Ok [ {| Cost.ingredient := VStr "Rice"; Cost.details := "5 lbs/week @ $2/lbs";
            Cost.cost := "$10/wk"; Cost.percentage := 0 |};
         {| Cost.ingredient := VStr "Ramen"; Cost.details := "7 rolls/week @ $1.5/rolls";
            Cost.cost := "$10/wk"; Cost.percentage := 0 |} ]
  ∧ cost_row rice_5
    = Ok {| cost_per_unit := VInt 2; weekly_qty := VInt 5; weekly_cost := VInt 10 |}
  ∧ cost_row ramen_7
    = Ok {| cost_per_unit := VFloat (3 # 2); weekly_qty := VInt 7;
            weekly_cost := VFloat (21 # 2) |}
  ∧ (inject_Z 10 < 21 # 2)%Q.
Proof. repeat split; vm_compute; reflexivity. Qed.


(** * Further properties of the engine *)

(** ** The weekly quantity, as the code scales it *)

Lemma mul_safe_val (q n : value) :
  is_number q = true → is_number n = true →
  Py.mul (safe_val q (VInt 0)) (safe_val n (VInt 0)) = Py.mul q n.
Proof.
  intros [[x Hq]|[x Hq]]%is_number_inv [[y Hn]|[y Hn]]%is_number_inv;
    destruct q as [|[]|[]], n as [|[]|[]]; try discriminate; reflexivity.
Qed.

(** X1.  [weekly_calc] and the loop of [cost_analysis] scale the quantity of
    a row the same way: a quarter when the frequency text contains "monthly"
    and not "weekly", unscaled in every other case (never a half). *)
Theorem weekly_quantity_as_coded (row : gmap string value) (i q n : value) (s : string) :
  row !! "Ingredient" = Some i →
  row !! "Quantity per shipment" = Some q → row !! "Number of shipments" = Some n →
  row !! "frequency" = Some (VStr s) →
  is_number q = true → is_number n = true →
  ∃ qty scaled c,
    Py.mul q n = Ok qty
    ∧ (if Str.contains "weekly" (Str.lower s) then Ok qty
       else if Str.contains "monthly" (Str.lower s) then Py.div qty 4
       else Ok qty) = Ok scaled
    ∧ weekly_calc row = Ok scaled
    ∧ cost_row row = Ok c ∧ weekly_qty c = scaled.
Proof.
  intros Hi Hq Hn Hf Nq Nn.
  destruct (mul_number q n Nq Nn) as (qty & Hqty & Nqty).
  destruct (div_number qty 4 Nqty) as (q4 & Hq4 & Nq4).
  set (cpu := first_match costs (Str.lower (Py.str i)) (VInt 3)).
  assert (is_number cpu = true) as Ncpu
    by (apply first_match_number; [repeat constructor|done]).
  assert (∃ scaled,
            (if Str.contains "weekly" (Str.lower s) then Ok qty
             else if Str.contains "monthly" (Str.lower s) then Py.div qty 4
             else Ok qty) = Ok scaled
            ∧ is_number scaled = true) as (scaled & Hscaled & Nscaled).
  { repeat destruct (Str.contains _ _); eauto. }
  destruct (mul_number scaled cpu Nscaled Ncpu) as (wc & Hwc & _).
  exists qty, scaled, {| cost_per_unit := cpu; weekly_qty := scaled; weekly_cost := wc |}.
  split; [assumption|]. split; [assumption|]. split; [|split; [|reflexivity]].
  - unfold weekly_calc, get. rewrite Hq, Hn, Hf, mul_safe_val, Hqty by assumption.
    cbn [bind]. change (Py.str (safe_val (VStr s) (VInt 0))) with s.
    destruct (Str.contains "weekly" (Str.lower s)) eqn:Hw; [assumption|].
    destruct (Str.contains "biweekly" (Str.lower s)) eqn:Hb; [|assumption].
    apply contains_biweekly_weekly in Hb. congruence.
  - unfold cost_row, getitem. rewrite Hi, Hq, Hn, Hf. cbn [bind]. rewrite Hqty. cbn [bind].
    change (Py.str (VStr s)) with s. fold cpu.
    destruct (Str.contains "weekly" (Str.lower s)) eqn:Hw.
    + injection Hscaled as <-. cbn [bind]. by rewrite Hwc.
    + destruct (Str.contains "biweekly" (Str.lower s)) eqn:Hb.
      { apply contains_biweekly_weekly in Hb. congruence. }
      rewrite Hscaled. cbn [bind]. by rewrite Hwc.
Qed.

Lemma weekly_quantity_as_coded_witness :
  weekly_calc beef_monthly = Ok (VFloat 20)
  ∧ weekly_qty <$> (match cost_row beef_monthly with Ok c => Some c | Raise _ => None end)
    = Some (VFloat 20).
Proof.
  destruct (weekly_quantity_as_coded beef_monthly (VStr "Beef") (VInt 40) (VInt 2) "Monthly")
    as (qty & scaled & c & Hqty & Hscaled & Hw & Hc & Hwq); try reflexivity.
  injection Hqty as <-. injection Hscaled as <-.
  rewrite Hw, Hc. cbn. rewrite Hwq. split; reflexivity.
Defined.

(** X2.  On a frequency text with neither "weekly" nor "monthly" in it, the
    two operations disagree: [cost_analysis] leaves the quantity of the row
    unscaled, and [protein_forecast] divides it by 4 before it formats the
    amount of a beef row. *)
Theorem unrecognised_frequency_disagreement (m : gmap string Protein.t)
  (row : gmap string value) (i q u n : value) (s : string) :
  row !! "Ingredient" = Some i →
  row !! "Quantity per shipment" = Some q → row !! "Unit of shipment" = Some u →
  row !! "Number of shipments" = Some n → row !! "frequency" = Some (VStr s) →
  is_number q = true → is_number n = true →
  Str.contains "weekly" (Str.lower s) = false →
  Str.contains "monthly" (Str.lower s) = false →
  Str.contains "beef" (Str.lower (Py.str i)) = true →
  ∃ qty q4 z4 cn c,
    Py.mul q n = Ok qty ∧ Py.div qty 4 = Ok q4 ∧ Py.int q4 = Ok z4 ∧ Py.int n = Ok cn
    ∧ cost_row row = Ok c ∧ weekly_qty c = qty
    ∧ protein_row m row
      = Ok (<["beef" := {| Protein.amount := Str.of_Z z4 +:+ " " +:+ Py.str u;
                           Protein.shipments := Str.of_Z cn +:+ " shipments" |}]> m).
Proof.
  intros Hi Hq Hu Hn Hf Nq Nn Hw Hm Hbeef.
  destruct (mul_number q n Nq Nn) as (qty & Hqty & Nqty).
  destruct (div_number qty 4 Nqty) as (q4 & Hq4 & Nq4).
  destruct (int_number q4 Nq4) as [z4 Hz4].
  destruct (int_number n Nn) as [cn Hcn].
  set (cpu := first_match costs (Str.lower (Py.str i)) (VInt 3)).
  assert (is_number cpu = true) as Ncpu
    by (apply first_match_number; [repeat constructor|done]).
  destruct (mul_number qty cpu Nqty Ncpu) as (wc & Hwc & _).
  assert (Str.contains "biweekly" (Str.lower s) = false) as Hb.
  { destruct (Str.contains "biweekly" (Str.lower s)) eqn:Hb; [|done].
    apply contains_biweekly_weekly in Hb. congruence. }
  exists qty, q4, z4, cn, {| cost_per_unit := cpu; weekly_qty := qty; weekly_cost := wc |}.
  repeat (split; [assumption|]). split; [|split; [reflexivity|]].
  - unfold cost_row, getitem. rewrite Hi, Hq, Hn, Hf. cbn [bind]. rewrite Hqty. cbn [bind].
    change (Py.str (VStr s)) with s. fold cpu. rewrite Hw, Hb, Hm. cbn [bind].
    by rewrite Hwc.
  - unfold protein_row, getitem. rewrite Hi, Hq, Hn, Hf. cbn [bind]. rewrite Hqty. cbn [bind].
    change (Py.str (VStr s)) with s. rewrite Hw, Hb. cbn [negb]. rewrite Hq4. cbn [bind].
    rewrite Hbeef. unfold protein_entry, getitem. rewrite Hz4, Hu, Hn. cbn [bind].
    rewrite Hcn. reflexivity.
Qed.

Lemma unrecognised_frequency_disagreement_witness :
  weekly_qty <$> (match cost_row beef_daily with Ok c => Some c | Raise _ => None end)
  = Some (VInt 80)
  ∧ (match protein_row ∅ beef_daily with
     | Ok r => Protein.amount <$> r !! "beef"
     | Raise _ => None
     end) = Some "20 lbs".
Proof.
  destruct (unrecognised_frequency_disagreement ∅ beef_daily (VStr "Beef") (VInt 40)
              (VStr "lbs") (VInt 2) "daily")
    as (qty & q4 & z4 & cn & c & Hqty & Hq4 & Hz4 & Hcn & Hc & Hwq & Hp);
    try reflexivity.
  injection Hqty as <-. injection Hq4 as <-. injection Hz4 as <-. injection Hcn as <-.
  rewrite Hc, Hp. cbn [fmap option_fmap option_map]. rewrite Hwq, lookup_insert_eq.
  split; reflexivity.
Defined.


(** ** A failing row fails the call *)

Lemma for_each_Raise {A S : Type} (body : S → A → result S) (l1 l2 : list A) (x : A)
  (acc : S) (e : exn) :
  Forall (λ y, ∀ acc, ∃ acc', body acc y = Ok acc') l1 →
  (∀ acc, body acc x = Raise e) →
  for_each body (l1 ++ x :: l2) acc = Raise e.
Proof.
  intros H Hx. revert acc. induction H as [|y l1 Hy _ IH]; intros acc; cbn.
  - by rewrite Hx.
  - destruct (Hy acc) as [acc' ->]. cbn. apply IH.
Qed.

Lemma alerts_row_total (row : gmap string value) :
  complete_row row = true → ∃ e, alerts_row row = Ok e.
Proof.
  intros (i & q & u & n & f & Hi & Hq & Hu & Hn & Hf & Nq & Nn)%complete_row_fields.
  destruct (alerts_row_complete row i q u n f) as (? & ? & ? & ? & _ & _ & _ & _ & ->);
    eauto.
Qed.

Lemma protein_row_Raise (m m' : gmap string Protein.t) (row : gmap string value) (e : exn) :
  protein_row m row = Raise e → protein_row m' row = Raise e.
Proof.
  unfold protein_row.
  destruct (getitem row "Ingredient") as [i|]; [cbn [bind]|done].
  destruct (getitem row "Quantity per shipment") as [q|]; [cbn [bind]|done].
  destruct (getitem row "Number of shipments") as [n|]; [cbn [bind]|done].
  destruct (Py.mul q n) as [qty|]; [cbn [bind]|done].
  destruct (getitem row "frequency") as [f|]; [cbn [bind]|done].
  destruct (if negb _ then _ else _) as [qty'|]; [cbn [bind]|done].
  destruct (Str.contains "beef" _).
  - destruct (protein_entry row qty'); [discriminate|done].
  - destruct (_ && _)%bool; [|discriminate].
    destruct (protein_entry row qty'); [discriminate|done].
Qed.

(** X3.  The loops have no early exit and no handler: when the rows before
    it are complete, the first row on which the loop body raises makes the
    whole call raise that exception, however many alerts were already
    collected and wherever the row would have ranked. *)
Theorem first_failing_row_fails_the_call (s : snapshot) (df : DataFrame)
  (l1 l2 : list (gmap string value)) (row : gmap string value) (e : exn) :
  shipment_df s = Some df → rows df = l1 ++ row :: l2 →
  Forall (λ r, complete_row r = true) l1 →
  (alerts_row row = Raise e → alerts s = Raise e)
  ∧ (cost_entry row = Raise e → cost_analysis s = Raise e)
  ∧ (protein_row ∅ row = Raise e → protein_forecast s = Raise e).
Proof.
  intros Hdf Hrows Hl1. split; [|split]; intros Hrow.
  - unfold alerts. rewrite Hdf, Hrows.
    rewrite (for_each_Raise _ l1 l2 row [] e); [done| |].
    + eapply Forall_impl; [exact Hl1|]. intros r [x Hr]%alerts_row_total acc.
      rewrite Hr. cbn. eauto.
    + intros acc. by rewrite Hrow.
  - unfold cost_analysis. rewrite Hdf, Hrows.
    rewrite (for_each_Raise _ l1 l2 row [] e); [done| |].
    + eapply Forall_impl; [exact Hl1|]. intros r [x Hr]%cost_entry_complete acc.
      rewrite Hr. cbn. eauto.
    + intros acc. by rewrite Hrow.
  - unfold protein_forecast. rewrite Hdf, Hrows.
    rewrite (for_each_Raise _ l1 l2 row ∅ e); [done| |].
    + eapply Forall_impl; [exact Hl1|]. intros r Hr acc. by apply protein_row_complete.
    + intros acc. by apply (protein_row_Raise ∅).
Qed.

Lemma first_failing_row_fails_the_call_witness :
  (∃ l, alerts (shipments_only [egg_weekly; egg_weekly]) = Ok l ∧ length l = 3%nat)
  ∧ alerts (shipments_only [egg_weekly; egg_weekly; egg_no_quantity]) = Raise ValueError.
Proof.
  split; [eexists; split; vm_compute; reflexivity|].
  apply (first_failing_row_fails_the_call
           (shipments_only [egg_weekly; egg_weekly; egg_no_quantity]) _
           [egg_weekly; egg_weekly] [] egg_no_quantity ValueError eq_refl eq_refl).
  - repeat constructor.
  - vm_compute. reflexivity.
Defined.

(** ** Tables that call for no alert *)

(** X4.  On a table of complete rows, [alerts] returns the empty list exactly
    when every row has fewer than 5 shipments and no "egg" in its ingredient. *)
Theorem no_alert_iff_quiet (s : snapshot) (df : DataFrame) :
  shipment_df s = Some df →
  Forall (λ row, complete_row row = true) (rows df) →
  alerts s = Ok [] ↔ Forall (λ row, quiet_row row = true) (rows df).
Proof.
  intros Hdf Hall. unfold alerts. rewrite Hdf.
  assert (∀ row, complete_row row = true →
                 ∃ e, alerts_row row = Ok e ∧ (e = [] ↔ quiet_row row = true)) as Hrow.
  { intros row (i & q & u & n & f & Hi & Hq & Hu & Hn & Hf & Nq & Nn)%complete_row_fields.
    destruct (alerts_row_complete row i q u n f)
      as (high & c & total & p & Hhigh & _ & _ & _ & ->); try assumption.
    eexists. split; [reflexivity|]. unfold quiet_row. rewrite Hi, Hn, Hhigh.
    destruct high, (Str.contains "egg" _); cbn; split; done. }
  assert (∀ l acc,
            Forall (λ row, complete_row row = true) l →
            ∃ out, for_each (λ acc row, e <- alerts_row row;; Ok (acc ++ e)) l acc = Ok out
                   ∧ (out = [] ↔ acc = [] ∧ Forall (λ row, quiet_row row = true) l))
    as Hloop.
  { intros l acc H. revert acc. induction H as [|row l Hc _ IH]; intros acc; cbn.
    - eexists. split; [reflexivity|]. split; [intros ->; split; [done|constructor]|].
      by intros [-> _].
    - destruct (Hrow row Hc) as (e & -> & He). cbn.
      destruct (IH (acc ++ e)) as (out & -> & Hout). exists out. split; [done|].
      rewrite Hout. split.
      + intros [[-> ->]%app_eq_nil Hl]. split; [done|]. constructor; [by apply He|done].
      + intros [-> Hl]. apply Forall_cons in Hl as [Hq Hl].
        apply He in Hq as ->. done. }
  destruct (Hloop (rows df) [] Hall) as (out & -> & Hout). cbn.
  split.
  - intros H. injection H as H.
    assert (out = []) as Hnil.
    { destruct out as [|a [|b [|c out]]]; cbn in H; done. }
    by apply Hout in Hnil as [_ ?].
  - intros H. assert (out = []) as -> by (apply Hout; done). reflexivity.
Qed.

Lemma no_alert_iff_quiet_witness :
  alerts (shipments_only [rice_weekly; onion_weekly]) = Ok [].
Proof.
  apply (no_alert_iff_quiet (shipments_only [rice_weekly; onion_weekly]) _ eq_refl).
  - repeat constructor.
  - repeat constructor.
Defined.

(** ** Cost analysis: what the list holds *)

Lemma cost_analysis_inv (s : snapshot) (df : DataFrame) (out : list Cost.t) :
  shipment_df s = Some df → cost_analysis s = Ok out →
  ∃ es ks, Forall2 (λ row e, cost_entry row = Ok e) (rows df) es
           ∧ Forall2 (λ e k, sort_key e = Ok k) es ks
           ∧ out = take 5 (sort_desc (zip ks es)).*2.
Proof.
  intros Hdf H. unfold cost_analysis in H. rewrite Hdf in H.
  apply bind_Ok in H as (es & Hes & H). apply bind_Ok in H as (ks & Hks & H).
  injection H as <-.
  apply (for_each_append_Ok cost_entry (λ e, [e])) in Hes as (es' & Hes' & ->).
  cbn [app] in *. rewrite concat_singletons in *.
  exists es', ks. split; [assumption|]. split; [by apply map_result_Ok | reflexivity].
Qed.

(** Every listed entry is the entry of a row of the table. *)
Lemma cost_analysis_elem (s : snapshot) (df : DataFrame) (out : list Cost.t) (e : Cost.t) :
  shipment_df s = Some df → cost_analysis s = Ok out → e ∈ out →
  ∃ row, row ∈ rows df ∧ cost_entry row = Ok e.
Proof.
  intros Hdf H He. destruct (cost_analysis_inv s df out Hdf H) as (es & ks & Hes & Hks & ->).
  apply elem_of_take in He as (i & He & _).
  apply list_elem_of_lookup_2 in He.
  apply list_elem_of_fmap in He as ([k e'] & -> & He). cbn.
  rewrite sort_desc_perm in He. apply elem_of_zip_r in He.
  apply list_elem_of_lookup in He as [j Hj].
  destruct (Forall2_lookup_r _ _ _ _ _ Hes Hj) as (row & Hrow & Hre).
  exists row. split; [by eapply list_elem_of_lookup_2 | assumption].
Qed.

Lemma nonneg_number (v : value) : nonneg v = true → is_number v = true.
Proof. unfold nonneg, is_number. by destruct (unbox v) as [[]|]. Qed.

Lemma mul_nonneg (a b : value) :
  nonneg a = true → nonneg b = true → ∃ p, Py.mul a b = Ok p ∧ nonneg p = true.
Proof.
  unfold nonneg, Py.mul.
  destruct (unbox a) as [[x|x| |]|], (unbox b) as [[y|y| |]|]; try discriminate;
    intros Ha Hb; eexists; (split; [reflexivity|]); cbn.
  - apply Z.leb_le. apply Z.leb_le in Ha, Hb. lia.
  - apply Qle_bool_iff. rewrite Qred_correct. apply Z.leb_le in Ha.
    apply Qle_bool_iff in Hb. apply Qmult_le_0_compat; [|done].
    change 0%Q with (inject_Z 0). by rewrite <- Zle_Qle.
  - apply Qle_bool_iff. rewrite Qred_correct. apply Z.leb_le in Hb.
    apply Qle_bool_iff in Ha. apply Qmult_le_0_compat; [done|].
    change 0%Q with (inject_Z 0). by rewrite <- Zle_Qle.
  - apply Qle_bool_iff. rewrite Qred_correct.
    apply Qle_bool_iff in Ha, Hb. by apply Qmult_le_0_compat.
Qed.

Lemma div_nonneg (a : value) (k : Z) :
  0 < k → nonneg a = true → ∃ p, Py.div a k = Ok p ∧ nonneg p = true.
Proof.
  intros Hk. unfold nonneg, Py.div.
  assert (0 < / inject_Z k)%Q as Hinv.
  { apply Qinv_lt_0_compat. change 0%Q with (inject_Z 0). by rewrite <- Zlt_Qlt. }
  destruct (unbox a) as [[x|x| |]|]; try discriminate;
    intros Ha; eexists; (split; [reflexivity|]); cbn;
    apply Qle_bool_iff; rewrite Qred_correct; unfold Qdiv;
    (apply Qmult_le_0_compat; [|by apply Qlt_le_weak]).
  - apply Z.leb_le in Ha. change 0%Q with (inject_Z 0). by rewrite <- Zle_Qle.
  - by apply Qle_bool_iff in Ha.
Qed.

Lemma int_nonneg (v : value) : nonneg v = true → ∃ z, Py.int v = Ok z ∧ 0 ≤ z.
Proof.
  unfold nonneg, Py.int. destruct (unbox v) as [[x|x| |]|]; try discriminate; intros H.
  - exists x. split; [done|]. by apply Z.leb_le.
  - eexists. split; [reflexivity|]. apply Qle_bool_iff in H.
    unfold Py.trunc. apply Z.quot_pos; [|lia].
    unfold Qle in H. cbn in H. lia.
Qed.

Lemma first_match_nonneg (table : list (string * value)) (s : string) (d : value) :
  Forall (λ p, nonneg p.2 = true) table → nonneg d = true →
  nonneg (first_match table s d) = true.
Proof.
  induction 1 as [|[key v] table Hv _ IH]; cbn; [done|]. intros Hd.
  destruct (Str.contains key s); auto.
Qed.

Lemma cost_entry_percentage (row : gmap string value) (e : Cost.t) :
  cost_entry row = Ok e →
  Cost.percentage e ≤ 100 ∧ (nonneg_row row = true → 0 ≤ Cost.percentage e).
Proof.
  intros H. unfold cost_entry in H.
  apply bind_Ok in H as (c & Hc & H). do 7 inv_bind H. injection H as <-. cbn.
  split; [lia|]. intros Hrow.
  assert (nonneg (weekly_cost c) = true) as Hwc.
  { unfold nonneg_row in Hrow. unfold cost_row, getitem in Hc.
    destruct (row !! "Ingredient") as [i|]; [|discriminate].
    destruct (row !! "Quantity per shipment") as [q|]; [|discriminate].
    destruct (row !! "Number of shipments") as [n|]; [|discriminate].
    apply andb_prop in Hrow as [Hq Hn]. cbn [bind] in Hc.
    destruct (mul_nonneg q n Hq Hn) as (qty & Hqty & Nqty). rewrite Hqty in Hc.
    cbn [bind] in Hc. destruct (row !! "frequency") as [f|]; [|discriminate].
    cbn [bind] in Hc.
    destruct (div_nonneg qty 2 ltac:(lia) Nqty) as (q2 & Hq2 & Nq2).
    destruct (div_nonneg qty 4 ltac:(lia) Nqty) as (q4 & Hq4 & Nq4).
    apply bind_Ok in Hc as (wq & Hwq & Hc).
    assert (nonneg wq = true) as Nwq.
    { repeat destruct (Str.contains _ _); congruence. }
    apply bind_Ok in Hc as (wc & Hwc & Hc). injection Hc as <-. cbn.
    destruct (mul_nonneg wq (first_match costs (Str.lower (Py.str i)) (VInt 3)) Nwq)
      as (wc' & Hwc' & Nwc').
    { apply first_match_nonneg; [repeat constructor|done]. }
    congruence. }
  destruct (div_nonneg _ 1500 ltac:(lia) Hwc) as (r & Hr & Nr).
  destruct (mul_nonneg r (VInt 100) Nr eq_refl) as (r100 & Hr100 & Nr100).
  destruct (int_nonneg r100 Nr100) as (pct & Hpct & Hpos).
  assert (v5 = pct) as -> by congruence. lia.
Qed.

(** X5.  Every entry that [cost_analysis] lists has a percentage of at most
    100, and of at least 0 when no row of the table has a negative quantity or
    a negative number of shipments. *)
Theorem cost_percentage_bounds (s : snapshot) (df : DataFrame) (out : list Cost.t) :
  shipment_df s = Some df → cost_analysis s = Ok out →
  Forall (λ e, Cost.percentage e ≤ 100) out
  ∧ (Forall (λ row, nonneg_row row = true) (rows df) →
     Forall (λ e, 0 ≤ Cost.percentage e ≤ 100) out).
Proof.
  intros Hdf H. split.
  - apply Forall_forall. intros e He.
    destruct (cost_analysis_elem s df out e Hdf H He) as (row & _ & Hrow).
    by apply cost_entry_percentage in Hrow as [? _].
  - intros Hall. apply Forall_forall. intros e He.
    destruct (cost_analysis_elem s df out e Hdf H He) as (row & Hin & Hrow).
    apply cost_entry_percentage in Hrow as [? Hpos].
    rewrite Forall_forall in Hall. split; [auto|assumption].
Qed.

Lemma cost_percentage_bounds_witness :
  ∃ out, cost_analysis (shipments_only [rice_5; ramen_7; beef_weekly]) = Ok out
         ∧ Forall (λ e, 0 ≤ Cost.percentage e ≤ 100) out.
Proof.
  eexists. split; [vm_compute; reflexivity|].
  apply (cost_percentage_bounds (shipments_only [rice_5; ramen_7; beef_weekly]) _ _ eq_refl).
  - vm_compute. reflexivity.
  - repeat constructor.
Defined.

(** X6.  [cost_analysis] drops nothing but what exceeds five: on a table on
    which it returns, it lists as many entries as the table has rows, or 5. *)
Theorem cost_analysis_length (s : snapshot) (df : DataFrame) (out : list Cost.t) :
  shipment_df s = Some df → cost_analysis s = Ok out →
  length out = (length (rows df) `min` 5)%nat.
Proof.
  intros Hdf H. destruct (cost_analysis_inv s df out Hdf H) as (es & ks & Hes & Hks & ->).
  rewrite length_take, length_fmap.
  rewrite (Permutation_length (sort_desc_perm _)), length_zip.
  apply Forall2_length in Hes, Hks. lia.
Qed.

Lemma cost_analysis_length_witness :
  ∃ out, cost_analysis (shipments_only [rice_5; ramen_7; beef_weekly]) = Ok out
         ∧ length out = 3%nat.
Proof.
  eexists. split; [vm_compute; reflexivity|].
  apply (cost_analysis_length (shipments_only [rice_5; ramen_7; beef_weekly]) _ _ eq_refl).
  vm_compute. reflexivity.
Defined.


(** ** Shipment schedule: all the rows or none *)

Lemma schedule_loop_Ok (l : list (gmap string value)) (acc : list Schedule.t) (g : rng) :
  Forall (λ row, ∃ p, schedule_fields row = Ok p) l →
  ∃ es, (schedule_loop l acc g).1 = Ok (acc ++ es)
        ∧ Forall2 (λ row e, schedule_fields row
                            = Ok (Schedule.ingredient e, Schedule.frequency e)) l es
        ∧ ∀ n, (schedule_loop l acc g).2 n = g (length l + n)%nat.
Proof.
  intros H. revert acc g. induction H as [|row l [[i f] Hrow] _ IH]; intros acc g.
  - exists []. cbn. rewrite app_nil_r. split; [done|]. split; [constructor|done].
  - cbn [schedule_loop]. rewrite Hrow. cbn [randint].
    match goal with
    | |- context [schedule_loop l (acc ++ [?e]) ?g'] =>
        destruct (IH (acc ++ [e]) g') as (es & H1 & H2 & H3); exists (e :: es)
    end.
    split; [by rewrite H1, <- app_assoc|]. split; [by constructor|].
    intros n. rewrite H3. cbn [length]. f_equal; lia.
Qed.

Lemma schedule_loop_Raise (l1 l2 : list (gmap string value)) (row : gmap string value)
  (acc : list Schedule.t) (g : rng) (e : exn) :
  Forall (λ row, ∃ p, schedule_fields row = Ok p) l1 →
  schedule_fields row = Raise e →
  (schedule_loop (l1 ++ row :: l2) acc g).1 = Raise e
  ∧ ∀ n, (schedule_loop (l1 ++ row :: l2) acc g).2 n = g (length l1 + n)%nat.
Proof.
  intros H Hrow. revert acc g. induction H as [|r l1 [[i f] Hr] _ IH]; intros acc g.
  - cbn. rewrite Hrow. done.
  - cbn [app schedule_loop]. rewrite Hr. cbn [randint].
    match goal with
    | |- context [schedule_loop _ (acc ++ [?x]) ?g'] =>
        destruct (IH (acc ++ [x]) g') as [H1 H2]
    end.
    split; [assumption|]. intros n. rewrite H2. cbn [length]. f_equal; lia.
Qed.

(** X7.  When the loop body raises on no row, the schedule lists one entry
    per row, in row order, and leaves the random generator advanced by
    exactly one draw per row. *)
Theorem schedule_one_entry_per_row (s : snapshot) (df : DataFrame) (g : rng) :
  shipment_df s = Some df →
  Forall (λ row, ∃ p, schedule_fields row = Ok p) (rows df) →
  length (shipment_schedule s g).1 = length (rows df)
  ∧ Forall2 (λ row e, schedule_fields row
                      = Ok (Schedule.ingredient e, Schedule.frequency e))
            (rows df) (shipment_schedule s g).1
  ∧ ∀ n, (shipment_schedule s g).2 n = g (length (rows df) + n)%nat.
Proof.
  intros Hdf Hall. unfold shipment_schedule. rewrite Hdf.
  destruct (schedule_loop_Ok (rows df) [] g Hall) as (es & H1 & H2 & H3).
  destruct (schedule_loop (rows df) [] g) as [r g']. cbn in *. subst r. cbn.
  split; [symmetry; by eapply Forall2_length|]. split; assumption.
Qed.

Lemma schedule_one_entry_per_row_witness :
  length (shipment_schedule (shipments_only [egg_weekly; egg_no_quantity]) counting).1
  = 2%nat
  ∧ (shipment_schedule (shipments_only [egg_weekly; egg_no_quantity]) counting).2 O = 2.
Proof.
  destruct (schedule_one_entry_per_row
              (shipments_only [egg_weekly; egg_no_quantity]) _ counting eq_refl)
    as (Hlen & _ & Hg).
  - repeat constructor; eexists; vm_compute; reflexivity.
  - split; [exact Hlen | exact (Hg O)].
Defined.

(** X8.  When the loop body raises on a row, the handler returns the empty
    schedule, whatever the rows before it gave, and the draws made for those
    rows stay consumed. *)
Theorem schedule_emptied_by_a_failing_row (s : snapshot) (df : DataFrame) (g : rng)
  (l1 l2 : list (gmap string value)) (row : gmap string value) (e : exn) :
  shipment_df s = Some df → rows df = l1 ++ row :: l2 →
  Forall (λ row, ∃ p, schedule_fields row = Ok p) l1 →
  schedule_fields row = Raise e →
  (shipment_schedule s g).1 = []
  ∧ ∀ n, (shipment_schedule s g).2 n = g (length l1 + n)%nat.
Proof.
  intros Hdf Hrows Hl1 Hrow. unfold shipment_schedule. rewrite Hdf, Hrows.
  destruct (schedule_loop_Raise l1 l2 row [] g e Hl1 Hrow) as [H1 H2].
  destruct (schedule_loop (l1 ++ row :: l2) [] g) as [r g']. cbn in *. subst r.
  split; [reflexivity | assumption].
Qed.

Lemma schedule_emptied_by_a_failing_row_witness :
  (shipment_schedule (shipments_only [egg_weekly; rice_many; onion_weekly]) counting).1 = []
  ∧ (shipment_schedule (shipments_only [egg_weekly; rice_many; onion_weekly]) counting).2 O
    = 1.
Proof.
  destruct (schedule_emptied_by_a_failing_row
              (shipments_only [egg_weekly; rice_many; onion_weekly]) _ counting
              [egg_weekly] [onion_weekly] rice_many ValueError eq_refl eq_refl)
    as [Hnil Hg].
  - repeat constructor; eexists; vm_compute; reflexivity.
  - vm_compute. reflexivity.
  - split; [exact Hnil | exact (Hg O)].
Defined.




(** ** Record coercion: where the missing value can get through *)

(** X10.  With a default that is a native scalar other than [nan], the result
    of [safe_val] is a native scalar other than [nan] on every input but one,
    the [nan] boxed in a numpy scalar, which comes out as the native [nan]. *)
Theorem safe_val_result (v : value) (d : scalar) :
  d ≠ SNaN →
  (v ≠ VNumpy SNaN → ∃ r, safe_val v (VNative d) = VNative r ∧ r ≠ SNaN)
  ∧ (v = VNumpy SNaN → safe_val v (VNative d) = VNaN).
Proof.
  intros Hd. split.
  - intros Hv. destruct v as [|r|r].
    + exists d. done.
    + destruct r; try (eexists; split; [reflexivity|discriminate]). exists d. done.
    + destruct r; try (eexists; split; [reflexivity|discriminate]). done.
  - intros ->. reflexivity.
Qed.

Lemma safe_val_result_witness :
  ∃ r, safe_val (VNumpy (SFloat (5 # 2))) (VNative (SInt 0)) = VNative r ∧ r ≠ SNaN.
Proof.
  apply (safe_val_result (VNumpy (SFloat (5 # 2))) (SInt 0)); discriminate.
Defined.

(** ** Forecast: the three series *)

Lemma loaded_months_length {B : Type} (s : snapshot) (f : DataFrame → B) :
  length (omap (λ m, f <$> monthly_sales s !! m) (available s)) = length (available s).
Proof.
  unfold available. induction months as [|m l IH]; [reflexivity|].
  rewrite filter_cons. destruct (decide _) as [[df H]|]; [|assumption].
  cbn. rewrite H. cbn. by rewrite IH.
Qed.




(** ** Forecast: a history that is exactly linear *)

Lemma trunc_integer (q : Q) (z : Z) : (q == inject_Z z)%Q → Py.trunc q = z.
Proof.
  unfold Qeq, Py.trunc. cbn. intros H. rewrite Z.mul_1_r in H. rewrite H.
  apply Z.quot_mul. lia.
Qed.

Lemma sumZ_linear (y0 d : Z) (x : list Z) :
  sumZ ((λ i, y0 + d * i) <$> x) = Z.of_nat (length x) * y0 + d * sumZ x.
Proof.
  unfold sumZ. induction x as [|i x IH]; [cbn; lia|].
  cbn [fmap list_fmap foldr length]. rewrite IH. lia.
Qed.

Lemma sumZ_linear_moment (y0 d : Z) (x : list Z) :
  sumZ (zip_with Z.mul x ((λ i, y0 + d * i) <$> x))
  = y0 * sumZ x + d * sumZ (zip_with Z.mul x x).
Proof.
  unfold sumZ. induction x as [|i x IH]; [cbn; lia|].
  cbn [fmap list_fmap zip_with foldr]. rewrite IH. lia.
Qed.

(** The least-squares line through points that lie on a line is that line. *)
Lemma least_squares_linear (y0 d : Z) (x : list Z) :
  0 < Z.of_nat (length x) * sumZ (zip_with Z.mul x x) - sumZ x * sumZ x →
  Qeq (Spec.least_squares x ((λ i, y0 + d * i) <$> x)).1 (inject_Z d)
  ∧ Qeq (Spec.least_squares x ((λ i, y0 + d * i) <$> x)).2 (inject_Z y0).
Proof.
  intros HD.
  assert (0 < Z.of_nat (length x)) as Hn.
  { destruct x; [cbn in HD|cbn]; lia. }
  set (n := Z.of_nat (length x)) in *. set (sx := sumZ x) in *.
  set (sxx := sumZ (zip_with Z.mul x x)) in *.
  assert (Qeq (Spec.least_squares x ((λ i, y0 + d * i) <$> x)).1 (inject_Z d)) as Ha.
  { cbn [Spec.least_squares fst]. rewrite Qred_correct, sumZ_linear, sumZ_linear_moment.
    fold n sx sxx.
    replace (n * (y0 * sx + d * sxx) - sx * (n * y0 + d * sx))
      with (d * (n * sxx - sx * sx)) by ring.
    rewrite inject_Z_mult. field.
    intros H0. pose proof (proj1 (inject_Z_injective _ 0) H0). lia. }
  split; [exact Ha|].
  cbn [Spec.least_squares fst snd] in *. rewrite Qred_correct, Ha, sumZ_linear.
  fold n sx. rewrite inject_Z_plus, !inject_Z_mult. field.
  intros H0. pose proof (proj1 (inject_Z_injective _ 0) H0). lia.
Qed.

(** X12.  When the row counts of two or more loaded months lie exactly on a
    line, the least-squares line is that line, and its next two values are
    integers; [forecast] returns each of them, or its neighbour on the side
    of zero, as long as the value numpy computes lies less than 1 from the
    line.  So a rising history can be forecast one unit short, and a history
    that falls to 0 is forecast 0. *)
Theorem linear_history_one_short (np : Np.t) (s : snapshot) (y0 d : Z) :
  let k := length (actual s) in
  let n1 := y0 + d * Z.of_nat k in
  let n2 := y0 + d * (Z.of_nat k + 1) in
  (2 ≤ k)%nat →
  actual s = (λ i, y0 + d * i) <$> arange k →
  Qlt (off_the_line np (arange k) (actual s) (Z.of_nat k)) 1 →
  Qlt (off_the_line np (arange k) (actual s) (Z.of_nat k + 1)) 1 →
  Qeq (Spec.line (Spec.least_squares (arange k) (actual s)) (Z.of_nat k)) (inject_Z n1)
  ∧ Qeq (Spec.line (Spec.least_squares (arange k) (actual s)) (Z.of_nat k + 1)) (inject_Z n2)
  ∧ ∃ f1 f2,
      Forecast.predicted (forecast np s)
      = replicate (k - 1) None ++ [Some (y0 + d * (Z.of_nat k - 1)); Some f1; Some f2]
      ∧ (f1 = n1 ∨ (0 < n1 ∧ f1 = n1 - 1) ∨ (n1 < 0 ∧ f1 = n1 + 1))
      ∧ (f2 = n2 ∨ (0 < n2 ∧ f2 = n2 - 1) ∨ (n2 < 0 ∧ f2 = n2 + 1)).
Proof.
  intros k n1 n2 Hk Hy H1 H2.
  destruct (least_squares_linear y0 d (arange k)) as [Ha Hb]; [by apply arange_spread|].
  rewrite <- Hy in Ha, Hb.
  assert (∀ x, Qeq (Spec.line (Spec.least_squares (arange k) (actual s)) x)
                   (inject_Z (y0 + d * x))) as Hl.
  { intros x. unfold Spec.line. rewrite Ha, Hb, <- inject_Z_mult, <- inject_Z_plus.
    by replace (d * x + y0) with (y0 + d * x) by lia. }
  split; [apply Hl|]. split; [apply Hl|].
  unfold off_the_line in H1, H2. rewrite Hl in H1, H2.
  eexists _, _. split; [|split; [exact (trunc_near_integer _ _ H1)
                                | exact (trunc_near_integer _ _ H2)]].
  rewrite forecast_fitted by exact Hk. fold k. do 3 f_equal.
  clearbody k. rewrite Hy. destruct k as [|k']; [lia|].
  rewrite arange_S, fmap_app. cbn [fmap list_fmap]. rewrite last_snoc.
  cbn [default]. unfold id. lia.
Qed.

Lemma linear_history_one_short_witness :
  ∃ f1 f2,
    Forecast.predicted (forecast fit_below two_months) = [None; Some 20; Some f1; Some f2]
    ∧ (f1 = 30 ∨ f1 = 29) ∧ (f2 = 40 ∨ f2 = 39)
    ∧ Forecast.predicted (forecast fit_below two_months) = [None; Some 20; Some 29; Some 39].
Proof.
  pose proof (linear_history_one_short fit_below two_months 10 10) as H. cbv zeta in H.
  destruct H as (_ & _ & f1 & f2 & H & H1 & H2);
    [vm_compute; lia | vm_compute; reflexivity | vm_compute; reflexivity..|].
  exists f1, f2.
  replace (length (actual two_months)) with 2%nat in * by (vm_compute; reflexivity).
  split; [exact H|]. split; [cbn in H1; lia|]. split; [cbn in H2; lia|].
  vm_compute. reflexivity.
Defined.


(** ** Sales trends *)

Lemma loaded_months_omap {B : Type} (s : snapshot) (f : DataFrame → B) :
  Forall2 (λ m b, ∃ df, monthly_sales s !! m = Some df ∧ b = f df)
          (available s) (omap (λ m, f <$> monthly_sales s !! m) (available s)).
Proof.
  unfold available. induction months as [|m l IH]; [constructor|].
  rewrite filter_cons. destruct (decide _) as [[df H]|]; [|assumption].
  cbn. rewrite H. cbn. constructor; [eauto | assumption].
Qed.

Lemma sumZ_bounds (l : list Z) (b : Z) :
  Forall (λ c, 0 ≤ c ≤ b) l → 0 ≤ sumZ l ≤ Z.of_nat (length l) * b.
Proof.
  unfold sumZ. induction 1 as [|c l Hc _ IH]; cbn [foldr length]; [lia|].
  rewrite Nat2Z.inj_succ. lia.
Qed.

Lemma count_group_bounds (df : DataFrame) (keyword : string) :
  0 ≤ count_group df keyword ≤ Z.of_nat (length (rows df)).
Proof.
  unfold count_group, cells. split; [lia|].
  apply inj_le. etrans; [apply length_filter|]. by rewrite length_fmap.
Qed.

Lemma category_count_bounds (df : DataFrame) (keywords : list string) :
  0 ≤ category_count df keywords
    ≤ Z.of_nat (length keywords) * Z.of_nat (length (rows df))
  ∧ (has_column df "Group" = false → category_count df keywords = 0).
Proof.
  unfold category_count. destruct (has_column df "Group"); [|split; [nia|done]].
  split; [|done].
  rewrite <- (length_fmap (count_group df) keywords). apply sumZ_bounds.
  apply Forall_fmap, Forall_forall. intros k _. apply count_group_bounds.
Qed.

(** X13.  With no sales table loaded, [sales_trends] returns no dataset at
    all; otherwise it returns the four categories in their declared order,
    each with exactly one count per label. *)
Theorem sales_trends_shape (s : snapshot) :
  (size (monthly_sales s) = 0%nat →
   sales_trends s = {| Trends.labels := []; Trends.datasets := [] |})
  ∧ (size (monthly_sales s) ≠ 0%nat →
     Trends.label <$> Trends.datasets (sales_trends s)
     = ["Ramen Dishes"; "Fried Rice"; "Wings & Cutlets"; "Rice Noodles"]
     ∧ Forall (λ d, length (Trends.data d) = length (Trends.labels (sales_trends s)))
              (Trends.datasets (sales_trends s))).
Proof.
  unfold sales_trends. split; intros H.
  - by rewrite decide_True.
  - rewrite decide_False by assumption. cbn [Trends.labels Trends.datasets].
    split; [reflexivity|].
    apply Forall_fmap, Forall_forall. intros c _. cbn. apply loaded_months_length.
Qed.

Lemma sales_trends_shape_witness :
  Trends.label <$> Trends.datasets (sales_trends may_july_sales)
  = ["Ramen Dishes"; "Fried Rice"; "Wings & Cutlets"; "Rice Noodles"].
Proof.
  apply (sales_trends_shape may_july_sales). vm_compute. discriminate.
Defined.

(** X14.  The count of a category for a loaded month is the count of the
    inner loops on the table of that month: it is 0 when the table has no
    "Group" column, and lies between 0 and the number of rows times the
    number of keywords of the category (a row is counted once per keyword it
    contains, so a category of two keywords can count a row twice). *)
Theorem sales_trends_counts (s : snapshot) (i : nat) (m : string) (df : DataFrame)
  (c : string * list string) :
  size (monthly_sales s) ≠ 0%nat →
  available s !! i = Some m → monthly_sales s !! m = Some df →
  c ∈ categories →
  ∃ d, d ∈ Trends.datasets (sales_trends s)
       ∧ Trends.label d = c.1
       ∧ Trends.data d !! i = Some (category_count df c.2)
       ∧ 0 ≤ category_count df c.2
           ≤ Z.of_nat (length c.2) * Z.of_nat (length (rows df))
       ∧ (has_column df "Group" = false → category_count df c.2 = 0).
Proof.
  intros Hne Hi Hm Hc. unfold sales_trends. rewrite decide_False by assumption.
  cbn [Trends.datasets].
  eexists. split; [apply list_elem_of_fmap; eexists; split; [reflexivity|exact Hc]|].
  cbn [Trends.label Trends.data]. split; [reflexivity|]. split.
  - pose proof (loaded_months_omap s (λ df, category_count df c.2)) as H.
    destruct (Forall2_lookup_l _ _ _ _ _ H Hi) as (b & Hb & df' & Hdf' & ->).
    rewrite Hb. congruence.
  - apply category_count_bounds.
Qed.

Lemma sales_trends_counts_witness :
  ∃ d, d ∈ Trends.datasets (sales_trends may_july_sales)
       ∧ Trends.label d = "Wings & Cutlets" ∧ Trends.data d !! 0%nat = Some 2.
Proof.
  destruct (sales_trends_counts may_july_sales 0 "May"
              {| columns := ["Group"];
                 rows := [sale "Chicken Wing and Cutlet Combo"; sale "Spicy RAMEN";
                          sale "Rice Noodle Soup"] |}
              ("Wings & Cutlets", ["Wing"; "Cutlet"]))
    as (d & Hd & Hl & Hi & _).
  - vm_compute. discriminate.
  - vm_compute. reflexivity.
  - vm_compute. reflexivity.
  - do 2 apply list_elem_of_further. apply list_elem_of_here.
  - exists d. split; [exact Hd|]. split; [exact Hl|]. rewrite Hi. vm_compute. reflexivity.
Defined.

(** X15.  The two charts share their period axis: whatever is loaded, the
    labels of [sales_trends] are loaded months in calendar order, without
    repetition, and the labels of [forecast] are those labels followed by the
    two forecast labels. *)
Theorem charts_share_the_period_axis (np : Np.t) (s : snapshot) :
  size (monthly_sales s) ≠ 0%nat →
  Forecast.labels (forecast np s)
  = Trends.labels (sales_trends s) ++ ["Forecast 1"; "Forecast 2"]
  ∧ Trends.labels (sales_trends s) `sublist_of` months
  ∧ NoDup (Trends.labels (sales_trends s))
  ∧ ∀ m, m ∈ Trends.labels (sales_trends s) ↔ m ∈ months ∧ is_Some (monthly_sales s !! m).
Proof.
  intros Hne. unfold forecast, sales_trends. rewrite !decide_False by assumption.
  cbn [Forecast.labels Trends.labels]. split; [reflexivity|]. unfold available.
  split; [apply sublist_filter|]. split.
  - apply NoDup_filter. compute_done.
  - intros m. rewrite list_elem_of_filter. tauto.
Qed.

Lemma charts_share_the_period_axis_witness :
  Forecast.labels (forecast exact_fit may_july_sales) = ["May"; "July"; "Forecast 1"; "Forecast 2"].
Proof.
  destruct (charts_share_the_period_axis exact_fit may_july_sales) as (H & _).
  - vm_compute. discriminate.
  - rewrite H. vm_compute. reflexivity.
Defined.


(** ** Metrics *)

Lemma map_result_fmap {A B C : Type} (f : B → result C) (g : A → B) (l : list A) :
  map_result f (g <$> l) = map_result (λ x, f (g x)) l.
Proof. induction l as [|x l IH]; cbn; [done|]. by rewrite IH. Qed.

Lemma map_result_pure {A B : Type} (f : A → result B) (h : A → B) (l : list A) :
  Forall (λ x, f x = Ok (h x)) l → map_result f l = Ok (h <$> l).
Proof. induction 1 as [|x l Hx _ IH]; cbn; [done|]. by rewrite Hx, IH. Qed.

Lemma map_result_length {A B : Type} (f : A → result B) (l : list A) (ys : list B) :
  map_result f l = Ok ys → length ys = length l.
Proof. intros H%map_result_Ok. symmetry. by eapply Forall2_length. Qed.

Lemma map_result_Raise {A B : Type} (f : A → result B) (l : list A) (x : A) (e : exn) :
  x ∈ l → f x = Raise e → ∃ e', map_result f l = Raise e'.
Proof.
  intros Hx Hf. induction l as [|y l IH]; [by apply elem_of_nil in Hx|].
  cbn. apply elem_of_cons in Hx as [<-|Hx].
  - rewrite Hf. cbn. eauto.
  - destruct (f y); cbn; [|eauto]. destruct (IH Hx) as [e' ->]. cbn. eauto.
Qed.

Lemma length_filter_fmap {A : Type} (h : A → bool) (l : list A) :
  length (filter (λ b, b = true) (h <$> l)) = length (filter (λ x, h x = true) l).
Proof.
  induction l as [|x l IH]; [done|]. cbn [fmap list_fmap]. rewrite !filter_cons.
  destruct (h x).
  - rewrite !decide_True by done. cbn [length]. by rewrite <- IH.
  - rewrite !decide_False by done. exact IH.
Qed.

(** X16.  Whatever the tables hold, [metrics] returns an alert count between
    0 and the number of rows of the shipment table, which is the ingredient
    total it reports; with no shipment table the weekly and alert counts are 0. *)
Theorem metrics_alert_count_bounds (float_of_str : string → result (option Q))
  (s : snapshot) :
  0 ≤ Metrics.alertCount (metrics float_of_str s)
    ≤ Metrics.totalIngredients (metrics float_of_str s)
  ∧ (shipment_df s = None →
     Metrics.weeklyShipments (metrics float_of_str s) = 0
     ∧ Metrics.alertCount (metrics float_of_str s) = 0
     ∧ Metrics.totalIngredients (metrics float_of_str s) = 0).
Proof.
  unfold metrics. cbn [Metrics.alertCount Metrics.totalIngredients Metrics.weeklyShipments].
  destruct (shipment_df s) as [df|]; [|split; [cbn; lia|done]].
  split; [|done].
  destruct (metrics_try float_of_str df) as [[w a]|] eqn:H; cbn; [|lia].
  unfold metrics_try in H. inv_bind H. inv_bind H. injection H as _ <-.
  destruct (has_column df "Number of shipments"); [|injection E0 as <-; lia].
  unfold column in E0. destruct (has_column df "Number of shipments"); [|discriminate].
  cbn [bind] in E0. inv_bind E0. injection E0 as <-.
  apply map_result_length in E1. unfold cells in E1. rewrite length_fmap in E1.
  split; [lia|]. apply inj_le. rewrite <- E1. apply length_filter.
Qed.

(** X17.  One text cell in the "Number of shipments" column is enough for the
    handler of [metrics] to reset both counts: the weekly shipments and the
    alert count are 0, whatever the other rows hold. *)
Theorem metrics_zeroed_by_a_text_cell (float_of_str : string → result (option Q))
  (s : snapshot) (df : DataFrame) (v : value) :
  shipment_df s = Some df → has_column df "Number of shipments" = true →
  v ∈ cells df "Number of shipments" → is_str v = true →
  Metrics.weeklyShipments (metrics float_of_str s) = 0
  ∧ Metrics.alertCount (metrics float_of_str s) = 0.
Proof.
  intros Hdf Hcol Hv Hstr.
  assert (∃ e, metrics_try float_of_str df = Raise e) as [e He].
  { unfold metrics_try.
    match goal with |- ∃ e, bind ?m _ = _ => destruct m as [w|e] end; [|cbn; eauto].
    cbn [bind]. rewrite Hcol. unfold column. rewrite Hcol. cbn [bind].
    destruct (map_result_Raise (λ v, Py.ge (safe_val v (VInt 0)) 5) _ v TypeError Hv)
      as [e' ->]; [|cbn; eauto].
    destruct v as [|[]|[]]; try discriminate; reflexivity. }
  unfold metrics. cbn [Metrics.alertCount Metrics.weeklyShipments].
  rewrite Hdf, He. done.
Qed.

Lemma metrics_zeroed_by_a_text_cell_witness :
  Metrics.alertCount (metrics no_float (shipments_only [egg_weekly; rice_many])) = 0
  ∧ emits_warning egg_weekly = true.
Proof.
  split; [|vm_compute; reflexivity].
  apply (metrics_zeroed_by_a_text_cell no_float
           (shipments_only [egg_weekly; rice_many]) _ (VStr "many") eq_refl).
  - vm_compute. reflexivity.
  - vm_compute. apply list_elem_of_further, list_elem_of_here.
  - reflexivity.
Defined.

Lemma metrics_alert_count_bounds_witness :
  Metrics.alertCount (metrics no_float no_tables) = 0.
Proof.
  destruct (metrics_alert_count_bounds no_float no_tables) as [_ H].
  exact (proj1 (proj2 (H eq_refl))).
Defined.

Lemma emits_warning_complete (row : gmap string value) (n : value) :
  complete_row row = true → row !! "Number of shipments" = Some n →
  Py.ge (safe_val n (VInt 0)) 5 = Ok (emits_warning row) ∧ is_number n = true.
Proof.
  intros (i & q & u & n' & f & Hi & Hq & Hu & Hn & Hf & Nq & Nn)%complete_row_fields Hn'.
  assert (n' = n) as -> by congruence.
  destruct (alerts_row_complete row i q u n f)
    as (high & c & total & p & Hhigh & _ & _ & _ & Hrow); try assumption.
  unfold emits_warning. rewrite Hrow. split; [|assumption].
  replace (Py.ge (safe_val n (VInt 0)) 5) with (Py.ge n 5)
    by (destruct n as [|[]|[]]; try discriminate; reflexivity).
  rewrite Hhigh. by destruct high, (Str.contains "egg" _).
Qed.

(** X18.  On a shipment table of complete rows that has its "Number of
    shipments" column, the alert count of [metrics] is the number of rows for
    which [alerts] emits the high-frequency warning, with no cap at 3. *)
Theorem metrics_counts_the_warnings (float_of_str : string → result (option Q))
  (s : snapshot) (df : DataFrame) :
  shipment_df s = Some df → has_column df "Number of shipments" = true →
  Forall (λ row, complete_row row = true) (rows df) →
  Metrics.alertCount (metrics float_of_str s)
  = Z.of_nat (length (filter (λ row, emits_warning row = true) (rows df))).
Proof.
  intros Hdf Hcol Hall.
  assert (Forall (λ row, is_number (get row "Number of shipments" VNaN) = true
                         ∧ Py.ge (safe_val (get row "Number of shipments" VNaN) (VInt 0)) 5
                           = Ok (emits_warning row)) (rows df)) as Hrows.
  { eapply Forall_impl; [exact Hall|]. intros row Hrow. cbn in Hrow.
    destruct (complete_row_fields row Hrow) as (_ & _ & _ & n & _ & _ & _ & _ & Hn & _).
    unfold get. rewrite Hn. destruct (emits_warning_complete row n Hrow Hn). done. }
  assert (∃ w, metrics_try float_of_str df
               = Ok (w, Z.of_nat (length (filter (λ row, emits_warning row = true)
                                                 (rows df))))) as [w Hw].
  { unfold metrics_try.
    match goal with
    | |- ∃ w, bind ?m _ = _ => assert (∃ w, m = Ok w) as [w ->]
    end.
    { rewrite Hcol, andb_true_r. unfold column. rewrite Hcol.
      destruct (has_column df "frequency"); [|eauto]. cbn [bind].
      unfold cells. rewrite map_result_fmap.
      destruct (map_result_total
                  (λ row, astype_float float_of_str
                            (safe_val (get row "Number of shipments" VNaN) (VInt 0)))
                  (rows df)) as [num ->]; [|cbn; eauto].
      eapply Forall_impl; [exact Hrows|]. intros row [Hn _]. cbn beta.
      destruct (get row "Number of shipments" VNaN) as [|[]|[]]; try discriminate;
        eexists; reflexivity. }
    exists w. cbn [bind]. rewrite Hcol. unfold column. rewrite Hcol. cbn [bind].
    unfold cells. rewrite map_result_fmap.
    rewrite (map_result_pure _ emits_warning);
      [|eapply Forall_impl; [exact Hrows|]; by intros row [_ ?]].
    cbn [bind]. by rewrite length_filter_fmap. }
  unfold metrics. cbn [Metrics.alertCount]. rewrite Hdf, Hw. reflexivity.
Qed.

Lemma metrics_counts_the_warnings_witness :
  Metrics.alertCount
    (metrics no_float
       (shipments_only [egg_weekly; rice_weekly; egg_weekly; egg_weekly; egg_weekly]))
  = 4.
Proof.
  rewrite (metrics_counts_the_warnings no_float
             (shipments_only [egg_weekly; rice_weekly; egg_weekly; egg_weekly; egg_weekly])
             _ eq_refl).
  - vm_compute. reflexivity.
  - vm_compute. reflexivity.
  - repeat constructor.
Defined.


(** ** Recommendations *)

Lemma shipment_recs_shape (df : DataFrame) (recs : list Rec.t) :
  shipment_recs df = Ok recs →
  ∃ bulk waste, recs = bulk ++ waste
    ∧ (bulk = [] ∨ ∃ items, bulk = [bulk_buying items])
    ∧ (waste = [] ∨ waste = [reduce_waste]).
Proof.
  intros H. unfold shipment_recs in H. do 4 inv_bind H. injection H as <-.
  exists v1, (if existsb (λ item, is_in item v2) fresh then [reduce_waste] else []).
  split; [reflexivity|]. split.
  - destruct (0 <? _)%nat; [|injection E1 as <-; by left].
    do 2 inv_bind E1. injection E1 as <-. right. eauto.
  - destruct (existsb _ fresh); auto.
Qed.

(** X19.  [recommendations] never returns more than three entries, and always
    in one order: the bulk-buying entry if any, the waste entry if any, and
    last the menu entry, which is there exactly when the ingredient table is
    loaded and cites its number of rows.  Without a shipment table only the
    menu entry can be there. *)
Theorem recommendations_shape (s : snapshot) (l : list Rec.t) :
  recommendations s = Ok l →
  ∃ bulk waste,
    l = bulk ++ waste ++ match ingredient_df s with
                         | Some df => [menu_engineering (length (rows df))]
                         | None => []
                         end
    ∧ (bulk = [] ∨ ∃ items, bulk = [bulk_buying items])
    ∧ (waste = [] ∨ waste = [reduce_waste])
    ∧ (shipment_df s = None → bulk = [] ∧ waste = [])
    ∧ (length l ≤ 3)%nat.
Proof.
  intros H. unfold recommendations in H. inv_bind H. injection H as <-.
  assert (∃ bulk waste, v = bulk ++ waste
            ∧ (bulk = [] ∨ ∃ items, bulk = [bulk_buying items])
            ∧ (waste = [] ∨ waste = [reduce_waste])
            ∧ (shipment_df s = None → bulk = [] ∧ waste = []))
    as (bulk & waste & -> & Hb & Hw & Hn).
  { destruct (shipment_df s) as [df|].
    - destruct (shipment_recs_shape df v E) as (bulk & waste & ? & ? & ?).
      exists bulk, waste. done.
    - injection E as <-. exists [], []. auto. }
  exists bulk, waste. rewrite <- app_assoc. repeat (split; [assumption || reflexivity|]).
  rewrite !length_app.
  destruct Hb as [->|[? ->]], Hw as [->| ->], (ingredient_df s); cbn; lia.
Qed.

Lemma recommendations_shape_witness :
  recommendations (shipments_and_menu [egg_weekly; rice_weekly])
  = Ok [ bulk_buying "Egg, Rice"; menu_engineering 1 ].
Proof.
  destruct (recommendations_shape (shipments_and_menu [egg_weekly; rice_weekly])
              [ bulk_buying "Egg, Rice"; menu_engineering 1 ])
    as (bulk & waste & H & _); vm_compute; reflexivity.
Defined.

(** X20.  A shipment table that has lost its "Number of shipments" column
    makes [recommendations] raise [KeyError], so not even the menu entry of a
    loaded ingredient table is returned; and when the counts can be compared
    but the "Ingredient" column is missing, it raises [KeyError] for that one. *)
Theorem recommendations_need_the_columns (s : snapshot) (df : DataFrame) :
  shipment_df s = Some df →
  (has_column df "Number of shipments" = false →
   recommendations s = Raise (KeyError "Number of shipments"))
  ∧ (has_column df "Number of shipments" = true →
     has_column df "Ingredient" = false →
     Forall (λ v, is_number v = true) (cells df "Number of shipments") →
     recommendations s = Raise (KeyError "Ingredient")).
Proof.
  intros Hdf. unfold recommendations, shipment_recs, column. rewrite Hdf. split.
  - intros ->. reflexivity.
  - intros -> Hi Hnum. cbn [bind columns].
    destruct (map_result_total (λ v, Py.ge v 4) (cells df "Number of shipments"))
      as [mask ->].
    { eapply Forall_impl; [exact Hnum|]. intros v Hv. by apply ge_number. }
    cbn [bind rows]. unfold has_column in *. cbn [columns]. rewrite Hi.
    by destruct (0 <? _)%nat.
Qed.

Lemma recommendations_need_the_columns_witness :
  recommendations menu_and_no_count_column = Raise (KeyError "Number of shipments").
Proof.
  apply (recommendations_need_the_columns menu_and_no_count_column _ eq_refl).
  vm_compute. reflexivity.
Defined.

Lemma ge_5_ge_4 (n : value) : Py.ge n 5 = Ok true → Py.ge n 4 = Ok true.
Proof.
  unfold Py.ge. destruct (unbox n) as [[x|x| |]|]; try discriminate; intros H;
    injection H as H; f_equal.
  - apply Z.leb_le in H. apply Z.leb_le. lia.
  - apply Qle_bool_iff in H. apply Qle_bool_iff.
    apply Qle_trans with (inject_Z 5); [|assumption].
    rewrite <- Zle_Qle. lia.
Qed.

(** X21.  The two thresholds agree in one direction: whenever
    [recommendations] returns and the shipment table has a row with 5 or more
    shipments, for which [alerts] raises its high-frequency warning, the
    bulk-buying entry is there, and it is the first entry. *)
Theorem high_frequency_brings_bulk_buying (s : snapshot) (df : DataFrame)
  (l : list Rec.t) (row : gmap string value) (n : value) :
  shipment_df s = Some df → recommendations s = Ok l →
  row ∈ rows df → row !! "Number of shipments" = Some n → Py.ge n 5 = Ok true →
  ∃ items, head l = Some (bulk_buying items).
Proof.
  intros Hdf H Hrow Hn H5. unfold recommendations in H. rewrite Hdf in H.
  inv_bind H. injection H as <-.
  unfold shipment_recs in E. apply bind_Ok in E as (cs & Hcs & E).
  apply bind_Ok in E as (mask & Hmask & E). apply bind_Ok in E as (bulk & Hbulk & E).
  apply bind_Ok in E as (ings & Hings & E). injection E as <-.
  unfold column in Hcs. destruct (has_column df "Number of shipments"); [|discriminate].
  injection Hcs as <-. apply map_result_Ok in Hmask.
  apply list_elem_of_lookup in Hrow as [j Hj].
  assert (cells df "Number of shipments" !! j = Some n) as Hcj.
  { unfold cells. rewrite list_lookup_fmap, Hj. cbn. unfold get. by rewrite Hn. }
  destruct (Forall2_lookup_l _ _ _ _ _ Hmask Hcj) as (b & Hb & Hge).
  rewrite (ge_5_ge_4 n H5) in Hge. injection Hge as <-.
  cbn [rows] in Hbulk.
  assert ((0 <? length (filter (λ p : gmap string value * bool, p.2 = true)
                               (zip (rows df) mask)).*1)%nat = true) as Hpos.
  { apply Nat.ltb_lt. rewrite length_fmap.
    assert ((row, true) ∈ filter (λ p : gmap string value * bool, p.2 = true)
                                 (zip (rows df) mask)) as Hin.
    { apply list_elem_of_filter. split; [done|].
      apply list_elem_of_lookup. exists j. rewrite lookup_zip_with, Hj. cbn. by rewrite Hb. }
    destruct (filter _ _); [by apply elem_of_nil in Hin | cbn; lia]. }
  rewrite Hpos in Hbulk. do 2 inv_bind Hbulk. injection Hbulk as <-.
  eexists. reflexivity.
Qed.

Lemma high_frequency_brings_bulk_buying_witness :
  ∃ items, head (match recommendations (shipments_and_menu [rice_weekly; egg_weekly]) with
                 | Ok l => l
                 | Raise _ => []
                 end) = Some (bulk_buying items).
Proof.
  destruct (high_frequency_brings_bulk_buying
              (shipments_and_menu [rice_weekly; egg_weekly]) _
              [ bulk_buying "Rice, Egg"; menu_engineering 1 ]
              egg_weekly (VInt 5) eq_refl) as [items H].
  - vm_compute. reflexivity.
  - apply list_elem_of_further, list_elem_of_here.
  - reflexivity.
  - reflexivity.
  - exists "Rice, Egg". vm_compute. reflexivity.
Defined.

(** ** Ingredient usage *)

(** X22.  [ingredient_usage] returns its two empty lists, whatever
    [nlargest] does, when the shipment table has no row, when [weekly_calc]
    raises on some row, when it yields a text for some row (a text quantity
    repeated by the count), or when it yields a missing value for every row. *)
Theorem ingredient_usage_empties
  (nlargest : nat → list (gmap string value * value) → list (gmap string value * value))
  (s : snapshot) (df : DataFrame) :
  shipment_df s = Some df →
  rows df = []
  ∨ (∃ row e, row ∈ rows df ∧ weekly_calc row = Raise e)
  ∨ (∃ row v, row ∈ rows df ∧ weekly_calc row = Ok v ∧ is_str v = true)
  ∨ Forall (λ row, ∃ v, weekly_calc row = Ok v ∧ Py.notna v = false) (rows df) →
  ingredient_usage nlargest s = {| Usage.labels := []; Usage.data := [] |}.
Proof.
  intros Hdf H. unfold ingredient_usage. rewrite Hdf. unfold ingredient_usage_try.
  destruct (map_result weekly_calc (rows df)) as [usage|e] eqn:Hu; [|reflexivity].
  cbn [bind]. pose proof (map_result_Ok _ _ _ Hu) as H2.
  destruct H as [H|[(row & e & Hin & Hrow)|[(row & v & Hin & Hrow & Hstr)|H]]].
  - rewrite H in H2. apply Forall2_nil_inv_l in H2 as ->. reflexivity.
  - destruct (map_result_Raise weekly_calc _ row e Hin Hrow) as [e' He']. congruence.
  - destruct (forallb _ usage); [reflexivity|].
    assert (existsb is_str usage = true) as ->; [|reflexivity].
    apply existsb_exists. exists v. split; [|assumption].
    apply list_elem_of_lookup in Hin as [j Hj].
    destruct (Forall2_lookup_l _ _ _ _ _ H2 Hj) as (v' & Hv' & Hv).
    rewrite Hrow in Hv. injection Hv as <-.
    apply list_elem_of_In. by eapply list_elem_of_lookup_2.
  - assert (forallb (λ v, negb (Py.notna v)) usage = true) as ->; [|reflexivity].
    apply forallb_forall. intros v Hv%list_elem_of_In.
    apply list_elem_of_lookup in Hv as [j Hj].
    destruct (Forall2_lookup_r _ _ _ _ _ H2 Hj) as (row & Hrow & Hv).
    rewrite Forall_forall in H.
    destruct (H row) as (v' & Hv' & Hna); [by eapply list_elem_of_lookup_2|].
    rewrite Hv in Hv'. injection Hv' as <-. by rewrite Hna.
Qed.

Lemma ingredient_usage_empties_witness :
  ingredient_usage first_rows (shipments_only [egg_weekly; rice_many])
  = {| Usage.labels := []; Usage.data := [] |}.
Proof.
  apply (ingredient_usage_empties first_rows
           (shipments_only [egg_weekly; rice_many]) _ eq_refl).
  right. right. left. exists rice_many. eexists.
  split; [apply list_elem_of_further, list_elem_of_here|].
  split; vm_compute; reflexivity.
Defined.

(** X23.  Whatever [nlargest] keeps, the two lists of [ingredient_usage] go
    together when the shipment table has an "Ingredient" column: they have the
    same length.  Without that column the labels are empty, even when there
    are data. *)
Theorem ingredient_usage_labels
  (nlargest : nat → list (gmap string value * value) → list (gmap string value * value))
  (s : snapshot) (df : DataFrame) :
  shipment_df s = Some df →
  (has_column df "Ingredient" = true →
   length (Usage.labels (ingredient_usage nlargest s))
   = length (Usage.data (ingredient_usage nlargest s)))
  ∧ (has_column df "Ingredient" = false →
     Usage.labels (ingredient_usage nlargest s) = []).
Proof.
  intros Hdf. unfold ingredient_usage. rewrite Hdf.
  destruct (ingredient_usage_try nlargest df) as [r|e] eqn:H; cbn [catch];
    [|split; reflexivity].
  unfold ingredient_usage_try in H. inv_bind H.
  destruct (forallb _ v); [injection H as <-; split; reflexivity|].
  destruct (existsb is_str v); [discriminate|].
  inv_bind H. injection H as <-. cbn [Usage.labels Usage.data].
  apply map_result_length in E0. split; intros ->; [|reflexivity].
  by rewrite length_fmap, E0.
Qed.

Lemma ingredient_usage_labels_witness :
  length (Usage.labels (ingredient_usage first_rows (shipments_only [egg_weekly; rice_weekly])))
  = 2%nat.
Proof.
  destruct (ingredient_usage_labels first_rows
              (shipments_only [egg_weekly; rice_weekly]) _ eq_refl) as [H _].
  rewrite H; vm_compute; reflexivity.
Defined.

(** ** Protein forecast: the keys *)

Lemma protein_row_shape (m m' : gmap string Protein.t) (row : gmap string value) :
  protein_row m row = Ok m' →
  (names_beef row = true
   ∧ ∃ e, m' = <["beef" := e]> m ∧ ∀ m2, protein_row m2 row = Ok (<["beef" := e]> m2))
  ∨ (names_beef row = false ∧ (m' = m ∨ ∃ e, m' = <["chicken" := e]> m)).
Proof.
  unfold protein_row, names_beef, getitem.
  destruct (row !! "Ingredient") as [i|]; [cbn [bind]|discriminate].
  destruct (row !! "Quantity per shipment") as [q|]; [cbn [bind]|discriminate].
  destruct (row !! "Number of shipments") as [n|]; [cbn [bind]|discriminate].
  destruct (Py.mul q n) as [qty|]; [cbn [bind]|discriminate].
  destruct (row !! "frequency") as [f|]; [cbn [bind]|discriminate].
  destruct (if negb _ then _ else _) as [qty'|]; [cbn [bind]|discriminate].
  destruct (Str.contains "beef" _).
  - destruct (protein_entry row qty') as [e|]; [cbn [bind]|discriminate].
    intros H. injection H as <-. left. split; [done|]. exists e. split; [done|]. done.
  - intros H. right. split; [done|]. destruct (_ && _)%bool.
    + destruct (protein_entry row qty') as [e|]; [cbn [bind] in H|discriminate].
      injection H as <-. right. eauto.
    + injection H as <-. by left.
Qed.

Lemma for_each_app {A S : Type} (body : S → A → result S) (l1 l2 : list A) (acc : S) :
  for_each body (l1 ++ l2) acc = (acc' <- for_each body l1 acc;; for_each body l2 acc').
Proof.
  revert acc. induction l1 as [|x l1 IH]; intros acc; cbn; [done|].
  destruct (body acc x); cbn; [apply IH|done].
Qed.

(** X24.  Whatever the shipment table holds, a protein forecast has no other
    keys than "beef", "chicken" and "pork". *)
Theorem protein_forecast_keys (s : snapshot) (r : gmap string Protein.t) (k : string) :
  protein_forecast s = Ok r → is_Some (r !! k) →
  k = "beef" ∨ k = "chicken" ∨ k = "pork".
Proof.
  intros H Hk. unfold protein_forecast in H.
  destruct (shipment_df s) as [df|];
    [|injection H as <-; rewrite lookup_empty in Hk; by destruct Hk].
  inv_bind H.
  assert (∀ k, is_Some (v !! k) → k = "beef" ∨ k = "chicken") as Hv.
  { eapply (for_each_invariant
              (λ m : gmap string Protein.t, ∀ k, is_Some (m !! k) → k = "beef" ∨ k = "chicken"));
      [|exact E|].
    - intros acc x acc' Hx Hacc k'.
      destruct (protein_row_shape acc acc' x Hx) as [[_ (e & -> & _)]|[_ [->|[e ->]]]];
        [|apply Hacc|]; rewrite lookup_insert; case_decide; subst; auto.
    - intros k'. rewrite lookup_empty. by intros []. }
  destruct (v !! "pork"); injection H as <-.
  - destruct (Hv k Hk); auto.
  - rewrite lookup_insert in Hk. case_decide; [subst; auto|]. destruct (Hv k Hk); auto.
Qed.

Lemma protein_forecast_keys_witness :
  protein_forecast (shipments_only [beef_weekly; egg_weekly]) = Ok beef_forecast
  ∧ ("beef" = "beef" ∨ "beef" = "chicken" ∨ "beef" = "pork").
Proof.
  assert (protein_forecast (shipments_only [beef_weekly; egg_weekly]) = Ok beef_forecast)
    as H by (vm_compute; reflexivity).
  split; [exact H|].
  apply (protein_forecast_keys (shipments_only [beef_weekly; egg_weekly]) beef_forecast
           "beef" H).
  vm_compute. eauto.
Defined.

Lemma for_each_protein_keeps_beef (l : list (gmap string value))
  (m m' : gmap string Protein.t) :
  Forall (λ row, names_beef row = false) l →
  for_each protein_row l m = Ok m' → m' !! "beef" = m !! "beef".
Proof.
  intros H. revert m. induction H as [|row l Hrow _ IH]; intros m Hm; cbn in Hm.
  - by injection Hm as <-.
  - inv_bind Hm. rewrite (IH _ Hm).
    destruct (protein_row_shape m v row E) as [[Hb _]|[_ [->|[e ->]]]];
      [congruence|done|by rewrite lookup_insert_ne].
Qed.

(** X25.  Entries are overwritten: the "beef" entry of a protein forecast is
    the one of the last row whose ingredient has "beef" in its name, the one
    that row alone would give. *)
Theorem beef_entry_of_the_last_beef_row (s : snapshot) (df : DataFrame)
  (l1 l2 : list (gmap string value)) (row : gmap string value)
  (r m0 : gmap string Protein.t) :
  shipment_df s = Some df → rows df = l1 ++ row :: l2 →
  names_beef row = true → Forall (λ row, names_beef row = false) l2 →
  protein_forecast s = Ok r → protein_row ∅ row = Ok m0 →
  is_Some (r !! "beef") ∧ r !! "beef" = m0 !! "beef".
Proof.
  intros Hdf Hrows Hbeef Hl2 H H0. unfold protein_forecast in H. rewrite Hdf, Hrows in H.
  inv_bind H. rewrite for_each_app in E. apply bind_Ok in E as (m1 & _ & E).
  cbn [for_each] in E. apply bind_Ok in E as (m2 & Hm2 & E).
  apply (for_each_protein_keeps_beef l2 m2 v Hl2) in E.
  destruct (protein_row_shape m1 m2 row Hm2) as [[_ (e & -> & Hall)]|[Hb _]];
    [|congruence].
  rewrite Hall in H0. injection H0 as <-.
  assert (r !! "beef" = Some e) as ->.
  { rewrite lookup_insert_eq in E.
    destruct (v !! "pork"); injection H as <-; [done|].
    by rewrite lookup_insert_ne. }
  rewrite lookup_insert_eq. split; [eauto|reflexivity].
Qed.

Lemma beef_entry_of_the_last_beef_row_witness :
  protein_forecast (shipments_only [beef_monthly; beef_weekly; egg_weekly])
  = Ok beef_forecast
  ∧ beef_forecast !! "beef" = beef_80 !! "beef".
Proof.
  assert (protein_forecast (shipments_only [beef_monthly; beef_weekly; egg_weekly])
          = Ok beef_forecast) as H by (vm_compute; reflexivity).
  split; [exact H|].
  apply (beef_entry_of_the_last_beef_row
           (shipments_only [beef_monthly; beef_weekly; egg_weekly]) _
           [beef_monthly] [egg_weekly] beef_weekly beef_forecast beef_80
           eq_refl eq_refl eq_refl).
  - repeat constructor.
  - exact H.
  - vm_compute. reflexivity.
Defined.

(** ** Ingredient matrix: what an entry holds *)




(** X27.  The protein of an entry is "0" when the row holds none of the three
    protein columns, and the integer part of the braised beef when that cell
    is a positive number, whatever the chicken and pork cells hold. *)
Theorem matrix_protein (cols : list string) (row : gmap string value) (e : Matrix.t) :
  matrix_row cols row = Ok e →
  (row !! "braised beef used (g)" = None → row !! "Braised Chicken(g)" = None →
   row !! "Braised Pork(g)" = None → Matrix.protein e = "0")
  ∧ (∀ v, row !! "braised beef used (g)" = Some v → is_number v = true →
          Py.gt v 0 = Ok true →
          ∃ z, Py.int v = Ok z ∧ Matrix.protein e = Str.of_Z z).
Proof.
  intros H. unfold matrix_row in H. apply bind_Ok in H as (used & _ & H).
  apply bind_Ok in H as (p & Hp & H). inv_bind H. injection H as <-. cbn.
  split.
  - intros Hb Hc Hk. cbn in Hp. rewrite Hb, Hc, Hk in Hp. by injection Hp as <-.
  - intros b Hv Nv Hpos. destruct (int_number b Nv) as [z Hz]. exists z.
    split; [assumption|]. cbn [protein_of] in Hp. rewrite Hv in Hp.
    assert (Py.notna b = true) as Hna.
    { apply is_number_inv in Nv as [[x Hx]|[x Hx]]; unfold Py.notna; by rewrite Hx. }
    rewrite Hna, Hpos in Hp. cbn [bind] in Hp. rewrite Hz in Hp. cbn [bind] in Hp.
    by injection Hp as <-.
Qed.

Lemma matrix_protein_witness :
  ∃ e, matrix_row matrix_columns beef_ramen = Ok e ∧ Matrix.protein e = Str.of_Z 140.
Proof.
  eexists. split; [vm_compute; reflexivity|].
  match goal with
  | |- Matrix.protein ?e = _ =>
      destruct (matrix_protein matrix_columns beef_ramen e) as [_ H];
        [vm_compute; reflexivity|]
  end.
  destruct (H (VInt 140)) as (z & Hz & Hp); [vm_compute; reflexivity..|].
  vm_compute in Hz. injection Hz as <-. exact Hp.
Defined.

(** ** Keyword dispatch *)

Lemma first_match_first {A : Type} (t1 t2 : list (string * A)) (key : string) (v d : A)
  (s : string) :
  Forall (λ p, Str.contains p.1 s = false) t1 → Str.contains key s = true →
  first_match (t1 ++ (key, v) :: t2) s d = v.
Proof.
  induction 1 as [|[k' v'] t1 Hk _ IH]; intros Hkey; cbn.
  - by rewrite Hkey.
  - cbn in Hk. rewrite Hk. by apply IH.
Qed.

Lemma first_match_default {A : Type} (table : list (string * A)) (d : A) (s : string) :
  Forall (λ p, Str.contains p.1 s = false) table → first_match table s d = d.
Proof.
  induction 1 as [|[k' v'] t1 Hk _ IH]; cbn; [done|]. cbn in Hk. by rewrite Hk.
Qed.

(** X28.  The unit cost of a row is decided by the first keyword of the cost
    table, in its declared order, that occurs in the lower-cased name of the
    ingredient, later keywords being ignored; it is 3 when none occurs. *)
Theorem unit_cost_first_keyword (row : gmap string value) (i : value) (c : costing) :
  row !! "Ingredient" = Some i → cost_row row = Ok c →
  (∀ t1 t2 key v,
     costs = t1 ++ (key, v) :: t2 →
     Forall (λ p, Str.contains p.1 (Str.lower (Py.str i)) = false) t1 →
     Str.contains key (Str.lower (Py.str i)) = true →
     cost_per_unit c = v)
  ∧ (Forall (λ p, Str.contains p.1 (Str.lower (Py.str i)) = false) costs →
     cost_per_unit c = VInt 3).
Proof.
  intros Hi H. unfold cost_row, getitem in H. rewrite Hi in H. cbn [bind] in H.
  do 6 inv_bind H.
  assert (cost_per_unit c = first_match costs (Str.lower (Py.str i)) (VInt 3)) as ->
    by (by injection H as <-).
  split.
  - intros t1 t2 key w Hcosts Ht1 Hkey. rewrite Hcosts. by apply first_match_first.
  - apply first_match_default.
Qed.

Lemma unit_cost_first_keyword_witness :
  cost_per_unit <$> (match cost_row (shipment "Egg Fried Rice" (VInt 2) "box" (VInt 1) "weekly")
                     with Ok c => Some c | Raise _ => None end)
  = Some (VFloat (3 # 10)).
Proof.
  destruct (cost_row (shipment "Egg Fried Rice" (VInt 2) "box" (VInt 1) "weekly"))
    as [c|] eqn:H; [|vm_compute in H; discriminate].
  assert (shipment "Egg Fried Rice" (VInt 2) "box" (VInt 1) "weekly" !! "Ingredient"
          = Some (VStr "Egg Fried Rice")) as Hi by (vm_compute; reflexivity).
  destruct (unit_cost_first_keyword _ _ c Hi H) as [Hfirst _].
  cbn [fmap option_fmap option_map]. f_equal.
  apply (Hfirst [("beef", VInt 8); ("chicken", VInt 4)]
                [("rice", VInt 2); ("ramen", VFloat (3 # 2)); ("flour", VFloat (1 # 2));
                 ("onion", VFloat (1 # 10)); ("carrot", VInt 3)]
                "egg" (VFloat (3 # 10))).
  - reflexivity.
  - repeat constructor.
  - vm_compute. reflexivity.
Defined.
